(** * rebuild-gobin: the inventory parser and the rebuild loop of [main.go]

    A shallow embedding of [inspectGobin], [rebuild] and [run] and the
    properties of the specification that concern them.

    Go strings are byte sequences; they are modelled by [string], whose
    characters ([ascii]) are the bytes.  Indices are [Z], as Go's [int], so
    that the [-1] of [strings.Index] and the slice bounds are written out. *)

From Stdlib Require Import String Ascii List ZArith NArith Bool Lia.
Import ListNotations.

Local Open Scope string_scope.
Local Open Scope list_scope.

(* ================================================================== *)
(** * Errors and results *)

(** The [error] values that reach [run]. *)
Inductive error : Type :=
| ErrTooLong                      (* bufio.ErrTooLong *)
| ErrInvalidSpec (spec : string)  (* fmt.Errorf("invalid path@version spec: %q", spec) *)
| ErrExternal (msg : string).     (* an error of os or os/exec *)

(** A Go call returns a value, returns an error, or panics. *)
Inductive result (A : Type) : Type :=
| Ok (a : A)
| Err (e : error)
| Panic (msg : string).

Arguments Ok {A} a.
Arguments Err {A} e.
Arguments Panic {A} msg.

(* ================================================================== *)
(** * The functions of package [strings] the program calls *)

Module Strings.

(** [len(s)] *)
Definition len (s : string) : Z := Z.of_nat (String.length s).

(** [strings.HasPrefix(s, prefix)] *)
Definition HasPrefix (s pre : string) : bool := String.prefix pre s.

(** [strings.Index(s, substr)]: the index of the first instance of [substr]
    in [s], or [-1]. *)
Fixpoint Index (s substr : string) : Z :=
  if String.prefix substr s then 0%Z
  else match s with
       | EmptyString => (-1)%Z
       | String _ s' =>
           let i := Index s' substr in
           if (i <? 0)%Z then (-1)%Z else (i + 1)%Z
       end.

(** [strings.IndexByte(s, c)] *)
Fixpoint IndexByte (s : string) (c : ascii) : Z :=
  match s with
  | EmptyString => (-1)%Z
  | String b s' =>
      if Ascii.eqb b c then 0%Z
      else let i := IndexByte s' c in
           if (i <? 0)%Z then (-1)%Z else (i + 1)%Z
  end.

(** [strings.ContainsRune(s, r)] for a rune below [utf8.RuneSelf], where
    [IndexRune] is [IndexByte]. *)
Definition ContainsRune (s : string) (r : ascii) : bool :=
  (0 <=? IndexByte s r)%Z.

(** The bytes of [s] from position [n] on. *)
Fixpoint drop (n : nat) (s : string) : string :=
  match n, s with
  | O, _ => s
  | S _, EmptyString => EmptyString
  | S n', String _ s' => drop n' s'
  end.

(** The slice expression [s[lo:]]: a run-time panic unless
    [0 <= lo <= len(s)]. *)
Definition sliceFrom (s : string) (lo : Z) : result string :=
  if ((0 <=? lo) && (lo <=? len s))%Z
  then Ok (drop (Z.to_nat lo) s)
  else Panic "slice bounds out of range".

(** ** UTF-8 decoding, as [for _, r := range s] does it *)

Definition byteval (c : ascii) : N := N_of_ascii c.

Definition RuneError : N := 65533.   (* U+FFFD *)

Definition inRange (lo hi b : N) : bool := ((lo <=? b) && (b <=? hi))%N.

(** Continuation bytes are [0x80..0xBF]. *)
Definition isCont (b : N) : bool := inRange 128 191 b.

Definition low6 (b : N) : N := N.land b 63.

(** The rune that starts [s] and its width in bytes
    ([utf8.DecodeRuneInString]); an invalid or truncated encoding is
    [RuneError] of width 1. *)
Definition decodeRune (s : string) : N * nat :=
  match s with
  | EmptyString => (RuneError, 0)
  | String c0 r0 =>
      let b0 := byteval c0 in
      if (b0 <? 128)%N then (b0, 1)
      else if inRange 194 223 b0 then
        (* two bytes *)
        match r0 with
        | String c1 _ =>
            let b1 := byteval c1 in
            if isCont b1
            then (N.lor (N.shiftl (N.land b0 31) 6) (low6 b1), 2)
            else (RuneError, 1)
        | _ => (RuneError, 1)
        end
      else if inRange 224 239 b0 then
        (* three bytes; 0xE0 and 0xED narrow the second byte *)
        match r0 with
        | String c1 (String c2 _) =>
            let b1 := byteval c1 in
            let b2 := byteval c2 in
            let lo := if (b0 =? 224)%N then 160%N else 128%N in
            let hi := if (b0 =? 237)%N then 159%N else 191%N in
            if inRange lo hi b1 && isCont b2
            then (N.lor (N.shiftl (N.land b0 15) 12)
                    (N.lor (N.shiftl (low6 b1) 6) (low6 b2)), 3)
            else (RuneError, 1)
        | _ => (RuneError, 1)
        end
      else if inRange 240 244 b0 then
        (* four bytes; 0xF0 and 0xF4 narrow the second byte *)
        match r0 with
        | String c1 (String c2 (String c3 _)) =>
            let b1 := byteval c1 in
            let b2 := byteval c2 in
            let b3 := byteval c3 in
            let lo := if (b0 =? 240)%N then 144%N else 128%N in
            let hi := if (b0 =? 244)%N then 143%N else 191%N in
            if inRange lo hi b1 && isCont b2 && isCont b3
            then (N.lor (N.shiftl (N.land b0 7) 18)
                    (N.lor (N.shiftl (low6 b1) 12)
                       (N.lor (N.shiftl (low6 b2) 6) (low6 b3))), 4)
            else (RuneError, 1)
        | _ => (RuneError, 1)
        end
      else (RuneError, 1)
  end.

(** [unicode.IsSpace]: the Latin-1 spaces and the rest of White_Space. *)
Definition IsSpace (r : N) : bool :=
  if (r <=? 255)%N then
    inRange 9 13 r || (r =? 32)%N || (r =? 133)%N || (r =? 160)%N
  else
    (r =? 5760)%N || inRange 8192 8202 r || inRange 8232 8233 r
    || (r =? 8239)%N || (r =? 8287)%N || (r =? 12288)%N.

(** The field under construction is closed when a space rune begins. *)
Definition closeField (cur : string) : list string :=
  match cur with
  | EmptyString => []
  | _ => [cur]
  end.

(** The loop of [strings.FieldsFunc(s, unicode.IsSpace)], byte by byte:
    [skip] counts the bytes of the current rune still to pass, [sp] is
    whether that rune is a space, [cur] the bytes of the field begun. *)
Fixpoint fieldsLoop (s : string) (skip : nat) (sp : bool) (cur : string)
  : list string :=
  match s with
  | EmptyString => closeField cur
  | String c s' =>
      let '(sp', skip') :=
        match skip with
        | O => let '(r, w) := decodeRune s in (IsSpace r, Nat.pred w)
        | S k => (sp, k)
        end in
      if sp' then closeField cur ++ fieldsLoop s' skip' sp' EmptyString
      else fieldsLoop s' skip' sp' (cur ++ String c EmptyString)
  end.

(** [strings.Fields(s)]: the maximal runs of non-space runes of [s].  The
    library takes a fast path when every byte is ASCII ([fieldsASCII]
    below); it computes the same list, see [Fields_ascii]. *)
Definition Fields (s : string) : list string :=
  fieldsLoop s 0 false EmptyString.

(** The table [asciiSpace]: tab, newline, vertical tab, form feed, carriage
    return and space. *)
Definition asciiSpace (c : ascii) : bool :=
  inRange 9 13 (byteval c) || (byteval c =? 32)%N.

(** The fast path of [strings.Fields] for a string of ASCII bytes. *)
Fixpoint fieldsASCII (s : string) (cur : string) : list string :=
  match s with
  | EmptyString => closeField cur
  | String c s' =>
      if asciiSpace c then closeField cur ++ fieldsASCII s' EmptyString
      else fieldsASCII s' (cur ++ String c EmptyString)
  end.

(** No byte of [s] has its high bit set ([setBits < utf8.RuneSelf]). *)
Fixpoint allASCII (s : string) : bool :=
  match s with
  | EmptyString => true
  | String c s' => (byteval c <? 128)%N && allASCII s'
  end.

End Strings.

Import Strings.

(* ================================================================== *)
(** * [bufio.Scanner] with the default split function [ScanLines] *)

Module Bufio.

(** [bufio.MaxScanTokenSize], the default limit of the scanner's buffer. *)
Definition MaxScanTokenSize : Z := 65536.

Definition newline : ascii := "010"%char.
Definition carriageReturn : ascii := "013"%char.

(** The pieces of [buf] between newlines; the last piece is what follows
    the last newline and may be empty. *)
Fixpoint pieces (buf : string) : list string :=
  match buf with
  | EmptyString => [EmptyString]
  | String c s =>
      if Ascii.eqb c newline then EmptyString :: pieces s
      else match pieces s with
           | l :: ls => String c l :: ls
           | [] => [String c EmptyString]
           end
  end.

(** [dropCR]: one trailing carriage return is removed from a line. *)
Fixpoint dropCR (l : string) : string :=
  match l with
  | EmptyString => EmptyString
  | String c EmptyString =>
      if Ascii.eqb c carriageReturn then EmptyString else l
  | String c l' => String c (dropCR l')
  end.

(** The tokens [Scan] yields and the error [Err] reports afterwards.  A
    line is delivered when it fits the buffer together with its newline;
    when the buffer is full of one unfinished line the scanner stops with
    [ErrTooLong].  An empty remainder at the end of the input is no
    token. *)
Fixpoint tokens (ps : list string) : list string * option error :=
  match ps with
  | [] => ([], None)
  | [l] =>
      match l with
      | EmptyString => ([], None)
      | _ => if (len l <? MaxScanTokenSize)%Z
             then ([dropCR l], None)
             else ([], Some ErrTooLong)
      end
  | l :: rest =>
      if (len l <? MaxScanTokenSize)%Z
      then let '(ts, e) := tokens rest in (dropCR l :: ts, e)
      else ([], Some ErrTooLong)
  end.

Definition scan (buf : string) : list string * option error :=
  tokens (pieces buf).

End Bufio.

(* ================================================================== *)
(** * The inventory parser: [program] and [inspectGobin] *)

(** [type program struct] *)
Record program : Type := mkProgram {
  path : string;
  modVersion : string;
  goVersion : string
}.

(** [func (p *program) valid() bool] *)
Definition valid (p : program) : bool :=
  negb (path p =? EmptyString) && negb (modVersion p =? EmptyString) && negb (goVersion p =? EmptyString).

(** [func (p *program) empty() bool]: [*p == program{}] *)
Definition empty (p : program) : bool :=
  (path p =? EmptyString) && (modVersion p =? EmptyString) && (goVersion p =? EmptyString).

(** [current.path = v] and [current.modVersion = v] *)
Definition setPath (v : string) (p : program) : program :=
  mkProgram v (modVersion p) (goVersion p).

Definition setModVersion (v : string) (p : program) : program :=
  mkProgram (path p) v (goVersion p).

(** The composite literals [program{}] and [program{goVersion: v}]. *)
Definition zeroProgram : program := mkProgram EmptyString EmptyString EmptyString.

Definition newProgram (v : string) : program :=
  mkProgram EmptyString EmptyString v.

(** The variables [out] and [current] of [inspectGobin]. *)
Definition scanState : Type := (list program * program)%type.

(** One turn of the loop [for scanner.Scan()], with [text] the line. *)
Definition scanLine (dir : string) (st : scanState) (text : string)
  : result scanState :=
  let '(out, current) := st in
  if HasPrefix text dir then
    let out := if valid current then out ++ [current] else out in
    match sliceFrom text (Index text ": " + 2) with
    | Ok v => Ok (out, newProgram v)
    | Err e => Err e
    | Panic m => Panic m
    end
  else
    let fields := Fields text in
    if (length fields =? 2)%nat && (nth 0 fields EmptyString =? "path") then
      Ok (out, setPath (nth 1 fields EmptyString) current)
    else if (3 <=? length fields)%nat && (nth 0 fields EmptyString =? "mod") then
      Ok (out, setModVersion (nth 2 fields EmptyString) current)
    else Ok (out, current).

(** The whole loop over the lines the scanner delivers. *)
Fixpoint scanLoop (dir : string) (lines : list string) (st : scanState)
  : result scanState :=
  match lines with
  | [] => Ok st
  | text :: rest =>
      match scanLine dir st text with
      | Ok st' => scanLoop dir rest st'
      | Err e => Err e
      | Panic m => Panic m
      end
  end.

(** [inspectGobin] from [var out []program] on, with [buf] the output of
    [go version -m dir]. *)
Definition parseInventory (dir buf : string) : result (list program) :=
  let '(lines, scanErr) := Bufio.scan buf in
  match scanLoop dir lines ([], zeroProgram) with
  | Ok (out, current) =>
      match scanErr with
      | Some e => Err e
      | None => Ok (if valid current then out ++ [current] else out)
      end
  | Err e => Err e
  | Panic m => Panic m
  end.

(* ================================================================== *)
(** * The world of [run]: external calls and what they leave behind *)

(** What [run] does to the outside, in order. *)
Inductive Event : Type :=
| EvMkdirTemp (res : string + error)   (* os.MkdirTemp with the pattern rebuild-gobin-* *)
| EvLog (line : string)                (* one line of the standard logger *)
| EvRun (dir : string) (args : list string) (err : option error)
                                       (* cmd.Run() of go with args in dir *)
| EvRemoveAll (dir : string).          (* os.RemoveAll(dir) *)

(** The outcomes of the external calls.  Those of [os.MkdirTemp] and of
    [cmd.Run] may depend on everything that happened before. *)
Record Env : Type := mkEnv {
  env_getGobin : result string;               (* getGobin() *)
  env_goVersionM : string -> result string;   (* go version -m dir: its output *)
  env_goVersion : result string;              (* goVersion() *)
  env_goExe : string;                         (* cmd.Path of exec.Command("go", ...) *)
  env_mkdirTemp : list Event -> (string * string) + error;
      (* os.TempDir() and the random part of the name, or the error *)
  env_install : list Event -> string -> string -> option error
      (* the error of cmd.Run() for go install spec in dir *)
}.

(** The local variables of [run], its pending deferred calls, and the
    events so far. *)
Record state : Type := mkState {
  skipped : list string;
  failed : list string;
  tempDir : string;
  deferred : list string;      (* arguments of the deferred os.RemoveAll *)
  trace : list Event
}.

Definition initState : state := mkState [] [] EmptyString [] [].

Definition addSkipped (s : string) (st : state) : state :=
  mkState (skipped st ++ [s]) (failed st) (tempDir st) (deferred st) (trace st).

Definition addFailed (s : string) (st : state) : state :=
  mkState (skipped st) (failed st ++ [s]) (tempDir st) (deferred st) (trace st).

Definition setTempDir (d : string) (st : state) : state :=
  mkState (skipped st) (failed st) d (deferred st) (trace st).

Definition pushDeferred (d : string) (st : state) : state :=
  mkState (skipped st) (failed st) (tempDir st) (d :: deferred st) (trace st).

Definition emit (ev : Event) (st : state) : state :=
  mkState (skipped st) (failed st) (tempDir st) (deferred st) (trace st ++ [ev]).

(** Computations of [run]: they thread the state and may fail. *)
Definition M (A : Type) : Type := state -> result A * state.

Definition ret {A : Type} (a : A) : M A := fun st => (Ok a, st).

Definition bind {A B : Type} (m : M A) (k : A -> M B) : M B :=
  fun st =>
    match m st with
    | (Ok a, st') => k a st'
    | (Err e, st') => (Err e, st')
    | (Panic msg, st') => (Panic msg, st')
    end.

Notation "x <- m ;; k" := (bind m (fun x => k))
  (at level 61, m at next level, right associativity).
Notation "m ;;; k" := (bind m (fun _ => k))
  (at level 61, right associativity).

(** [log.Println(args...)]: the operands separated by spaces. *)
Definition logPrintln (operands : list string) : M unit :=
  fun st => (Ok tt, emit (EvLog (String.concat " " operands)) st).

(** [os.MkdirTemp] with no directory given and the pattern
    [rebuild-gobin-*]: the directory is created in [os.TempDir()] under the name made of the pattern's prefix, a random
    string and the pattern's (empty) suffix. *)
Definition joinPath (dir name : string) : string :=
  if (String.length dir =? 0)%nat then dir ++ "/" ++ name
  else if HasPrefix (drop (String.length dir - 1) dir) "/" then dir ++ name
  else dir ++ "/" ++ name.

Definition MkdirTemp (env : Env) : M string :=
  fun st =>
    match env_mkdirTemp env (trace st) with
    | inl (tmp, rnd) =>
        let name := (joinPath tmp "rebuild-gobin-" ++ rnd)%string in
        (Ok name, emit (EvMkdirTemp (inl name)) st)
    | inr e => (Err e, emit (EvMkdirTemp (inr e)) st)
    end.

(** [cmd.String()] of [exec.Command("go", args...)] *)
Definition cmdString (env : Env) (args : list string) : string :=
  String.concat " " (env_goExe env :: args).

(** [cmd.Run()] of [go install spec] with [cmd.Dir = dir] *)
Definition cmdRun (env : Env) (dir spec : string) : M unit :=
  fun st =>
    let err := env_install env (trace st) dir spec in
    (match err with None => Ok tt | Some e => Err e end,
     emit (EvRun dir ["install"; spec] err) st).

(** [func rebuild(tempDir, spec string) error] *)
Definition rebuild (env : Env) (dir spec : string) : M unit :=
  fun st =>
    if (spec =? EmptyString) || negb (ContainsRune spec "@") then
      (Err (ErrInvalidSpec spec), st)
    else
      (logPrintln ["running:"; cmdString env ["install"; spec]] ;;;
       cmdRun env dir spec) st.

(** The lazy creation of the scratch directory: when [tempDir] is still
    empty, [tempDir, err = os.MkdirTemp(...)], a return on error, and
    [defer os.RemoveAll(tempDir)]. *)
Definition ensureTempDir (env : Env) : M unit :=
  fun st =>
    if tempDir st =? EmptyString then
      match MkdirTemp env st with
      | (Ok d, st') => (Ok tt, pushDeferred d (setTempDir d st'))
      | (Err e, st') => (Err e, st')
      | (Panic m, st') => (Panic m, st')
      end
    else (Ok tt, st).

(** The body of [for _, p := range programs] in [run]. *)
Definition loopBody (env : Env) (upgrade : bool) (gover : string)
    (p : program) : M unit :=
  fun st =>
    if negb upgrade && (goVersion p =? gover) then (Ok tt, st)
    else if modVersion p =? "(devel)" then (Ok tt, addSkipped (path p) st)
    else
      (ensureTempDir env ;;;
       (fun st1 =>
          let targetVersion := modVersion p in
          let targetVersion := if upgrade then "latest" else targetVersion in
          match rebuild env (tempDir st1) (path p ++ "@" ++ targetVersion) st1 with
          | (Err _, st2) => (Ok tt, addFailed (path p) st2)
          | r => r
          end)) st.

Fixpoint forPrograms (env : Env) (upgrade : bool) (gover : string)
    (programs : list program) : M unit :=
  match programs with
  | [] => ret tt
  | p :: rest =>
      loopBody env upgrade gover p ;;; forPrograms env upgrade gover rest
  end.

(** [for _, s := range items { log.Println(" ", s) }] *)
Fixpoint logEach (items : list string) : M unit :=
  match items with
  | [] => ret tt
  | s :: rest => logPrintln [" "; s] ;;; logEach rest
  end.

Definition skippedHeader : string :=
  "Skipped the following programs because of the (devel) module version:".

Definition failedHeader : string :=
  "There were errors installing the following modules, see the full log above:".

(** The end of [run], from [if len(skipped) == 0 && len(failed) == 0]. *)
Definition report : M unit :=
  fun st =>
    if (length (skipped st) =? 0)%nat && (length (failed st) =? 0)%nat
    then (Ok tt, st)
    else
      ((if negb (length (skipped st) =? 0)%nat
        then logPrintln [skippedHeader] ;;; logEach (skipped st)
        else ret tt) ;;;
       (if negb (length (failed st) =? 0)%nat
        then logPrintln [failedHeader] ;;; logEach (failed st)
        else ret tt)) st.

(** The deferred calls run when [run] returns, last registered first. *)
Definition runDeferred (st : state) : state :=
  mkState (skipped st) (failed st) (tempDir st) []
    (trace st ++ map EvRemoveAll (deferred st)).

(** [func inspectGobin(dir string) ([]program, error)] *)
Definition inspectGobin (env : Env) (dir : string) : result (list program) :=
  match env_goVersionM env dir with
  | Ok buf => parseInventory dir buf
  | Err e => Err e
  | Panic m => Panic m
  end.

(** [func run(upgrade bool) error], from the initial state. *)
Definition run (env : Env) (upgrade : bool) : result unit * state :=
  match env_getGobin env with
  | Ok gobin =>
      match inspectGobin env gobin with
      | Ok programs =>
          match env_goVersion env with
          | Ok gover =>
              let '(r, st) :=
                (forPrograms env upgrade gover programs ;;; report) initState in
              (r, runDeferred st)
          | Err e => (Err e, initState)
          | Panic m => (Panic m, initState)
          end
      | Err e => (Err e, initState)
      | Panic m => (Panic m, initState)
      end
  | Err e => (Err e, initState)
  | Panic m => (Panic m, initState)
  end.

(* ================================================================== *)
(** * Notions used to state the properties *)

(** [sep] occurs in [s] at byte offset [n]. *)
Definition occursAt (n : nat) (sep s : string) : Prop :=
  exists pre post, s = (pre ++ sep ++ post)%string /\ String.length pre = n.

(** The number of bytes [c] in [s]. *)
Fixpoint countByte (c : ascii) (s : string) : nat :=
  match s with
  | EmptyString => 0
  | String b s' => (if Ascii.eqb b c then 1 else 0) + countByte c s'
  end.

(** What [out] becomes at a record boundary: the candidate is appended when
    it is valid and dropped otherwise. *)
Definition emitted (out : list program) (current : program) : list program :=
  if valid current then out ++ [current] else out.

(** The line [text] makes the parser start a new candidate, whatever the
    state: the previous candidate is emitted or dropped and [current] is a
    fresh record that has only its [goVersion]. *)
Definition startsCandidate (dir text : string) : Prop :=
  forall out current, exists v,
    scanLine dir (out, current) text = Ok (emitted out current, newProgram v).

(** The record start as the specification words it: the line begins with the
    install directory and a colon-delimited suffix follows. *)
Definition spec_recordStart (dir text : string) : bool :=
  HasPrefix text dir && ContainsRune (drop (String.length dir) text) ":".

(** The candidate under construction after the line [text]. *)
Definition nextCandidate (dir : string) (current : program) (text : string)
  : program :=
  match scanLine dir ([], current) text with
  | Ok (_, current') => current'
  | _ => current
  end.

(** The candidates of an input in input order, each as it stands when it is
    complete: at the moment the next record boundary is detected, and for
    the last one when the input is exhausted. *)
Fixpoint candidates (dir : string) (current : program) (lines : list string)
  : list program :=
  match lines with
  | [] => [current]
  | text :: rest =>
      if HasPrefix text dir
      then current :: candidates dir (nextCandidate dir current text) rest
      else candidates dir (nextCandidate dir current text) rest
  end.

(** The trace grows by [evs]; nothing else changes. *)
Definition emitAll (evs : list Event) (st : state) : state :=
  mkState (skipped st) (failed st) (tempDir st) (deferred st) (trace st ++ evs).

(** The actions of the planner. *)
Inductive Action : Type :=
| Skip
| RebuildPinned
| RebuildLatest
| SkipUnrebuildable.

(** The version a rebuild asks for. *)
Definition targetOf (upgrade : bool) (p : program) : string :=
  if upgrade then "latest" else modVersion p.

(** The record is neither skipped nor unrebuildable. *)
Definition needsRebuild (upgrade : bool) (gover : string) (p : program) : bool :=
  negb (negb upgrade && (goVersion p =? gover)) && negb (modVersion p =? "(devel)").

(** The record takes the [(devel)] branch. *)
Definition unrebuildable (upgrade : bool) (gover : string) (p : program) : bool :=
  negb (negb upgrade && (goVersion p =? gover)) && (modVersion p =? "(devel)").

(** A rebuild of [p] at [target], spelled out: the scratch directory is
    made if there is none yet (an error there ends the run), then
    [go install path@target] is logged and run in it, and a failure puts the
    path into [failed]. *)
Definition rebuildItem (env : Env) (p : program) (target : string) : M unit :=
  ensureTempDir env ;;;
  (fun st1 =>
     let spec := (path p ++ "@" ++ target)%string in
     let st2 := emit (EvLog ("running: " ++ cmdString env ["install"; spec])) st1 in
     let err := env_install env (trace st2) (tempDir st1) spec in
     let st3 := emit (EvRun (tempDir st1) ["install"; spec] err) st2 in
     (Ok tt, match err with
             | None => st3
             | Some _ => addFailed (path p) st3
             end)).

(** What the loop does with a record for each action of the planner. *)
Definition perform (env : Env) (a : Action) (p : program)
    (targetVersionSpec : string) : M unit :=
  match a with
  | Skip => ret tt
  | SkipUnrebuildable => fun st => (Ok tt, addSkipped (path p) st)
  | RebuildPinned | RebuildLatest => rebuildItem env p targetVersionSpec
  end.

(** The number of calls of [os.MkdirTemp] in a trace. *)
Fixpoint mkdirCalls (evs : list Event) : nat :=
  match evs with
  | [] => 0
  | EvMkdirTemp _ :: rest => S (mkdirCalls rest)
  | _ :: rest => mkdirCalls rest
  end.

(** One section of the final report: nothing for no items, else the header
    and a line for each item. *)
Definition reportSection (header : string) (items : list string) : list string :=
  match items with
  | [] => []
  | _ => header :: map (fun s => ("  " ++ s)%string) items
  end.

(** A small inventory and two environments, for the examples. *)
Definition lf : string := String "010" EmptyString.
Definition tab : string := String "009" EmptyString.

Definition sampleInventory : string :=
  ("/go/bin/alpha: go1.20" ++ lf ++
   tab ++ "path" ++ tab ++ "example.com/alpha" ++ lf ++
   tab ++ "mod" ++ tab ++ "example.com/alpha" ++ tab ++ "v1.2.0" ++ tab
       ++ "h1:abc=" ++ lf ++
   tab ++ "dep" ++ tab ++ "example.com/dep" ++ tab ++ "v0.1.0" ++ tab
       ++ "h1:def=" ++ lf ++
   "/go/bin/beta: go1.19" ++ lf ++
   tab ++ "path" ++ tab ++ "example.com/beta" ++ lf ++
   tab ++ "mod" ++ tab ++ "example.com/beta" ++ tab ++ "(devel)" ++ tab ++ lf)%string.

Definition alpha : program := mkProgram "example.com/alpha" "v1.2.0" "go1.20".
Definition beta : program := mkProgram "example.com/beta" "(devel)" "go1.19".

(** Every install succeeds. *)
Definition envOk : Env :=
  mkEnv (Ok "/go/bin") (fun _ => Ok sampleInventory) (Ok "go1.21") "/usr/bin/go"
    (fun _ => inl ("/tmp", "123")) (fun _ _ _ => None).

(** Every install fails. *)
Definition envFail : Env :=
  mkEnv (Ok "/go/bin") (fun _ => Ok sampleInventory) (Ok "go1.21") "/usr/bin/go"
    (fun _ => inl ("/tmp", "123"))
    (fun _ _ _ => Some (ErrExternal "exit status 1")).

(** The state after more paths were recorded and more events happened. *)
Definition grown (st : state) (sk fl : list string) (evs : list Event) : state :=
  mkState (skipped st ++ sk) (failed st ++ fl) (tempDir st) (deferred st)
    (trace st ++ evs).

(** The specification string the loop hands to [rebuild]. *)
Definition specOf (upgrade : bool) (p : program) : string :=
  (path p ++ "@" ++ targetOf upgrade p)%string.

(** The two events of one call of [rebuild] that passes its check. *)
Definition rebuildEvents (env : Env) (dir spec : string) (err : option error)
  : list Event :=
  [EvLog ("running: " ++ cmdString env ["install"; spec]);
   EvRun dir ["install"; spec] err].

(** The paths a rebuild adds to [failed]. *)
Definition failedBy (err : option error) (p : program) : list string :=
  match err with
  | None => []
  | Some _ => [path p]
  end.


(* ================================================================== *)
(** * Further notions: the parser over the scanned lines *)

(** [inspectGobin] after a scan without error: the loop over [lines] and
    the last [if current.valid()]. *)
Definition parseLines (dir : string) (lines : list string)
  : result (list program) :=
  match scanLoop dir lines ([], zeroProgram) with
  | Ok (out, current) => Ok (if valid current then out ++ [current] else out)
  | Err e => Err e
  | Panic m => Panic m
  end.

(** The number of lines that have the directory as prefix. *)
Definition boundaryCount (dir : string) (lines : list string) : nat :=
  length (filter (fun text => HasPrefix text dir) lines).

(** Where the fields of a record come from: its Go version from a line
    with the directory as prefix, its path from a two-token [path] line and
    its module version from the third token of a [mod] line. *)
Definition goVersionFrom (dir : string) (lines : list string) (v : string)
  : Prop :=
  exists text, In text lines /\ HasPrefix text dir = true /\
               sliceFrom text (Index text ": " + 2) = Ok v.

Definition pathFrom (dir : string) (lines : list string) (v : string) : Prop :=
  exists text, In text lines /\ HasPrefix text dir = false /\
               Fields text = ["path"; v].

Definition modVersionFrom (dir : string) (lines : list string) (v : string)
  : Prop :=
  exists text m rest, In text lines /\ HasPrefix text dir = false /\
                      Fields text = "mod" :: m :: v :: rest.

(** Each field of [p] that is set comes from a line of [all]. *)
Definition fieldsFrom (dir : string) (all : list string) (p : program) : Prop :=
  (goVersion p = EmptyString \/ goVersionFrom dir all (goVersion p)) /\
  (path p = EmptyString \/ pathFrom dir all (path p)) /\
  (modVersion p = EmptyString \/ modVersionFrom dir all (modVersion p)).

(* ================================================================== *)
(** * Further notions: the text [go version -m] prints *)

(** No byte of [s] is an ASCII space. *)
Fixpoint noSpace (s : string) : bool :=
  match s with
  | EmptyString => true
  | String c s' => negb (asciiSpace c) && noSpace s'
  end.

(** A word of ASCII bytes without spaces, as module paths and versions
    are. *)
Definition isWord (s : string) : bool := allASCII s && noSpace s.

(** The last byte of a string. *)
Fixpoint lastByte (s : string) : option ascii :=
  match s with
  | EmptyString => None
  | String c EmptyString => Some c
  | String _ s' => lastByte s'
  end.

(** What [go version -m] reports of one binary: the file, the record, and
    the checksum that ends the [mod] line. *)
Record binaryInfo : Type := mkBinary {
  binFile : string;
  binProgram : program;
  binSum : string
}.

(** The lines printed for one binary, as in the comment of [inspectGobin]:
    the file and the Go version, then the [path] and the [mod] line, each
    after a tab and with tabs between the fields. *)
Definition renderBinary (b : binaryInfo) : list string :=
  [(binFile b ++ ": " ++ goVersion (binProgram b))%string;
   (tab ++ "path" ++ tab ++ path (binProgram b))%string;
   (tab ++ "mod" ++ tab ++ path (binProgram b) ++ tab
    ++ modVersion (binProgram b) ++ tab ++ binSum b)%string].

Definition renderLines (bs : list binaryInfo) : list string :=
  flat_map renderBinary bs.

(** Each line followed by a newline. *)
Fixpoint unlines (lines : list string) : string :=
  match lines with
  | [] => EmptyString
  | l :: rest => (l ++ lf ++ unlines rest)%string
  end.

(** The binaries whose report reads back: the file is under the directory
    and has neither [": "] nor a newline in its name; the Go version is
    not empty, has no newline and does not end in a carriage return; path
    and module version are non-empty words and the checksum is a word. *)
Definition readable (dir : string) (b : binaryInfo) : Prop :=
  HasPrefix (binFile b) dir = true /\
  Index (binFile b) ": " = (-1)%Z /\
  countByte Bufio.newline (binFile b) = 0 /\
  goVersion (binProgram b) <> EmptyString /\
  countByte Bufio.newline (goVersion (binProgram b)) = 0 /\
  lastByte (goVersion (binProgram b)) <> Some Bufio.carriageReturn /\
  path (binProgram b) <> EmptyString /\
  isWord (path (binProgram b)) = true /\
  modVersion (binProgram b) <> EmptyString /\
  isWord (modVersion (binProgram b)) = true /\
  isWord (binSum b) = true.

(* ================================================================== *)
(** * Further notions: what a trace holds *)

(** The runs of [go] in a trace: directory, arguments and outcome. *)
Fixpoint runsOf (evs : list Event)
  : list (string * list string * option error) :=
  match evs with
  | [] => []
  | EvRun d args err :: rest => (d, args, err) :: runsOf rest
  | _ :: rest => runsOf rest
  end.

(** The directories removed in a trace. *)
Fixpoint removalsOf (evs : list Event) : list string :=
  match evs with
  | [] => []
  | EvRemoveAll d :: rest => d :: removalsOf rest
  | _ :: rest => removalsOf rest
  end.

(** The directories [os.MkdirTemp] made in a trace. *)
Fixpoint createdOf (evs : list Event) : list string :=
  match evs with
  | [] => []
  | EvMkdirTemp (inl d) :: rest => d :: createdOf rest
  | _ :: rest => createdOf rest
  end.

(** The runs of [go install] for the records [pes], each with its outcome,
    all in the directory [d]. *)
Definition runsFor (d : string) (upgrade : bool)
    (pes : list (program * option error))
  : list (string * list string * option error) :=
  map (fun pe => (d, ["install"; specOf upgrade (fst pe)], snd pe)) pes.

(** The paths of the records whose install failed. *)
Definition failedOf (pes : list (program * option error)) : list string :=
  flat_map (fun pe => failedBy (snd pe) (fst pe)) pes.

(* ================================================================== *)
(** * [filepath.Join] and [filepath.Clean] (Unix) *)

Module Filepath.

(** The elements of a path: what stands between the separators. *)
Fixpoint elements (p : string) : list string :=
  match p with
  | EmptyString => [EmptyString]
  | String c s =>
      if Ascii.eqb c "/" then EmptyString :: elements s
      else match elements s with
           | e :: es => String c e :: es
           | [] => [String c EmptyString]
           end
  end.

(** One turn of the loop of [Clean] for the element [e].  The state is the
    buffer of [Clean] by elements: the number of leading [..] elements that
    cannot be removed (the buffer up to [dotdot]) and the elements written
    after them, the last one first.  An empty element and [.] are passed
    over; [..] removes the last element if there is one, is kept if the
    path is not rooted, and is dropped at the root; any other element is
    written. *)
Definition cleanStep (rooted : bool) (st : nat * list string) (e : string)
  : nat * list string :=
  let '(dots, written) := st in
  if (e =? EmptyString) || (e =? ".") then st
  else if e =? ".." then
    match written with
    | _ :: written' => (dots, written')
    | [] => if rooted then st else (S dots, [])
    end
  else (dots, e :: written).

(** [filepath.Clean(path)] *)
Definition Clean (p : string) : string :=
  let rooted := HasPrefix p "/" in
  let '(dots, written) := fold_left (cleanStep rooted) (elements p) (0, []) in
  let body := String.concat "/" (repeat ".." dots ++ rev written) in
  let out := if rooted then ("/" ++ body)%string else body in
  if out =? EmptyString then "." else out.

(** [filepath.Join(a, b)]: empty elements are ignored, the rest is joined
    with the separator and cleaned; the join of nothing is empty. *)
Definition Join (a b : string) : string :=
  if negb (a =? EmptyString) then Clean (a ++ "/" ++ b)
  else if negb (b =? EmptyString) then Clean b
  else EmptyString.

End Filepath.

(* ================================================================== *)
(** * The functions of package [bytes] that [goVersion] calls *)

Module Bytes.

(** The first [n] bytes of [s]. *)
Fixpoint take (n : nat) (s : string) : string :=
  match n, s with
  | O, _ => EmptyString
  | S _, EmptyString => EmptyString
  | S n', String c s' => String c (take n' s')
  end.

(** [bytes.HasSuffix(s, suffix)] *)
Definition HasSuffix (s suffix : string) : bool :=
  (String.length suffix <=? String.length s)%nat &&
  (drop (String.length s - String.length suffix) s =? suffix).

(** [bytes.TrimPrefix(s, prefix)] *)
Definition TrimPrefix (s pre : string) : string :=
  if HasPrefix s pre then drop (String.length pre) s else s.

(** [bytes.TrimSuffix(s, suffix)] *)
Definition TrimSuffix (s suffix : string) : string :=
  if HasSuffix s suffix
  then take (String.length s - String.length suffix) s
  else s.

(** [utf8.RuneStart(b)] *)
Definition RuneStart (b : N) : bool := negb (N.land b 192 =? 128)%N.

(** [utf8.DecodeLastRune(p)], with [rp] the bytes of [p] last first.  For
    a last byte that is not ASCII the start of the rune is looked for among
    the three bytes before it; the rune decoded from there must end where
    [p] ends. *)
Definition decodeLastRune (rp : list ascii) : N * nat :=
  match rp with
  | [] => (RuneError, 0)
  | c :: before =>
      if (byteval c <? 128)%N then (byteval c, 1)
      else
        let count :=
          match before with
          | b1 :: rest1 =>
              if RuneStart (byteval b1) then 2
              else match rest1 with
                   | b2 :: rest2 =>
                       if RuneStart (byteval b2) then 3
                       else match rest2 with
                            | b3 :: rest3 =>
                                if RuneStart (byteval b3) then 4
                                else match rest3 with
                                     | _ :: _ => 5
                                     | [] => 4
                                     end
                            | [] => 3
                            end
                   | [] => 2
                   end
          | [] => 1
          end in
        let '(r, size) :=
          decodeRune (string_of_list_ascii (rev (firstn count rp))) in
        if (size =? count)%nat then (r, size) else (RuneError, 1)
  end.

(** The loop of [indexFunc(s, unicode.IsSpace, false)] within
    [bytes.TrimLeftFunc]: what is left of [s] from its first rune that is
    no space; [skip] counts the bytes of a space rune still to pass. *)
Fixpoint trimLeftLoop (s : string) (skip : nat) : string :=
  match s with
  | EmptyString => EmptyString
  | String _ s' =>
      match skip with
      | S k => trimLeftLoop s' k
      | O => let '(r, w) := decodeRune s in
             if IsSpace r then trimLeftLoop s' (Nat.pred w) else s
      end
  end.

(** [lastIndexFunc(s, unicode.IsSpace, false)], with [rp] the bytes of [s]
    last first: the index where the last rune that is no space begins. *)
Fixpoint lastIndexLoop (rp : list ascii) (skip : nat) : option nat :=
  match rp with
  | [] => None
  | _ :: before =>
      match skip with
      | S k => lastIndexLoop before k
      | O => let '(r, size) := decodeLastRune rp in
             if IsSpace r then lastIndexLoop before (Nat.pred size)
             else Some (length rp - size)
      end
  end.

(** [bytes.TrimRightFunc(s, unicode.IsSpace)] *)
Definition TrimRightFunc (s : string) : string :=
  match lastIndexLoop (rev (list_ascii_of_string s)) 0 with
  | None => EmptyString
  | Some i =>
      match drop i s with
      | String c _ =>
          if (128 <=? byteval c)%N
          then take (i + snd (decodeRune (drop i s))) s
          else take (i + 1) s
      | EmptyString => take (i + 1) s
      end
  end.

(** [bytes.TrimFunc(s, unicode.IsSpace)] *)
Definition TrimFunc (s : string) : string :=
  TrimRightFunc (trimLeftLoop s 0).

(** The second loop of [bytes.TrimSpace], from the end of [s]: what is
    kept of [s], and whether a byte that is not ASCII stopped the loop. *)
Fixpoint trimRightASCII (s : string) : string * bool :=
  match s with
  | EmptyString => (EmptyString, false)
  | String c s' =>
      match trimRightASCII s' with
      | (EmptyString, false) =>
          if (128 <=? byteval c)%N then (String c EmptyString, true)
          else if asciiSpace c then (EmptyString, false)
          else (String c EmptyString, false)
      | (kept, nonASCII) => (String c kept, nonASCII)
      end
  end.

(** [bytes.TrimSpace(s)]: ASCII spaces are passed over from the start and
    then from the end; a byte that is not ASCII hands what is left to
    [TrimFunc]. *)
Fixpoint TrimSpace (s : string) : string :=
  match s with
  | EmptyString => EmptyString
  | String c s' =>
      if (128 <=? byteval c)%N then TrimFunc s
      else if asciiSpace c then TrimSpace s'
      else match trimRightASCII s with
           | (kept, true) => TrimFunc kept
           | (kept, false) => kept
           end
  end.

End Bytes.

(* ================================================================== *)
(** * The discovery steps: [getGobin] and [goVersion] *)

Module Discover.

(** The outside of the discovery steps: what [go] prints for given
    arguments, and what [json.Unmarshal] makes of a text for a struct of
    two string fields with the given names (the two values, or the message
    of its error). *)
Record Sys : Type := mkSys {
  sys_output : list string -> string + error;
  sys_unmarshal : string -> string -> string -> (string * string) + string;
  sys_goExe : string;
  sys_mkdirTemp : list Event -> (string * string) + error;
  sys_install : list Event -> string -> string -> option error
}.

(** [fmt.Errorf("cannot parse go env output: %w", err)] *)
Definition parseEnvError (msg : string) : error :=
  ErrExternal ("cannot parse go env output: " ++ msg).

(** [func getGobin() (string, error)] *)
Definition getGobin (sys : Sys) : result string :=
  match sys_output sys ["env"; "-json"; "GOBIN"; "GOPATH"] with
  | inr e => Err e
  | inl buf =>
      match sys_unmarshal sys "GOBIN" "GOPATH" buf with
      | inr msg => Err (parseEnvError msg)
      | inl (GOBIN, GOPATH) =>
          if negb (GOBIN =? EmptyString) then Ok GOBIN
          else Ok (Filepath.Join GOPATH "bin")
      end
  end.

(** [func goVersion() (string, error)] *)
Definition goVersion (sys : Sys) : result string :=
  match sys_output sys ["env"; "-json"; "GOOS"; "GOARCH"] with
  | inr e => Err e
  | inl buf =>
      match sys_unmarshal sys "GOOS" "GOARCH" buf with
      | inr msg => Err (parseEnvError msg)
      | inl (GOOS, GOARCH) =>
          match sys_output sys ["version"] with
          | inr e => Err e
          | inl buf =>
              let buf := Bytes.TrimSpace buf in
              let buf := Bytes.TrimPrefix buf "go version" in
              let buf := Bytes.TrimSuffix buf (GOOS ++ "/" ++ GOARCH) in
              let buf := Bytes.TrimSpace buf in
              Ok buf
          end
      end
  end.

(** The environment of [run] that the discovery steps make of the
    outside: [inspectGobin] reads the output of [go version -m dir]. *)
Definition envOf (sys : Sys) : Env :=
  mkEnv (getGobin sys)
    (fun dir => match sys_output sys ["version"; "-m"; dir] with
                | inl buf => Ok buf
                | inr e => Err e
                end)
    (goVersion sys)
    (sys_goExe sys) (sys_mkdirTemp sys) (sys_install sys).

End Discover.

(* ================================================================== *)
(** * Further notions: plain text *)

(** Every byte of [s] is an ASCII space. *)
Fixpoint allSpaces (s : string) : bool :=
  match s with
  | EmptyString => true
  | String c s' => asciiSpace c && allSpaces s'
  end.

(** An ASCII byte that is no space. *)
Definition plainByte (c : ascii) : bool :=
  (byteval c <? 128)%N && negb (asciiSpace c).

(** The first and the last byte of [s] are ASCII bytes and no spaces. *)
Definition plainEnds (s : string) : bool :=
  match s with
  | String c _ => plainByte c
  | EmptyString => false
  end &&
  match lastByte s with
  | Some c => plainByte c
  | None => false
  end.

(* ================================================================== *)
(** * A small system, for the examples *)

(** Two binaries built with go1.21.0. *)
Definition sampleBinaries : list binaryInfo :=
  [mkBinary "/go/bin/alpha" (mkProgram "example.com/alpha" "v1.2.0" "go1.21.0")
     "h1:abc=";
   mkBinary "/go/bin/beta" (mkProgram "example.com/beta" "(devel)" "go1.21.0")
     EmptyString].

(** A system with [GOBIN=/go/bin] in which [go version] reports [version]
    for linux/amd64 and the two binaries are installed. *)
Definition sampleSys (version : string) : Discover.Sys :=
  Discover.mkSys
    (fun args =>
       let cmd := String.concat " " args in
       if cmd =? "env -json GOBIN GOPATH" then inl "{}"
       else if cmd =? "env -json GOOS GOARCH" then inl "{}"
       else if cmd =? "version"
       then inl ("go version " ++ version ++ " linux/amd64" ++ lf)%string
       else if cmd =? "version -m /go/bin"
       then inl (unlines (renderLines sampleBinaries))
       else inr (ErrExternal "exit status 2"))
    (fun k1 k2 _ =>
       if k1 =? "GOBIN" then inl ("/go/bin", "/home/user/go")
       else inl ("linux", "amd64"))
    "/usr/bin/go"
    (fun _ => inl ("/tmp", "123"))
    (fun _ _ _ => None).

(* ================================================================== *)
(** * Facts about the string functions *)

Section StringFacts.

Example Fields_tabs :
  Fields (tab ++ "mod" ++ tab ++ "example.com/alpha" ++ tab ++ "v1.2.0" ++ tab
          ++ "h1:abc=")
  = ["mod"; "example.com/alpha"; "v1.2.0"; "h1:abc="].
Proof. reflexivity. Qed.

Example Fields_runs_of_spaces :
  Fields "  path   example.com/alpha " = ["path"; "example.com/alpha"].
Proof. reflexivity. Qed.

(** U+00A0 (bytes C2 A0) and U+2028 (bytes E2 80 A8) are spaces; a truncated
    encoding is not. *)
Example Fields_unicode_spaces :
  Fields ("a" ++ String "194" (String "160" "b")
          ++ String "226" (String "128" (String "168" "c")))
  = ["a"; "b"; "c"] /\
  Fields ("a" ++ String "226" (String "128" "b"))
  = [("a" ++ String "226" (String "128" "b"))%string].
Proof. split; reflexivity. Qed.

Example Index_examples :
  Index "/go/bin/alpha: go1.20" ": " = 13%Z /\
  Index "/go/bin/tool" ": " = (-1)%Z /\
  sliceFrom "/go/bin/alpha: go1.20" 15 = Ok "go1.20" /\
  sliceFrom EmptyString 1 = Panic "slice bounds out of range".
Proof. repeat split; reflexivity. Qed.

Example scan_lines :
  Bufio.scan ("ab" ++ String "013" lf ++ "cd" ++ lf ++ lf ++ "e")
  = (["ab"; "cd"; EmptyString; "e"], None) /\
  Bufio.scan EmptyString = ([], None).
Proof. split; reflexivity. Qed.

Lemma prefix_iff (pre s : string) :
  String.prefix pre s = true <-> exists post, s = (pre ++ post)%string.
Proof.
  revert s; induction pre as [|c pre IH]; intros s.
  - split; [intros _; exists s; reflexivity | intros _; now destruct s].
  - destruct s as [|d s]; simpl.
    + split; [discriminate | intros [post H]; discriminate].
    + destruct (Ascii.ascii_dec c d) as [->|Hcd].
      * rewrite IH. split; intros [post H]; exists post.
        -- now rewrite H.
        -- now inversion H.
      * split; [discriminate | intros [post H]; inversion H; congruence].
Qed.

Lemma length_append (a b : string) :
  String.length (a ++ b) = String.length a + String.length b.
Proof. induction a as [|c a IH]; simpl; [reflexivity | now rewrite IH]. Qed.

Lemma drop_append (a b : string) : drop (String.length a) (a ++ b) = b.
Proof. induction a as [|c a IH]; simpl; [now destruct b | exact IH]. Qed.

Lemma append_assoc (a b c : string) :
  ((a ++ b) ++ c)%string = (a ++ (b ++ c))%string.
Proof. induction a as [|x a IH]; simpl; [reflexivity | now rewrite IH]. Qed.

Lemma occursAt_0 (sep s : string) :
  occursAt 0 sep s <-> String.prefix sep s = true.
Proof.
  rewrite prefix_iff. split.
  - intros (pre & post & -> & Hl). destruct pre; [|discriminate].
    now exists post.
  - intros [post ->]. now exists EmptyString, post.
Qed.

Lemma occursAt_S (n : nat) (sep : string) (c : ascii) (s : string) :
  occursAt (S n) sep (String c s) <-> occursAt n sep s.
Proof.
  split.
  - intros (pre & post & H & Hl). destruct pre as [|d pre]; [discriminate|].
    inversion H; subst. exists pre, post. split; [reflexivity|].
    now inversion Hl.
  - intros (pre & post & -> & Hl). exists (String c pre), post.
    split; [reflexivity | simpl; now rewrite Hl].
Qed.

Lemma occursAt_empty (n : nat) (sep : string) :
  occursAt n sep EmptyString -> n = 0.
Proof.
  intros (pre & post & H & Hl). destruct pre; [now subst | discriminate].
Qed.

(** [Index] is the least offset of an occurrence, and [-1] when there is
    none. *)
Lemma Index_spec (sep s : string) :
  (Index s sep = (-1)%Z /\ forall n, ~ occursAt n sep s) \/
  (exists n, Index s sep = Z.of_nat n /\ occursAt n sep s /\
             forall m, occursAt m sep s -> n <= m).
Proof.
  induction s as [|c s IH].
  - cbn [Index]. destruct (String.prefix sep EmptyString) eqn:Hp.
    + right. exists 0. repeat split; [now apply occursAt_0 | lia].
    + left. split; [reflexivity|]. intros n Hn.
      pose proof (occursAt_empty _ _ Hn); subst.
      apply occursAt_0 in Hn. congruence.
  - cbn [Index]. destruct (String.prefix sep (String c s)) eqn:Hp.
    + right. exists 0. repeat split; [now apply occursAt_0 | lia].
    + destruct IH as [[Hi Hno] | (n & Hi & Hocc & Hmin)].
      * left. rewrite Hi. split; [reflexivity|]. intros [|n] Hn.
        -- apply occursAt_0 in Hn. congruence.
        -- apply occursAt_S in Hn. exact (Hno n Hn).
      * right. exists (S n). rewrite Hi.
        replace (Z.of_nat n <? 0)%Z with false by (symmetry; apply Z.ltb_ge; lia).
        repeat split; [lia | now apply occursAt_S |].
        intros [|m] Hm.
        -- apply occursAt_0 in Hm. congruence.
        -- apply occursAt_S in Hm. apply Hmin in Hm. lia.
Qed.

Lemma Index_none (sep s : string) :
  Index s sep = (-1)%Z <->
  forall pre post, s <> (pre ++ sep ++ post)%string.
Proof.
  destruct (Index_spec sep s) as [[Hi Hno] | (n & Hi & Hocc & _)].
  - split; [|intros _; exact Hi]. intros _ pre post H.
    apply (Hno (String.length pre)). now exists pre, post.
  - split; [lia|]. intros H. destruct Hocc as (pre & post & Heq & _).
    now destruct (H pre post).
Qed.

Lemma Index_first (sep s pre post : string) :
  s = (pre ++ sep ++ post)%string ->
  (forall pre' post', s = (pre' ++ sep ++ post')%string ->
                      String.length pre <= String.length pre') ->
  Index s sep = Z.of_nat (String.length pre).
Proof.
  intros Hs Hmin.
  destruct (Index_spec sep s) as [[Hi Hno] | (n & Hi & Hocc & Hle)].
  - exfalso. apply (Hno (String.length pre)). now exists pre, post.
  - rewrite Hi. f_equal. apply Nat.le_antisymm.
    + apply Hle. now exists pre, post.
    + destruct Hocc as (pre' & post' & Heq & <-). now apply (Hmin pre' post').
Qed.

Lemma sliceFrom_after (sep s pre post : string) :
  s = (pre ++ sep ++ post)%string ->
  sliceFrom s (Z.of_nat (String.length pre) + len sep) = Ok post.
Proof.
  intros ->. unfold sliceFrom, len.
  rewrite !length_append.
  replace (Z.of_nat (String.length pre) + Z.of_nat (String.length sep))%Z
    with (Z.of_nat (String.length pre + String.length sep)) by lia.
  rewrite Nat2Z.id.
  replace ((0 <=? _)%Z && _) with true
    by (symmetry; apply andb_true_iff; split; apply Z.leb_le; lia).
  f_equal. rewrite <- append_assoc, <- length_append. apply drop_append.
Qed.

Lemma sliceFrom_1 (c : ascii) (s : string) : sliceFrom (String c s) 1 = Ok s.
Proof.
  unfold sliceFrom, len. cbn [String.length].
  replace ((0 <=? 1)%Z && _) with true
    by (symmetry; apply andb_true_iff; split; apply Z.leb_le; lia).
  reflexivity.
Qed.

Lemma HasPrefix_empty (dir : string) :
  HasPrefix EmptyString dir = true -> dir = EmptyString.
Proof. unfold HasPrefix. destruct dir; [reflexivity | discriminate]. Qed.

Lemma IndexByte_range (s : string) (c : ascii) :
  (IndexByte s c = -1 \/ 0 <= IndexByte s c)%Z.
Proof.
  induction s as [|b s IH]; simpl; [now left|].
  destruct (Ascii.eqb b c); [right; lia|].
  destruct (IndexByte s c <? 0)%Z eqn:E; [now left|].
  apply Z.ltb_ge in E. right; lia.
Qed.

Lemma ContainsRune_count (s : string) (c : ascii) :
  ContainsRune s c = true <-> 0 < countByte c s.
Proof.
  unfold ContainsRune. rewrite Z.leb_le.
  induction s as [|b s IH]; simpl; [lia|].
  destruct (Ascii.eqb b c); [lia|].
  destruct (IndexByte s c <? 0)%Z eqn:E.
  - apply Z.ltb_lt in E. lia.
  - apply Z.ltb_ge in E. lia.
Qed.

End StringFacts.

(* ================================================================== *)
(** * The parser, line by line *)

Section ParserLines.

Lemma scanLine_boundary (dir text : string) (out : list program)
    (current : program) :
  HasPrefix text dir = true ->
  scanLine dir (out, current) text =
  match sliceFrom text (Index text ": " + 2) with
  | Ok v => Ok (emitted out current, newProgram v)
  | Err e => Err e
  | Panic m => Panic m
  end.
Proof. intros H. unfold scanLine, emitted. now rewrite H. Qed.

Lemma scanLine_fields (dir text : string) (out : list program)
    (current : program) :
  HasPrefix text dir = false ->
  exists current',
    scanLine dir (out, current) text = Ok (out, current') /\
    goVersion current' = goVersion current /\
    (path current' = path current \/ modVersion current' = modVersion current).
Proof.
  intros H. unfold scanLine. rewrite H.
  destruct (_ && _).
  - eexists; repeat split; now right.
  - destruct (_ && _); eexists; repeat split; now left.
Qed.

(** On a line that has the directory as prefix the slice succeeds, unless
    the line is empty. *)
Lemma boundary_slice (text : string) :
  text <> EmptyString -> exists v, sliceFrom text (Index text ": " + 2) = Ok v.
Proof.
  intros Hne.
  destruct (Index_spec ": " text) as [[Hi _] | (n & Hi & (pre & post & Heq & Hl) & _)].
  - rewrite Hi. destruct text as [|c rest]; [congruence|].
    exists rest. apply sliceFrom_1.
  - exists post. rewrite Hi, <- Hl. change 2%Z with (len ": ").
    now apply (sliceFrom_after ": ").
Qed.

Lemma HasPrefix_nonempty (dir text : string) :
  dir <> EmptyString -> HasPrefix text dir = true -> text <> EmptyString.
Proof. intros Hd Hp ->. now apply HasPrefix_empty in Hp. Qed.

(** [Fields] yields no empty token. *)
Lemma fieldsLoop_nonempty (s : string) :
  forall skip sp cur f, In f (fieldsLoop s skip sp cur) -> f <> EmptyString.
Proof.
  induction s as [|c s IH]; intros skip sp cur f; cbn [fieldsLoop].
  - destruct cur; simpl; [tauto | intros [<-|[]]; discriminate].
  - destruct (match skip with
              | 0 => let '(r, w) := decodeRune (String c s) in (IsSpace r, Nat.pred w)
              | S k => (sp, k)
              end) as [sp' skip'].
    destruct sp'.
    + rewrite in_app_iff. intros [Hin | Hin]; [|now apply IH in Hin].
      destruct cur; simpl in Hin; [tauto | destruct Hin as [<-|[]]; discriminate].
    + apply IH.
Qed.

Lemma Fields_nonempty (s f : string) : In f (Fields s) -> f <> EmptyString.
Proof. apply fieldsLoop_nonempty. Qed.

Lemma IsSpace_ascii (c : ascii) :
  (byteval c <? 128)%N = true -> IsSpace (byteval c) = asciiSpace c.
Proof.
  intros H. apply N.ltb_lt in H. unfold IsSpace, asciiSpace.
  replace (byteval c <=? 255)%N with true by (symmetry; apply N.leb_le; lia).
  replace (byteval c =? 133)%N with false by (symmetry; apply N.eqb_neq; lia).
  replace (byteval c =? 160)%N with false by (symmetry; apply N.eqb_neq; lia).
  now rewrite !orb_false_r.
Qed.

(** On ASCII input the rune loop is the byte loop of the fast path. *)
Lemma fieldsLoop_ascii (s : string) :
  forall sp cur,
    allASCII s = true -> fieldsLoop s 0 sp cur = fieldsASCII s cur.
Proof.
  induction s as [|c s IH]; intros sp cur Hs; [reflexivity|].
  cbn [allASCII] in Hs. apply andb_true_iff in Hs as [Hc Hs].
  cbn [fieldsLoop fieldsASCII decodeRune]. rewrite Hc. cbn [Nat.pred].
  rewrite (IsSpace_ascii c Hc).
  destruct (asciiSpace c); now rewrite IH.
Qed.

Lemma Fields_ascii (s : string) :
  allASCII s = true -> Fields s = fieldsASCII s EmptyString.
Proof. apply fieldsLoop_ascii. Qed.

End ParserLines.

(** C2 as stated fails: a line that begins with the install directory and
    has no colon at all starts a new candidate all the same, and the
    candidate's [goVersion] is then not a text that follows [": "]. *)
Lemma C2_counterexample :
  spec_recordStart "/go/bin" "/go/bin/tool" = false /\
  startsCandidate "/go/bin" "/go/bin/tool" /\
  scanLine "/go/bin" ([], mkProgram "example.com/alpha" "v1.2.0" "go1.20")
    "/go/bin/tool"
  = Ok ([mkProgram "example.com/alpha" "v1.2.0" "go1.20"],
        newProgram "go/bin/tool").
Proof.
  split; [reflexivity|]. split; [|reflexivity].
  intros out current. exists "go/bin/tool". reflexivity.
Qed.

(** C2 (amended): for a non-empty install directory, a line starts a new
    candidate exactly when it begins with the install-directory path, whether
    or not a colon-delimited suffix follows; and when the line contains
    [": "], the new candidate's [goVersion] is the text after the first
    occurrence of [": "] on the line. *)
Theorem C2_record_start (dir text : string) :
  dir <> EmptyString ->
  (startsCandidate dir text <-> HasPrefix text dir = true) /\
  (HasPrefix text dir = true ->
   forall pre post : string,
     text = (pre ++ ": " ++ post)%string ->
     (forall pre' post' : string,
        text = (pre' ++ ": " ++ post')%string ->
        String.length pre <= String.length pre') ->
     forall out current,
       scanLine dir (out, current) text
       = Ok (emitted out current, newProgram post)).
Proof.
  intros Hdir. split; [split|].
  - intros Hstart. destruct (HasPrefix text dir) eqn:Hp; [reflexivity|].
    exfalso.
    destruct (Hstart [] (mkProgram "p" "m" "g")) as [v Hv].
    destruct (scanLine_fields dir text [] (mkProgram "p" "m" "g") Hp)
      as (c' & Hc & _ & Hkeep).
    rewrite Hc in Hv. injection Hv as _ ->.
    destruct Hkeep as [H|H]; discriminate H.
  - intros Hp out current. rewrite (scanLine_boundary _ _ _ _ Hp).
    destruct (boundary_slice _ (HasPrefix_nonempty _ _ Hdir Hp)) as [v ->].
    now exists v.
  - intros Hp pre post Heq Hmin out current.
    rewrite (scanLine_boundary _ _ _ _ Hp).
    rewrite (Index_first _ _ _ _ Heq Hmin). change 2%Z with (len ": ").
    now rewrite (sliceFrom_after _ _ _ _ Heq).
Qed.

Lemma C2_record_start_witness :
  "/go/bin" <> EmptyString /\
  HasPrefix "/go/bin/alpha: go1.20" "/go/bin" = true /\
  startsCandidate "/go/bin" "/go/bin/alpha: go1.20" /\
  scanLine "/go/bin" ([], mkProgram "p" EmptyString "go1.19") "/go/bin/alpha: go1.20"
  = Ok ([], newProgram "go1.20").
Proof.
  assert (Hd : "/go/bin" <> EmptyString) by discriminate.
  destruct (C2_record_start "/go/bin" "/go/bin/alpha: go1.20" Hd) as [Hiff Hv].
  split; [exact Hd|]. split; [reflexivity|]. split.
  - apply Hiff. reflexivity.
  - apply (Hv eq_refl "/go/bin/alpha" "go1.20" eq_refl).
    intros pre' post' H.
    assert (Hi : Index "/go/bin/alpha: go1.20" ": " = 13%Z) by reflexivity.
    destruct (Index_spec ": " "/go/bin/alpha: go1.20")
      as [[Hn _] | (n & Hn & _ & Hle)]; [rewrite Hi in Hn; discriminate|].
    rewrite Hi in Hn. assert (n = 13) by lia. subst n.
    apply Hle. now exists pre', post'.
Defined.

(** C10: a boundary line that begins with a non-empty install directory and
    contains no [": "] does not make the parser fail; the new candidate's
    [goVersion] is the line without its first byte. *)
Theorem C10_boundary_without_separator (dir text : string)
    (out : list program) (current : program) :
  dir <> EmptyString ->
  HasPrefix text dir = true ->
  (forall pre post : string, text <> (pre ++ ": " ++ post)%string) ->
  exists c rest,
    text = String c rest /\
    scanLine dir (out, current) text
    = Ok (emitted out current, newProgram rest).
Proof.
  intros Hdir Hp Hno.
  rewrite (scanLine_boundary _ _ _ _ Hp).
  apply Index_none in Hno. rewrite Hno.
  destruct text as [|c rest].
  - now apply HasPrefix_nonempty in Hp.
  - exists c, rest. split; [reflexivity|]. now rewrite sliceFrom_1.
Qed.

Lemma C10_boundary_without_separator_witness :
  "/go/bin" <> EmptyString /\
  HasPrefix "/go/bin/tool" "/go/bin" = true /\
  Index "/go/bin/tool" ": " = (-1)%Z /\
  scanLine "/go/bin" ([], mkProgram "example.com/alpha" "v1.2.0" "go1.20")
    "/go/bin/tool"
  = Ok ([mkProgram "example.com/alpha" "v1.2.0" "go1.20"],
        newProgram "go/bin/tool").
Proof.
  assert (Hd : "/go/bin" <> EmptyString) by discriminate.
  assert (Hno : forall pre post : string,
             "/go/bin/tool" <> (pre ++ ": " ++ post)%string)
    by (apply Index_none; reflexivity).
  destruct (C10_boundary_without_separator "/go/bin" "/go/bin/tool"
              [] (mkProgram "example.com/alpha" "v1.2.0" "go1.20")
              Hd eq_refl Hno)
    as (c & rest & Heq & Hres).
  injection Heq as <- <-.
  split; [exact Hd|]. split; [reflexivity|]. split; [reflexivity | exact Hres].
Defined.

(** C5: a line that is no boundary is split into whitespace-separated
    tokens; exactly two tokens of which the first is [path] set the
    candidate's path to the second; three or more of which the first is
    [mod] set its module version to the third; any other line leaves the
    candidate as it is.  Nothing is emitted on such a line. *)
Theorem C5_field_lines (dir text : string) (out : list program)
    (current : program) :
  HasPrefix text dir = false ->
  (forall v, Fields text = ["path"; v] ->
     scanLine dir (out, current) text
     = Ok (out, mkProgram v (modVersion current) (goVersion current))) /\
  (forall m v rest, Fields text = "mod" :: m :: v :: rest ->
     scanLine dir (out, current) text
     = Ok (out, mkProgram (path current) v (goVersion current))) /\
  ((forall v, Fields text <> ["path"; v]) ->
   (forall m v rest, Fields text <> "mod" :: m :: v :: rest) ->
   scanLine dir (out, current) text = Ok (out, current)).
Proof.
  intros Hp. unfold scanLine. rewrite Hp. repeat split.
  - intros v ->. reflexivity.
  - intros m v rest ->. reflexivity.
  - intros Hpath Hmod.
    destruct (Fields text) as [|f0 [|f1 [|f2 rest]]]; cbn; try reflexivity.
    + destruct (f0 =? "path") eqn:E; [|reflexivity].
      apply String.eqb_eq in E. subst f0. now destruct (Hpath f1).
    + destruct (f0 =? "mod") eqn:E; [|reflexivity].
      apply String.eqb_eq in E. subst f0. now destruct (Hmod f1 f2 rest).
Qed.

Lemma C5_field_lines_witness :
  HasPrefix (String "009" "path" ++ String "009" "example.com/alpha") "/go/bin"
  = false /\
  scanLine "/go/bin" ([], newProgram "go1.20")
    (String "009" "path" ++ String "009" "example.com/alpha")
  = Ok ([], mkProgram "example.com/alpha" EmptyString "go1.20").
Proof.
  split; [reflexivity|].
  exact (proj1 (C5_field_lines "/go/bin"
                  (String "009" "path" ++ String "009" "example.com/alpha")
                  [] (newProgram "go1.20") eq_refl)
           "example.com/alpha" eq_refl).
Defined.

(* ================================================================== *)
(** * The parser on a whole input *)

Section ParserLoop.

Variable dir : string.

Lemma nextCandidate_boundary (text : string) (out : list program)
    (current : program) (st' : scanState) :
  scanLine dir (out, current) text = Ok st' ->
  st' = ((if HasPrefix text dir then emitted out current else out),
         nextCandidate dir current text).
Proof.
  unfold nextCandidate. destruct (HasPrefix text dir) eqn:Hp.
  - rewrite !(scanLine_boundary _ _ _ _ Hp).
    destruct (sliceFrom _ _); [|discriminate..]. now intros [= <-].
  - unfold scanLine. rewrite Hp.
    destruct (_ && _); [now intros [= <-]|].
    destruct (_ && _); now intros [= <-].
Qed.

Lemma scanLine_failure (text : string) (st : scanState) :
  match scanLine dir st text with
  | Ok _ => True
  | Err _ => False
  | Panic _ => dir = EmptyString /\ text = EmptyString
  end.
Proof.
  destruct st as [out current].
  destruct (HasPrefix text dir) eqn:Hp.
  - rewrite (scanLine_boundary _ _ _ _ Hp).
    destruct text as [|c rest].
    + apply HasPrefix_empty in Hp. cbn. now split.
    + destruct (boundary_slice (String c rest)) as [v ->]; [discriminate|exact I].
  - destruct (scanLine_fields dir text out current Hp) as (c1 & -> & _).
    exact I.
Qed.

(** The loop appends to [out] exactly the valid ones among the candidates
    completed so far; it never returns an error, and it panics only on an
    empty line when the directory is the empty string. *)
Lemma scanLoop_emits (lines : list string) :
  forall out current,
    match scanLoop dir lines (out, current) with
    | Ok (out', current') =>
        emitted out' current' = out ++ filter valid (candidates dir current lines)
    | Err _ => False
    | Panic _ => dir = EmptyString /\ In EmptyString lines
    end.
Proof.
  induction lines as [|text rest IH]; intros out current; cbn [scanLoop candidates].
  - unfold emitted. cbn [filter]. destruct (valid current); [reflexivity|].
    now rewrite app_nil_r.
  - pose proof (scanLine_failure text (out, current)) as Hf.
    destruct (scanLine dir (out, current) text) as [st'| |] eqn:Hst.
    + apply nextCandidate_boundary in Hst. subst st'.
      specialize (IH (if HasPrefix text dir then emitted out current else out)
                    (nextCandidate dir current text)).
      destruct (scanLoop dir rest _) as [[out' current']| |].
      * rewrite IH. destruct (HasPrefix text dir); [|reflexivity].
        cbn [filter]. unfold emitted. destruct (valid current); [|reflexivity].
        now rewrite <- app_assoc.
      * exact IH.
      * destruct IH as [Hd Hin]. split; [exact Hd | now right].
    + exact Hf.
    + destruct Hf as [Hd ->]. split; [exact Hd | now left].
Qed.

End ParserLoop.

(** C3: the parser's result is the list of the candidates that are valid at
    the moment the next record boundary is detected or the input is
    exhausted, in input order, and nothing else.  The parser yields no
    list at all only when the scanner reports an error (then that error is
    returned) or when an empty line is sliced under an empty directory (a
    panic); otherwise it returns this list. *)
Theorem C3_emits_valid_candidates (dir buf : string) :
  let lines := fst (Bufio.scan buf) in
  let scanErr := snd (Bufio.scan buf) in
  match parseInventory dir buf with
  | Ok out =>
      scanErr = None /\
      out = filter valid (candidates dir zeroProgram lines)
  | Err e => scanErr = Some e
  | Panic _ => dir = EmptyString /\ In EmptyString lines
  end /\
  (dir <> EmptyString -> scanErr = None ->
   parseInventory dir buf
   = Ok (filter valid (candidates dir zeroProgram lines))).
Proof.
  cbv zeta. unfold parseInventory.
  destruct (Bufio.scan buf) as [lines scanErr]. cbn [fst snd].
  pose proof (scanLoop_emits dir lines [] zeroProgram) as H.
  destruct (scanLoop dir lines _) as [[out current]| |].
  - cbn [app] in H. split.
    + destruct scanErr; [reflexivity|]. split; [reflexivity | exact H].
    + intros _ ->. f_equal. exact H.
  - contradiction.
  - split; [exact H|]. intros Hd _. now destruct H.
Qed.

Lemma C3_emits_valid_candidates_witness :
  "/go/bin" <> EmptyString /\
  snd (Bufio.scan sampleInventory) = None /\
  parseInventory "/go/bin" sampleInventory = Ok [alpha; beta].
Proof.
  assert (Hd : "/go/bin" <> EmptyString) by discriminate.
  split; [exact Hd|]. split; [reflexivity|].
  rewrite (proj2 (C3_emits_valid_candidates "/go/bin" sampleInventory) Hd eq_refl).
  reflexivity.
Defined.

(** The two ways in which the parser yields no list. *)
Example parseInventory_line_too_long :
  parseInventory "/go/bin"
    ("/go/bin/alpha: go1.20" ++ lf ++ "path example.com/alpha" ++ lf
     ++ "mod example.com/alpha v1.2.0" ++ lf
     ++ Pos.iter (String "a") EmptyString 65536)%string
  = Err ErrTooLong.
Proof. vm_compute. reflexivity. Qed.

Example parseInventory_empty_dir_panics :
  parseInventory EmptyString (lf ++ "path example.com/alpha")%string
  = Panic "slice bounds out of range".
Proof. reflexivity. Qed.

(* ================================================================== *)
(** * The rebuild executor *)

Section Executor.

Variable env : Env.

Lemma countByte_append (c : ascii) (a b : string) :
  countByte c (a ++ b) = countByte c a + countByte c b.
Proof.
  induction a as [|x a IH]; simpl; [reflexivity|]. rewrite IH. lia.
Qed.

(** [rebuild] on a specification that passes its check. *)
Lemma rebuild_runs (dir spec : string) (st : state) :
  0 < countByte "@" spec ->
  rebuild env dir spec st =
  let st1 := emit (EvLog ("running: " ++ cmdString env ["install"; spec])) st in
  let err := env_install env (trace st1) dir spec in
  (match err with None => Ok tt | Some e => Err e end,
   emit (EvRun dir ["install"; spec] err) st1).
Proof.
  intros Hat. unfold rebuild.
  apply ContainsRune_count in Hat. rewrite Hat.
  destruct spec as [|c spec']; [discriminate Hat|].
  reflexivity.
Qed.

Lemma rebuild_rejects (dir spec : string) (st : state) :
  countByte "@" spec = 0 ->
  rebuild env dir spec st = (Err (ErrInvalidSpec spec), st).
Proof.
  intros Hat. unfold rebuild.
  destruct (ContainsRune spec "@") eqn:E.
  - apply ContainsRune_count in E. lia.
  - now rewrite orb_true_r.
Qed.

(** The specification the loop builds always has its [@]. *)
Lemma spec_has_at (a b : string) : 0 < countByte "@" (a ++ "@" ++ b).
Proof. rewrite countByte_append. simpl. lia. Qed.

End Executor.

(** C6 as stated fails: a specification with two [@] does not contain
    exactly one, and yet [rebuild] returns no error for it and runs the
    install. *)
Lemma C6_counterexample :
  countByte "@" "example.com/a@v1@v2" = 2 /\
  rebuild envOk "/tmp/x" "example.com/a@v1@v2" initState
  = (Ok tt,
     emitAll [EvLog "running: /usr/bin/go install example.com/a@v1@v2";
              EvRun "/tmp/x" ["install"; "example.com/a@v1@v2"] None]
       initState).
Proof. split; reflexivity. Qed.

(** C6 (amended): [rebuild] returns its invalid-specification error, without
    logging or running anything, exactly when the specification is empty or
    contains no [@]; any other specification, also one with several [@], is
    logged and handed to [go install] in the scratch directory, and the
    outcome of that run is returned. *)
Theorem C6_rebuild_check (env : Env) (dir spec : string) (st : state) :
  (spec = EmptyString \/ countByte "@" spec = 0 ->
   rebuild env dir spec st = (Err (ErrInvalidSpec spec), st)) /\
  (spec <> EmptyString -> 0 < countByte "@" spec ->
   rebuild env dir spec st =
   let st1 := emit (EvLog ("running: " ++ cmdString env ["install"; spec])) st in
   let err := env_install env (trace st1) dir spec in
   (match err with None => Ok tt | Some e => Err e end,
    emit (EvRun dir ["install"; spec] err) st1)).
Proof.
  split.
  - intros [-> | H0]; [reflexivity | now apply rebuild_rejects].
  - intros _ Hat. now apply rebuild_runs.
Qed.

Lemma C6_rebuild_check_witness :
  (EmptyString = EmptyString \/ countByte "@" EmptyString = 0) /\
  rebuild envOk "/tmp/x" EmptyString initState = (Err (ErrInvalidSpec EmptyString), initState) /\
  "example.com/a@v1" <> EmptyString /\ 0 < countByte "@" "example.com/a@v1" /\
  rebuild envFail "/tmp/x" "example.com/a@v1" initState
  = (Err (ErrExternal "exit status 1"),
     emitAll [EvLog "running: /usr/bin/go install example.com/a@v1";
              EvRun "/tmp/x" ["install"; "example.com/a@v1"]
                (Some (ErrExternal "exit status 1"))]
       initState).
Proof.
  assert (H1 : EmptyString = EmptyString \/ countByte "@" EmptyString = 0) by (now left).
  assert (H2 : "example.com/a@v1" <> EmptyString) by discriminate.
  assert (H3 : 0 < countByte "@" "example.com/a@v1") by (simpl; lia).
  split; [exact H1|]. split.
  - exact (proj1 (C6_rebuild_check envOk "/tmp/x" EmptyString initState) H1).
  - split; [exact H2|]. split; [exact H3|].
    exact (proj2 (C6_rebuild_check envFail "/tmp/x" "example.com/a@v1" initState)
             H2 H3).
Defined.

(* ================================================================== *)
(** * The planner: one turn of the loop of [run] *)

Section Planner.

Variable env : Env.
Variable upgrade : bool.
Variable gover : string.

Lemma loopBody_skip (p : program) (st : state) :
  negb upgrade && (goVersion p =? gover) = true ->
  loopBody env upgrade gover p st = (Ok tt, st).
Proof. intros H. unfold loopBody. now rewrite H. Qed.

Lemma loopBody_devel (p : program) (st : state) :
  unrebuildable upgrade gover p = true ->
  loopBody env upgrade gover p st = (Ok tt, addSkipped (path p) st).
Proof.
  unfold unrebuildable, loopBody. intros [H1 H2]%andb_true_iff.
  apply negb_true_iff in H1. now rewrite H1, H2.
Qed.

Lemma loopBody_rebuild (p : program) (st : state) :
  needsRebuild upgrade gover p = true ->
  loopBody env upgrade gover p st = rebuildItem env p (targetOf upgrade p) st.
Proof.
  unfold needsRebuild, loopBody. intros [H1 H2]%andb_true_iff.
  apply negb_true_iff in H1, H2. rewrite H1, H2.
  unfold rebuildItem, bind, targetOf.
  destruct (ensureTempDir env st) as [[[]| |] st1]; try reflexivity.
  rewrite rebuild_runs by apply spec_has_at. cbv zeta.
  now destruct (env_install env _ _ _).
Qed.

End Planner.

(** C1: the loop treats each record by the four rules in their order:
    rule 1, no upgrade and the same toolchain version: Skip, nothing
    happens; rule 2, else the module version is [(devel)]:
    SkipUnrebuildable, the path is recorded as skipped; rule 3, else upgrade:
    RebuildLatest, a rebuild of [path@latest]; rule 4, else: RebuildPinned, a
    rebuild of [path@moduleVersion]. *)
Theorem C1_planner_rules (env : Env) (upgrade : bool) (gover : string)
    (p : program) (st : state) :
  (upgrade = false /\ goVersion p = gover ->
   loopBody env upgrade gover p st = perform env Skip p EmptyString st) /\
  (~ (upgrade = false /\ goVersion p = gover) ->
   modVersion p = "(devel)" ->
   loopBody env upgrade gover p st = perform env SkipUnrebuildable p EmptyString st) /\
  (~ (upgrade = false /\ goVersion p = gover) ->
   modVersion p <> "(devel)" ->
   upgrade = true ->
   loopBody env upgrade gover p st = perform env RebuildLatest p "latest" st) /\
  (~ (upgrade = false /\ goVersion p = gover) ->
   modVersion p <> "(devel)" ->
   upgrade <> true ->
   loopBody env upgrade gover p st
   = perform env RebuildPinned p (modVersion p) st).
Proof.
  assert (Hrule1 : negb upgrade && (goVersion p =? gover) = false <->
                   ~ (upgrade = false /\ goVersion p = gover)).
  { rewrite <- not_true_iff_false, andb_true_iff, negb_true_iff, String.eqb_eq.
    tauto. }
  repeat split.
  - intros [-> Hv]. apply loopBody_skip. apply String.eqb_eq in Hv.
    now rewrite Hv.
  - intros H1 H2. apply loopBody_devel. unfold unrebuildable.
    apply Hrule1 in H1. apply String.eqb_eq in H2. now rewrite H1, H2.
  - intros H1 H2 ->. cbn [perform].
    rewrite loopBody_rebuild; [reflexivity|]. unfold needsRebuild.
    apply Hrule1 in H1. apply String.eqb_neq in H2. now rewrite H1, H2.
  - intros H1 H2 H3. cbn [perform]. apply not_true_is_false in H3. subst upgrade.
    rewrite loopBody_rebuild; [reflexivity|]. unfold needsRebuild.
    apply Hrule1 in H1. apply String.eqb_neq in H2. now rewrite H1, H2.
Qed.

Lemma C1_planner_rules_witness :
  ~ (false = false /\ goVersion alpha = "go1.21") /\
  modVersion alpha <> "(devel)" /\ false <> true /\
  loopBody envFail false "go1.21" alpha initState
  = (Ok tt,
     mkState [] ["example.com/alpha"] "/tmp/rebuild-gobin-123"
       ["/tmp/rebuild-gobin-123"]
       [EvMkdirTemp (inl "/tmp/rebuild-gobin-123");
        EvLog "running: /usr/bin/go install example.com/alpha@v1.2.0";
        EvRun "/tmp/rebuild-gobin-123" ["install"; "example.com/alpha@v1.2.0"]
          (Some (ErrExternal "exit status 1"))]).
Proof.
  assert (H1 : ~ (false = false /\ goVersion alpha = "go1.21"))
    by (intros [_ H]; discriminate H).
  assert (H2 : modVersion alpha <> "(devel)") by discriminate.
  assert (H3 : false <> true) by discriminate.
  repeat (split; [assumption|]).
  rewrite (proj2 (proj2 (proj2
             (C1_planner_rules envFail false "go1.21" alpha initState))) H1 H2 H3).
  reflexivity.
Defined.

(** C4 as stated fails: a valid [(devel)] record built with the active
    toolchain is, without [-u], skipped by rule 1 and is not recorded as
    unrebuildable. *)
Lemma C4_counterexample :
  valid (mkProgram "example.com/beta" "(devel)" "go1.21") = true /\
  modVersion (mkProgram "example.com/beta" "(devel)" "go1.21") = "(devel)" /\
  loopBody envOk false "go1.21"
    (mkProgram "example.com/beta" "(devel)" "go1.21") initState
  = (Ok tt, initState) /\
  loopBody envOk false "go1.21"
    (mkProgram "example.com/beta" "(devel)" "go1.21") initState
  <> perform envOk SkipUnrebuildable
       (mkProgram "example.com/beta" "(devel)" "go1.21") EmptyString initState.
Proof. repeat split; try reflexivity. discriminate. Qed.

(** C4 (amended): a record whose module version is [(devel)] is never
    rebuilt; it is SkipUnrebuildable whenever upgrade is set or its toolchain
    version differs from the active one, and Skip when upgrade is unset and
    the versions are equal. *)
Theorem C4_devel_never_rebuilt (env : Env) (upgrade : bool) (gover : string)
    (p : program) (st : state) :
  modVersion p = "(devel)" ->
  (upgrade = true \/ goVersion p <> gover ->
   loopBody env upgrade gover p st = perform env SkipUnrebuildable p EmptyString st) /\
  (upgrade = false /\ goVersion p = gover ->
   loopBody env upgrade gover p st = perform env Skip p EmptyString st) /\
  trace (snd (loopBody env upgrade gover p st)) = trace st.
Proof.
  intros Hdev. apply String.eqb_eq in Hdev.
  assert (Hskip : upgrade = false /\ goVersion p = gover ->
                  loopBody env upgrade gover p st = (Ok tt, st)).
  { intros [-> Hv]. apply loopBody_skip. apply String.eqb_eq in Hv.
    now rewrite Hv. }
  assert (Hdevel : upgrade = true \/ goVersion p <> gover ->
                   loopBody env upgrade gover p st
                   = (Ok tt, addSkipped (path p) st)).
  { intros H. apply loopBody_devel. unfold unrebuildable. rewrite Hdev.
    destruct H as [-> | H]; [reflexivity|].
    apply String.eqb_neq in H. rewrite H. now rewrite andb_false_r. }
  split; [exact Hdevel|]. split; [exact Hskip|].
  destruct upgrade.
  - now rewrite Hdevel by now left.
  - destruct (string_dec (goVersion p) gover) as [Hv|Hv].
    + now rewrite Hskip.
    + now rewrite Hdevel by now right.
Qed.

Lemma C4_devel_never_rebuilt_witness :
  modVersion beta = "(devel)" /\
  (false = true \/ goVersion beta <> "go1.21") /\
  loopBody envOk false "go1.21" beta initState
  = (Ok tt, mkState ["example.com/beta"] [] EmptyString [] []).
Proof.
  assert (H1 : modVersion beta = "(devel)") by reflexivity.
  assert (H2 : false = true \/ goVersion beta <> "go1.21")
    by (right; discriminate).
  split; [exact H1|]. split; [exact H2|].
  rewrite (proj1 (C4_devel_never_rebuilt envOk false "go1.21" beta initState H1) H2).
  reflexivity.
Defined.

(* ================================================================== *)
(** * The final report *)

Section Report.

Lemma emit_emitAll (ev : Event) (st : state) : emit ev st = emitAll [ev] st.
Proof. reflexivity. Qed.

Lemma emitAll_nil (st : state) : emitAll [] st = st.
Proof. destruct st. unfold emitAll. cbn. now rewrite app_nil_r. Qed.

Lemma emitAll_emitAll (a b : list Event) (st : state) :
  emitAll b (emitAll a st) = emitAll (a ++ b) st.
Proof. unfold emitAll. cbn. now rewrite app_assoc. Qed.

Lemma logEach_lines (items : list string) :
  forall st,
    logEach items st
    = (Ok tt, emitAll (map (fun s => EvLog ("  " ++ s)) items) st).
Proof.
  induction items as [|s rest IH]; intros st; cbn [logEach map].
  - unfold ret. now rewrite emitAll_nil.
  - unfold bind, logPrintln. rewrite IH, emit_emitAll, emitAll_emitAll.
    reflexivity.
Qed.

Lemma section_lines (header : string) (items : list string) (st : state) :
  (if negb (length items =? 0)%nat
   then logPrintln [header] ;;; logEach items
   else ret tt) st
  = (Ok tt, emitAll (map EvLog (reportSection header items)) st).
Proof.
  destruct items as [|s rest]; cbn [length Nat.eqb negb reportSection].
  - unfold ret. cbn [map]. now rewrite emitAll_nil.
  - unfold bind, logPrintln. rewrite logEach_lines.
    rewrite emit_emitAll, emitAll_emitAll. cbn [map app String.concat].
    now rewrite map_map.
Qed.

Lemma report_lines (st : state) :
  report st
  = (Ok tt,
     emitAll (map EvLog (reportSection skippedHeader (skipped st) ++
                         reportSection failedHeader (failed st))) st).
Proof.
  unfold report.
  destruct ((length (skipped st) =? 0)%nat && (length (failed st) =? 0)%nat) eqn:E.
  - apply andb_true_iff in E as [E1 E2]. apply Nat.eqb_eq in E1, E2.
    apply length_zero_iff_nil in E1, E2. rewrite E1, E2. cbn.
    now rewrite emitAll_nil.
  - unfold bind at 1. rewrite section_lines, section_lines.
    now rewrite emitAll_emitAll, map_app.
Qed.

(** A header is in the lines of a section only as that section's header. *)
Lemma header_in_section (h header : string) (items : list string) :
  In h (reportSection header items) ->
  (h = header \/ exists s, h = ("  " ++ s)%string) /\ items <> [].
Proof.
  destruct items as [|s rest]; cbn [reportSection]; [intros []|].
  intros [<- | Hin]; (split; [|discriminate]); [now left|].
  apply in_map_iff in Hin as (x & <- & _). right. now exists x.
Qed.

Lemma section_has_header (header : string) (items : list string) :
  items <> [] -> In header (reportSection header items).
Proof. destruct items; [congruence | intros _; now left]. Qed.

Lemma section_has_item (header s : string) (items : list string) :
  In s items -> In ("  " ++ s)%string (reportSection header items).
Proof.
  destruct items as [|x rest]; [intros []|]. intros Hin. right.
  apply in_map_iff. now exists s.
Qed.

End Report.

(** C8: the report logs the section of skipped programs exactly when
    [skipped] is not empty, the section of failed installs exactly when
    [failed] is not empty, each a header and one line for each path, and
    logs nothing when both are empty; it never fails. *)
Theorem C8_report_sections (st : state) :
  let lines := reportSection skippedHeader (skipped st) ++
               reportSection failedHeader (failed st) in
  report st = (Ok tt, emitAll (map EvLog lines) st) /\
  (In skippedHeader lines <-> skipped st <> []) /\
  (In failedHeader lines <-> failed st <> []) /\
  (skipped st = [] -> failed st = [] -> report st = (Ok tt, st)).
Proof.
  cbv zeta. split; [apply report_lines|]. repeat split.
  - intros [H|H]%in_app_iff; apply header_in_section in H as [[H|[s H]] Hne];
      try discriminate H; exact Hne.
  - intros H. apply in_app_iff. left. now apply section_has_header.
  - intros [H|H]%in_app_iff; apply header_in_section in H as [[H|[s H]] Hne];
      try discriminate H; exact Hne.
  - intros H. apply in_app_iff. right. now apply section_has_header.
  - intros H1 H2. rewrite report_lines, H1, H2. cbn. now rewrite emitAll_nil.
Qed.

Lemma C8_report_sections_witness :
  skipped initState = [] /\ failed initState = [] /\
  report initState = (Ok tt, initState) /\
  report (mkState ["example.com/beta"] ["example.com/alpha"] EmptyString [] [])
  = (Ok tt,
     mkState ["example.com/beta"] ["example.com/alpha"] EmptyString []
       [EvLog skippedHeader; EvLog "  example.com/beta";
        EvLog failedHeader; EvLog "  example.com/alpha"]).
Proof.
  split; [reflexivity|]. split; [reflexivity|]. split.
  - exact (proj2 (proj2 (proj2 (C8_report_sections initState))) eq_refl eq_refl).
  - exact (proj1 (C8_report_sections
                    (mkState ["example.com/beta"] ["example.com/alpha"] EmptyString [] []))).
Defined.

(* ================================================================== *)
(** * The loop of [run] *)

Section Loop.

Variable env : Env.
Variable upgrade : bool.
Variable gover : string.

Lemma grown_nil (st : state) : grown st [] [] [] = st.
Proof. destruct st. unfold grown. cbn. now rewrite !app_nil_r. Qed.

Lemma grown_grown (st : state) (sk fl sk' fl' : list string)
    (evs evs' : list Event) :
  grown (grown st sk fl evs) sk' fl' evs'
  = grown st (sk ++ sk') (fl ++ fl') (evs ++ evs').
Proof. unfold grown. cbn. now rewrite !app_assoc. Qed.

Lemma mkdirCalls_app (a b : list Event) :
  mkdirCalls (a ++ b) = mkdirCalls a + mkdirCalls b.
Proof.
  induction a as [|ev a IH]; [reflexivity|].
  destruct ev; cbn; rewrite IH; reflexivity.
Qed.

Lemma mkdirCalls_logs (lines : list string) : mkdirCalls (map EvLog lines) = 0.
Proof. induction lines; [reflexivity | exact IHlines]. Qed.

Lemma mkdirCalls_removes (dirs : list string) :
  mkdirCalls (map EvRemoveAll dirs) = 0.
Proof. induction dirs; [reflexivity | exact IHdirs]. Qed.

Lemma joinPath_length (d n : string) :
  String.length n <= String.length (joinPath d n).
Proof.
  unfold joinPath.
  destruct (_ =? _)%nat; [|destruct (HasPrefix _ _)];
    rewrite ?length_append; cbn; lia.
Qed.

Lemma tempName_nonempty (tmp rnd : string) :
  (joinPath tmp "rebuild-gobin-" ++ rnd)%string <> EmptyString.
Proof.
  intros H. apply (f_equal String.length) in H.
  rewrite length_append in H.
  pose proof (joinPath_length tmp "rebuild-gobin-") as Hl. cbn in Hl, H. lia.
Qed.

(** The three ways of [ensureTempDir]: there is a directory already; it is
    made now; making it fails. *)
Lemma ensureTempDir_cases (st : state) :
  (tempDir st <> EmptyString /\ ensureTempDir env st = (Ok tt, st)) \/
  (tempDir st = EmptyString /\ exists name,
     name <> EmptyString /\
     ensureTempDir env st
     = (Ok tt, pushDeferred name
                 (setTempDir name (emit (EvMkdirTemp (inl name)) st)))) \/
  (tempDir st = EmptyString /\ exists e,
     ensureTempDir env st = (Err e, emit (EvMkdirTemp (inr e)) st)).
Proof.
  unfold ensureTempDir, MkdirTemp.
  destruct (tempDir st =? EmptyString) eqn:E.
  - apply String.eqb_eq in E. right.
    destruct (env_mkdirTemp env (trace st)) as [[tmp rnd]|e].
    + left. split; [exact E|]. eexists. split; [apply tempName_nonempty|].
      reflexivity.
    + right. split; [exact E|]. now exists e.
  - apply String.eqb_neq in E. now left.
Qed.

(** One turn of the loop, in all its cases. *)
Lemma loopBody_cases (p : program) (st : state) :
  (needsRebuild upgrade gover p = false /\
   unrebuildable upgrade gover p = false /\
   loopBody env upgrade gover p st = (Ok tt, st)) \/
  (unrebuildable upgrade gover p = true /\
   loopBody env upgrade gover p st = (Ok tt, addSkipped (path p) st)) \/
  (needsRebuild upgrade gover p = true /\ tempDir st = EmptyString /\ exists e,
     loopBody env upgrade gover p st
     = (Err e, emit (EvMkdirTemp (inr e)) st)) \/
  (needsRebuild upgrade gover p = true /\
   exists name defs made err,
     name <> EmptyString /\
     (tempDir st <> EmptyString -> made = [] /\ name = tempDir st /\ defs = deferred st) /\
     (tempDir st = EmptyString -> made = [EvMkdirTemp (inl name)]) /\
     loopBody env upgrade gover p st
     = (Ok tt,
        mkState (skipped st) (failed st ++ failedBy err p) name defs
          (trace st ++ made ++ rebuildEvents env name (specOf upgrade p) err))).
Proof.
  destruct (negb upgrade && (goVersion p =? gover)) eqn:E1.
  { left. unfold needsRebuild, unrebuildable. rewrite E1.
    repeat split. now apply loopBody_skip. }
  destruct (modVersion p =? "(devel)") eqn:E2.
  { right; left. assert (H : unrebuildable upgrade gover p = true)
      by (unfold unrebuildable; now rewrite E1, E2).
    split; [exact H | now apply loopBody_devel]. }
  right; right.
  assert (H : needsRebuild upgrade gover p = true)
    by (unfold needsRebuild; now rewrite E1, E2).
  rewrite (loopBody_rebuild env upgrade gover p st H).
  unfold rebuildItem, bind.
  destruct (ensureTempDir_cases st)
    as [[Hne ->] | [[He (name & Hname & ->)] | [He (e & ->)]]].
  - right. split; [exact H|].
    exists (tempDir st), (deferred st), [],
      (env_install env
         (trace (emit (EvLog ("running: " ++
                              cmdString env ["install"; specOf upgrade p])) st))
         (tempDir st) (specOf upgrade p)).
    split; [exact Hne|]. split; [now intros _|]. split; [contradiction|].
    cbv zeta. fold (specOf upgrade p).
    destruct (env_install env _ _ _);
      unfold addFailed, emit, pushDeferred, setTempDir, rebuildEvents, failedBy;
      cbn [skipped failed tempDir deferred trace];
      rewrite <- ?app_assoc, ?app_nil_r; reflexivity.
  - right. split; [exact H|].
    exists name, (name :: deferred st), [EvMkdirTemp (inl name)],
      (env_install env
         (trace (emit (EvLog ("running: " ++
                              cmdString env ["install"; specOf upgrade p]))
                   (pushDeferred name
                      (setTempDir name (emit (EvMkdirTemp (inl name)) st)))))
         name (specOf upgrade p)).
    split; [exact Hname|]. split; [contradiction|]. split; [now intros _|].
    cbv zeta. fold (specOf upgrade p).
    destruct (env_install env _ _ _);
      unfold addFailed, emit, pushDeferred, setTempDir, rebuildEvents, failedBy;
      cbn [skipped failed tempDir deferred trace];
      rewrite <- ?app_assoc, ?app_nil_r; reflexivity.
  - left. split; [exact H|]. split; [exact He|]. now exists e.
Qed.

Lemma needsRebuild_not_unrebuildable (p : program) :
  needsRebuild upgrade gover p = true -> unrebuildable upgrade gover p = false.
Proof.
  unfold needsRebuild, unrebuildable.
  destruct (negb (negb upgrade && _)); [|discriminate].
  cbn. now intros ->%negb_true_iff.
Qed.

(** Once the scratch directory exists, a turn of the loop cannot fail and
    makes no directory. *)
Lemma loopBody_ready (p : program) (st : state) :
  tempDir st <> EmptyString ->
  exists sk fl evs,
    loopBody env upgrade gover p st = (Ok tt, grown st sk fl evs) /\
    mkdirCalls evs = 0 /\
    (needsRebuild upgrade gover p = true ->
     exists err, evs = rebuildEvents env (tempDir st) (specOf upgrade p) err /\
                 fl = failedBy err p) /\
    (unrebuildable upgrade gover p = true -> sk = [path p]).
Proof.
  intros Hne.
  destruct (loopBody_cases p st)
    as [(N & U & ->) | [(U & ->) | [(N & He & _) | (N & name & defs & made & err
                                                    & _ & Hready & _ & ->)]]].
  - exists [], [], []. rewrite grown_nil. repeat split; congruence.
  - exists [path p], [], []. unfold grown, addSkipped. rewrite !app_nil_r.
    repeat split. intros N. apply needsRebuild_not_unrebuildable in N. congruence.
  - contradiction.
  - destruct (Hready Hne) as (-> & -> & ->).
    exists [], (failedBy err p), (rebuildEvents env (tempDir st) (specOf upgrade p) err).
    unfold grown. rewrite app_nil_r. repeat split.
    + intros _. now exists err.
    + intros U. apply needsRebuild_not_unrebuildable in N. congruence.
Qed.

Lemma forPrograms_ready (programs : list program) :
  forall st,
    tempDir st <> EmptyString ->
    exists sk fl evs,
      forPrograms env upgrade gover programs st = (Ok tt, grown st sk fl evs) /\
      mkdirCalls evs = 0 /\
      (forall q, In q programs -> needsRebuild upgrade gover q = true ->
         exists err,
           In (EvRun (tempDir st) ["install"; specOf upgrade q] err) evs) /\
      (forall q, In q programs -> unrebuildable upgrade gover q = true ->
         In (path q) sk).
Proof.
  induction programs as [|p rest IH]; intros st Hne; cbn [forPrograms].
  - exists [], [], []. unfold ret. rewrite grown_nil.
    repeat split; intros q [].
  - destruct (loopBody_ready p st Hne) as (sk & fl & evs & Hp & Hm & Hreb & Hsk).
    destruct (IH (grown st sk fl evs) Hne)
      as (sk' & fl' & evs' & Hrest & Hm' & Hreb' & Hsk').
    exists (sk ++ sk'), (fl ++ fl'), (evs ++ evs').
    unfold bind. rewrite Hp, Hrest, grown_grown.
    split; [reflexivity|]. split; [rewrite mkdirCalls_app; lia|]. split.
    + intros q [<- | Hin] Hq.
      * destruct (Hreb Hq) as (err & -> & _). exists err.
        apply in_app_iff. left. right. now left.
      * destruct (Hreb' q Hin Hq) as [err Herr]. exists err.
        apply in_app_iff. now right.
    + intros q [<- | Hin] Hq; apply in_app_iff.
      * left. rewrite (Hsk Hq). now left.
      * right. now apply Hsk'.
Qed.

(** While no record needs a rebuild, the loop only records skipped paths. *)
Lemma forPrograms_idle (programs : list program) :
  forall st,
    existsb (needsRebuild upgrade gover) programs = false ->
    exists sk,
      forPrograms env upgrade gover programs st = (Ok tt, grown st sk [] []).
Proof.
  induction programs as [|p rest IH]; intros st Hno; cbn [forPrograms].
  - exists []. unfold ret. now rewrite grown_nil.
  - cbn [existsb] in Hno. apply orb_false_iff in Hno as [Hp Hrest].
    destruct (loopBody_cases p st)
      as [(_ & _ & H) | [(_ & H) | [(N & _) | (N & _)]]]; try congruence;
      unfold bind; rewrite H.
    + exact (IH st Hrest).
    + destruct (IH (addSkipped (path p) st) Hrest) as [sk ->].
      exists ([path p] ++ sk). unfold grown, addSkipped. cbn.
      now rewrite <- app_assoc.
Qed.

Lemma forPrograms_app (a b : list program) :
  forall st,
    forPrograms env upgrade gover (a ++ b) st
    = (forPrograms env upgrade gover a ;;; forPrograms env upgrade gover b) st.
Proof.
  induction a as [|p a IH]; intros st; cbn [app forPrograms]; [reflexivity|].
  unfold bind.
  destruct (loopBody env upgrade gover p st) as [[[]| |] st1]; [|reflexivity..].
  rewrite IH. reflexivity.
Qed.

(** The loop calls [os.MkdirTemp] at most once. *)
Lemma forPrograms_mkdir_once (programs : list program) :
  forall st,
    exists evs,
      trace (snd (forPrograms env upgrade gover programs st)) = trace st ++ evs /\
      mkdirCalls evs <= 1 /\
      (tempDir st <> EmptyString -> mkdirCalls evs = 0).
Proof.
  induction programs as [|p rest IH]; intros st; cbn [forPrograms].
  - exists []. cbn. rewrite app_nil_r. repeat split; lia.
  - unfold bind.
    destruct (loopBody_cases p st)
      as [(_ & _ & ->) | [(_ & ->) | [(_ & He & e & ->) |
           (_ & name & defs & made & err & Hname & Hready & Hmade & ->)]]].
    + exact (IH st).
    + exact (IH (addSkipped (path p) st)).
    + exists [EvMkdirTemp (inr e)]. cbn. repeat split; [lia | congruence].
    + match goal with |- context [forPrograms _ _ _ rest ?s] => set (st1 := s) end.
      assert (Hne : tempDir st1 <> EmptyString) by exact Hname.
      destruct (forPrograms_ready rest st1 Hne) as (sk & fl & evs & -> & Hm & _).
      exists ((made ++ rebuildEvents env name (specOf upgrade p) err) ++ evs).
      cbn [snd grown trace st1]. rewrite !app_assoc. split; [reflexivity|].
      rewrite !mkdirCalls_app, Hm.
      change (mkdirCalls (rebuildEvents env name (specOf upgrade p) err)) with 0.
      split.
      * destruct (string_dec (tempDir st) EmptyString) as [E|E].
        -- rewrite (Hmade E). cbn. lia.
        -- destruct (Hready E) as (-> & _). cbn. lia.
      * intros E. destruct (Hready E) as (-> & _). reflexivity.
Qed.

End Loop.

(** C7: when the rebuild of a record fails, its path is appended to
    [failed] and the loop goes on: every later record is still treated (a
    rebuild is run for each one that needs it, each unrebuildable one is
    recorded as skipped), the loop ends without an error, and the report is
    logged, with the failed section that lists the path. *)
Theorem C7_failure_does_not_stop (env : Env) (upgrade : bool) (gover : string)
    (pre : list program) (p : program) (rest : list program)
    (st0 st st2 : state) (r : result unit) (evs : list Event)
    (d : string) (args : list string) (e : error) :
  forPrograms env upgrade gover pre st0 = (Ok tt, st) ->
  loopBody env upgrade gover p st = (r, st2) ->
  trace st2 = trace st ++ evs ->
  In (EvRun d args (Some e)) evs ->
  r = Ok tt /\
  failed st2 = failed st ++ [path p] /\
  exists sk fl evs' lines,
    forPrograms env upgrade gover rest st2 = (Ok tt, grown st2 sk fl evs') /\
    (forall q, In q rest -> needsRebuild upgrade gover q = true ->
       exists err,
         In (EvRun (tempDir st2) ["install"; specOf upgrade q] err) evs') /\
    (forall q, In q rest -> unrebuildable upgrade gover q = true ->
       In (path q) sk) /\
    (forPrograms env upgrade gover (pre ++ p :: rest) ;;; report) st0
    = (Ok tt, emitAll (map EvLog lines) (grown st2 sk fl evs')) /\
    In failedHeader lines /\
    In ("  " ++ path p)%string lines.
Proof.
  intros Hpre Hbody Htrace Hin.
  assert (Hst2 : r = Ok tt /\ failed st2 = failed st ++ [path p] /\
                 tempDir st2 <> EmptyString).
  { destruct (loopBody_cases env upgrade gover p st)
      as [(_ & _ & H) | [(_ & H) | [(_ & _ & e0 & H) |
           (_ & name & defs & made & err & Hname & Hready & Hmade & H)]]];
      rewrite H in Hbody; injection Hbody as <- <-; cbn [trace addSkipped emit] in Htrace.
    - rewrite <- (app_nil_r (trace st)) in Htrace at 1.
      apply app_inv_head in Htrace. subst evs. destruct Hin.
    - rewrite <- (app_nil_r (trace st)) in Htrace at 1.
      apply app_inv_head in Htrace. subst evs. destruct Hin.
    - apply app_inv_head in Htrace. subst evs.
      destruct Hin as [Hin|[]]. discriminate Hin.
    - apply app_inv_head in Htrace. subst evs.
      assert (Herr : err = Some e).
      { apply in_app_iff in Hin as [Hin|Hin].
        - destruct (string_dec (tempDir st) EmptyString) as [E|E].
          + rewrite (Hmade E) in Hin. destruct Hin as [Hin|[]]. discriminate Hin.
          + destruct (Hready E) as (-> & _). destruct Hin.
        - destruct Hin as [Hin|[Hin|[]]]; [discriminate Hin|]. congruence. }
      subst err. cbn [failed tempDir failedBy]. repeat split. exact Hname. }
  destruct Hst2 as (-> & Hfailed & Hne).
  split; [reflexivity|]. split; [exact Hfailed|].
  destruct (forPrograms_ready env upgrade gover rest st2 Hne)
    as (sk & fl & evs' & Hrest & _ & Hreb & Hsk).
  exists sk, fl, evs'.
  exists (reportSection skippedHeader (skipped (grown st2 sk fl evs')) ++
          reportSection failedHeader (failed (grown st2 sk fl evs'))).
  split; [exact Hrest|]. split; [exact Hreb|]. split; [exact Hsk|].
  assert (Hp : In (path p) (failed (grown st2 sk fl evs'))).
  { cbn [grown failed]. rewrite Hfailed. apply in_app_iff. left.
    apply in_app_iff. right. now left. }
  split; [|split].
  - unfold bind at 1. rewrite forPrograms_app. unfold bind at 1.
    rewrite Hpre. cbn [forPrograms]. unfold bind at 1. rewrite Hbody, Hrest.
    apply report_lines.
  - apply in_app_iff. right. apply section_has_header.
    intros E. rewrite E in Hp. destruct Hp.
  - apply in_app_iff. right. now apply section_has_item.
Qed.

Lemma C7_failure_does_not_stop_witness :
  let st2 :=
    mkState [] ["example.com/alpha"] "/tmp/rebuild-gobin-123"
      ["/tmp/rebuild-gobin-123"]
      ([EvMkdirTemp (inl "/tmp/rebuild-gobin-123")] ++
       rebuildEvents envFail "/tmp/rebuild-gobin-123" "example.com/alpha@v1.2.0"
         (Some (ErrExternal "exit status 1"))) in
  forPrograms envFail false "go1.21" [] initState = (Ok tt, initState) /\
  loopBody envFail false "go1.21" alpha initState = (Ok tt, st2) /\
  failed st2 = failed initState ++ [path alpha] /\
  fst ((forPrograms envFail false "go1.21" ([] ++ alpha :: [beta]) ;;; report)
         initState) = Ok tt.
Proof.
  cbv zeta.
  assert (H1 : forPrograms envFail false "go1.21" [] initState = (Ok tt, initState))
    by reflexivity.
  split; [exact H1|]. split; [reflexivity|].
  destruct (C7_failure_does_not_stop envFail false "go1.21" [] alpha [beta]
              initState initState
              (mkState [] ["example.com/alpha"] "/tmp/rebuild-gobin-123"
                 ["/tmp/rebuild-gobin-123"]
                 ([EvMkdirTemp (inl "/tmp/rebuild-gobin-123")] ++
                  rebuildEvents envFail "/tmp/rebuild-gobin-123"
                    "example.com/alpha@v1.2.0"
                    (Some (ErrExternal "exit status 1"))))
              (Ok tt)
              ([EvMkdirTemp (inl "/tmp/rebuild-gobin-123")] ++
               rebuildEvents envFail "/tmp/rebuild-gobin-123"
                 "example.com/alpha@v1.2.0" (Some (ErrExternal "exit status 1")))
              "/tmp/rebuild-gobin-123" ["install"; "example.com/alpha@v1.2.0"]
              (ErrExternal "exit status 1")
              H1 eq_refl eq_refl (or_intror (or_intror (or_introl eq_refl))))
    as (_ & Hfailed & sk & fl & evs' & lines & _ & _ & _ & Hrun & _).
  split; [exact Hfailed|]. now rewrite Hrun.
Defined.

Section Run.

Variable env : Env.
Variable upgrade : bool.

(** The report and the deferred calls make no directory. *)
Lemma run_tail_mkdir (gover : string) (programs : list program) (st : state) :
  mkdirCalls
    (trace (runDeferred
              (snd ((forPrograms env upgrade gover programs ;;; report) st))))
  = mkdirCalls (trace (snd (forPrograms env upgrade gover programs st))).
Proof.
  unfold bind.
  destruct (forPrograms env upgrade gover programs st) as [[[]| |] st1];
    cbn [snd]; unfold runDeferred; cbn [trace];
    rewrite ?report_lines; cbn [snd emitAll trace];
    rewrite !mkdirCalls_app, ?mkdirCalls_logs, mkdirCalls_removes; lia.
Qed.

End Run.

(** C9: in every run [os.MkdirTemp] is called at most once; while no record
    needs a rebuild nothing is created (the loop leaves the trace and
    [tempDir] as they were), so a run without rebuilds never creates the
    directory; and the call is made when the first record that needs a
    rebuild is reached: it is then the first thing the loop does to the
    outside. *)
Theorem C9_scratch_dir_lazy (env : Env) (upgrade : bool) :
  mkdirCalls (trace (snd (run env upgrade))) <= 1 /\
  (forall dir programs gover,
     env_getGobin env = Ok dir -> inspectGobin env dir = Ok programs ->
     env_goVersion env = Ok gover ->
     existsb (needsRebuild upgrade gover) programs = false ->
     mkdirCalls (trace (snd (run env upgrade))) = 0) /\
  (forall gover programs,
     existsb (needsRebuild upgrade gover) programs = false ->
     exists sk,
       forPrograms env upgrade gover programs initState
       = (Ok tt, grown initState sk [] [])) /\
  (forall gover pre p rest,
     existsb (needsRebuild upgrade gover) pre = false ->
     needsRebuild upgrade gover p = true ->
     exists sk res evs,
       forPrograms env upgrade gover pre initState
       = (Ok tt, grown initState sk [] []) /\
       trace (snd (forPrograms env upgrade gover (pre ++ p :: rest) initState))
       = EvMkdirTemp res :: evs /\
       mkdirCalls evs = 0).
Proof.
  split; [|split; [|split]].
  - unfold run.
    destruct (env_getGobin env) as [dir| |]; cbn; try lia.
    destruct (inspectGobin env dir) as [programs| |]; cbn; try lia.
    destruct (env_goVersion env) as [gover| |]; cbn; try lia.
    pose proof (run_tail_mkdir env upgrade gover programs initState) as Ht.
    destruct ((forPrograms env upgrade gover programs ;;; report) initState)
      as [r st] eqn:E. cbn [snd] in *. rewrite Ht.
    destruct (forPrograms_mkdir_once env upgrade gover programs initState)
      as (evs & -> & Hle & _). exact Hle.
  - intros dir programs gover Hdir Hprog Hver Hno. unfold run.
    rewrite Hdir, Hprog, Hver.
    pose proof (run_tail_mkdir env upgrade gover programs initState) as Ht.
    destruct ((forPrograms env upgrade gover programs ;;; report) initState)
      as [r st] eqn:E. cbn [snd] in *. rewrite Ht.
    destruct (forPrograms_idle env upgrade gover programs initState Hno)
      as [sk ->]. reflexivity.
  - intros gover programs Hno. now apply forPrograms_idle.
  - intros gover pre p rest Hno Hp.
    destruct (forPrograms_idle env upgrade gover pre initState Hno) as [sk Hpre].
    exists sk. rewrite forPrograms_app. unfold bind at 1. rewrite Hpre.
    cbn [forPrograms]. unfold bind at 1.
    set (st1 := grown initState sk [] []).
    assert (Ht : tempDir st1 = EmptyString) by reflexivity.
    destruct (loopBody_cases env upgrade gover p st1)
      as [(N & _) | [(U & _) | [(_ & _ & e & ->) |
           (_ & name & defs & made & err & Hname & _ & Hmade & ->)]]].
    + congruence.
    + apply needsRebuild_not_unrebuildable in Hp. congruence.
    + exists (inr e), []. repeat split.
    + rewrite (Hmade Ht).
      match goal with |- context [forPrograms _ _ _ rest ?s] => set (st2 := s) end.
      assert (Hne : tempDir st2 <> EmptyString) by exact Hname.
      destruct (forPrograms_ready env upgrade gover rest st2 Hne)
        as (sk' & fl & evs & -> & Hm & _).
      exists (inl name), (rebuildEvents env name (specOf upgrade p) err ++ evs).
      split; [reflexivity|]. split; [reflexivity|].
      rewrite mkdirCalls_app, Hm. reflexivity.
Qed.

Lemma C9_scratch_dir_lazy_witness :
  env_getGobin envOk = Ok "/go/bin" /\
  inspectGobin envOk "/go/bin" = Ok [alpha; beta] /\
  existsb (needsRebuild false "go1.21") [beta] = false /\
  needsRebuild false "go1.21" alpha = true /\
  mkdirCalls (trace (snd (run envOk false))) <= 1 /\
  exists res evs,
    trace (snd (forPrograms envOk false "go1.21" ([beta] ++ alpha :: [beta])
                  initState))
    = EvMkdirTemp res :: evs /\
    mkdirCalls evs = 0.
Proof.
  destruct (C9_scratch_dir_lazy envOk false) as (Hle & _ & _ & Hlazy).
  destruct (Hlazy "go1.21" [beta] alpha [beta] eq_refl eq_refl)
    as (sk & res & evs & _ & Htrace & Hevs).
  do 4 (split; [reflexivity|]). split; [exact Hle|].
  exists res, evs. split; [exact Htrace | exact Hevs].
Defined.

(* ================================================================== *)
(** * Whole runs on the small inventory *)

(** The toolchain is newer and the installs fail: [alpha] is rebuilt at its
    pinned version and reported as failed, [beta] is reported as skipped,
    and the scratch directory is removed at the end. *)
Example run_pinned_rebuild_fails :
  run envFail false
  = (Ok tt,
     mkState ["example.com/beta"] ["example.com/alpha"]
       "/tmp/rebuild-gobin-123" []
       [EvMkdirTemp (inl "/tmp/rebuild-gobin-123");
        EvLog "running: /usr/bin/go install example.com/alpha@v1.2.0";
        EvRun "/tmp/rebuild-gobin-123" ["install"; "example.com/alpha@v1.2.0"]
          (Some (ErrExternal "exit status 1"));
        EvLog skippedHeader; EvLog "  example.com/beta";
        EvLog failedHeader; EvLog "  example.com/alpha";
        EvRemoveAll "/tmp/rebuild-gobin-123"]).
Proof. reflexivity. Qed.

(** With [-u] the rebuild asks for [latest]. *)
Example run_upgrade :
  trace (snd (run envOk true))
  = [EvMkdirTemp (inl "/tmp/rebuild-gobin-123");
     EvLog "running: /usr/bin/go install example.com/alpha@latest";
     EvRun "/tmp/rebuild-gobin-123" ["install"; "example.com/alpha@latest"] None;
     EvLog skippedHeader; EvLog "  example.com/beta";
     EvRemoveAll "/tmp/rebuild-gobin-123"].
Proof. reflexivity. Qed.

(** When the active toolchain is the one [alpha] was built with, nothing is
    rebuilt and no directory is made. *)
Example run_nothing_to_rebuild :
  trace (snd (run (mkEnv (Ok "/go/bin") (fun _ => Ok sampleInventory)
                     (Ok "go1.20") "/usr/bin/go"
                     (fun _ => inl ("/tmp", "123")) (fun _ _ _ => None))
                false))
  = [EvLog skippedHeader; EvLog "  example.com/beta"].
Proof. reflexivity. Qed.

(* ================================================================== *)
(** * More on the parser *)

Section ParserMore.

Variable dir : string.

Lemma zeroProgram_invalid : valid zeroProgram = false.
Proof. reflexivity. Qed.

Lemma parseLines_emitted (lines : list string) :
  parseLines dir lines =
  match scanLoop dir lines ([], zeroProgram) with
  | Ok (out, current) => Ok (emitted out current)
  | Err e => Err e
  | Panic m => Panic m
  end.
Proof. reflexivity. Qed.

(** [parseLines] is the filter of the candidates, or a panic. *)
Lemma parseLines_candidates (lines : list string) :
  match parseLines dir lines with
  | Ok out => out = filter valid (candidates dir zeroProgram lines)
  | Err _ => False
  | Panic _ => dir = EmptyString /\ In EmptyString lines
  end.
Proof.
  rewrite parseLines_emitted.
  pose proof (scanLoop_emits dir lines [] zeroProgram) as H.
  destruct (scanLoop dir lines _) as [[out current]| |]; exact H.
Qed.

Lemma parseInventory_parseLines (buf : string) :
  snd (Bufio.scan buf) = None ->
  parseInventory dir buf = parseLines dir (fst (Bufio.scan buf)).
Proof.
  unfold parseInventory, parseLines.
  destruct (Bufio.scan buf) as [lines scanErr]. cbn [fst snd]. intros ->.
  now destruct (scanLoop dir lines _) as [[out current]| |].
Qed.

(** What [parseInventory] returns is what [parseLines] returns on the
    scanned lines. *)
Lemma parseInventory_Ok (buf : string) (out : list program) :
  parseInventory dir buf = Ok out ->
  parseLines dir (fst (Bufio.scan buf)) = Ok out.
Proof.
  unfold parseInventory, parseLines.
  destruct (Bufio.scan buf) as [lines scanErr]. cbn [fst].
  destruct (scanLoop dir lines _) as [[o c]| |]; [|discriminate..].
  now destruct scanErr.
Qed.

(** The loop does not look at what is in [out] already. *)
Lemma scanLine_out (text : string) (pre out : list program)
    (current : program) :
  scanLine dir (pre ++ out, current) text =
  match scanLine dir (out, current) text with
  | Ok (out', current') => Ok (pre ++ out', current')
  | Err e => Err e
  | Panic m => Panic m
  end.
Proof.
  unfold scanLine. destruct (HasPrefix text dir).
  - destruct (sliceFrom _ _); try reflexivity.
    destruct (valid current); [now rewrite app_assoc | reflexivity].
  - destruct (_ && _); [reflexivity|]. now destruct (_ && _).
Qed.

Lemma scanLoop_out (lines : list string) :
  forall pre out current,
    scanLoop dir lines (pre ++ out, current) =
    match scanLoop dir lines (out, current) with
    | Ok (out', current') => Ok (pre ++ out', current')
    | Err e => Err e
    | Panic m => Panic m
    end.
Proof.
  induction lines as [|text rest IH]; intros pre out current; [reflexivity|].
  cbn [scanLoop]. rewrite scanLine_out.
  destruct (scanLine dir (out, current) text) as [[out' current']| |];
    [apply IH | reflexivity..].
Qed.

Lemma scanLoop_from_nil (lines : list string) (pre : list program)
    (current : program) :
  scanLoop dir lines (pre, current) =
  match scanLoop dir lines ([], current) with
  | Ok (out', current') => Ok (pre ++ out', current')
  | Err e => Err e
  | Panic m => Panic m
  end.
Proof. rewrite <- (scanLoop_out lines pre [] current). now rewrite app_nil_r. Qed.

Lemma scanLoop_app (l1 l2 : list string) (st : scanState) :
  scanLoop dir (l1 ++ l2) st =
  match scanLoop dir l1 st with
  | Ok st' => scanLoop dir l2 st'
  | Err e => Err e
  | Panic m => Panic m
  end.
Proof.
  revert st. induction l1 as [|text rest IH]; intros st; [reflexivity|].
  cbn [app scanLoop]. destruct (scanLine dir st text); [apply IH | reflexivity..].
Qed.

(** The candidate keeps its Go version on a line without the prefix, and
    starts afresh on a line with it. *)
Lemma nextCandidate_fields (current : program) (text : string) :
  HasPrefix text dir = false ->
  goVersion (nextCandidate dir current text) = goVersion current /\
  (path (nextCandidate dir current text) = path current \/
   Fields text = ["path"; path (nextCandidate dir current text)]) /\
  (modVersion (nextCandidate dir current text) = modVersion current \/
   exists m rest,
     Fields text = "mod" :: m :: modVersion (nextCandidate dir current text) :: rest).
Proof.
  intros Hp. unfold nextCandidate, scanLine. rewrite Hp.
  destruct (Fields text) as [|f0 [|f1 [|f2 rest]]]; cbn;
    try (repeat split; now left).
  - destruct (f0 =? "path") eqn:E; cbn; [|repeat split; now left].
    apply String.eqb_eq in E. subst f0. repeat split; [now right | now left].
  - destruct (f0 =? "mod") eqn:E; cbn; [|repeat split; now left].
    apply String.eqb_eq in E. subst f0. repeat split; [now left|].
    right. now exists f1, rest.
Qed.

Lemma nextCandidate_start (current : program) (text : string) :
  HasPrefix text dir = true ->
  nextCandidate dir current text = current \/
  exists v, sliceFrom text (Index text ": " + 2) = Ok v /\
            nextCandidate dir current text = newProgram v.
Proof.
  intros Hp. unfold nextCandidate. rewrite (scanLine_boundary _ _ _ _ Hp).
  destruct (sliceFrom _ _) as [v| |]; [right; now exists v | now left..].
Qed.

End ParserMore.

Section ParserRecords.

Variable dir : string.

Lemma valid_fields (p : program) :
  valid p = true <->
  path p <> EmptyString /\ modVersion p <> EmptyString /\
  goVersion p <> EmptyString.
Proof.
  unfold valid. rewrite !andb_true_iff, !negb_true_iff, !String.eqb_neq. tauto.
Qed.

(** Counting: a candidate is valid only if a boundary line gave it its Go
    version, and each boundary line starts one candidate. *)
Lemma candidates_count (lines : list string) :
  forall current,
    length (filter valid (candidates dir current lines))
    <= (if goVersion current =? EmptyString then 0 else 1)
       + boundaryCount dir lines.
Proof.
  assert (Hone : forall c, (if valid c then 1 else 0)
                           <= (if goVersion c =? EmptyString then 0 else 1)).
  { intros c. unfold valid.
    destruct (path c =? EmptyString), (modVersion c =? EmptyString),
      (goVersion c =? EmptyString); cbn; lia. }
  unfold boundaryCount.
  induction lines as [|text rest IH]; intros current; cbn [candidates filter].
  - specialize (Hone current). destruct (valid current); cbn in *; lia.
  - destruct (HasPrefix text dir) eqn:Hp.
    + specialize (IH (nextCandidate dir current text)).
      specialize (Hone current). cbn [filter length].
      destruct (goVersion (nextCandidate dir current text) =? EmptyString);
        destruct (valid current); cbn [length] in *; lia.
    + specialize (IH (nextCandidate dir current text)).
      destruct (nextCandidate_fields dir current text Hp) as [Eg _].
      rewrite Eg in IH. exact IH.
Qed.

Lemma nextCandidate_from (all : list string) (current : program)
    (text : string) :
  In text all -> fieldsFrom dir all current ->
  fieldsFrom dir all (nextCandidate dir current text).
Proof.
  intros Hin (Hg & Hpath & Hmod).
  destruct (HasPrefix text dir) eqn:Hp.
  - destruct (nextCandidate_start dir current text Hp) as [-> | (v & Hv & ->)].
    + now repeat split.
    + repeat split; try now left. right. now exists text.
  - destruct (nextCandidate_fields dir current text Hp) as (Eg & Ep & Em).
    repeat split.
    + now rewrite Eg.
    + destruct Ep as [-> | Ep]; [exact Hpath|]. right. now exists text.
    + destruct Em as [-> | (m & rest & Em)]; [exact Hmod|].
      right. now exists text, m, rest.
Qed.

Lemma candidates_from (all lines : list string) :
  forall current,
    (forall text, In text lines -> In text all) ->
    fieldsFrom dir all current ->
    Forall (fieldsFrom dir all) (candidates dir current lines).
Proof.
  induction lines as [|text rest IH]; intros current Hall Hcur;
    cbn [candidates].
  - now constructor.
  - assert (Hnext : Forall (fieldsFrom dir all)
                      (candidates dir (nextCandidate dir current text) rest)).
    { apply IH; [intros t Ht; apply Hall; now right|].
      apply nextCandidate_from; [apply Hall; now left | exact Hcur]. }
    destruct (HasPrefix text dir); [now constructor | exact Hnext].
Qed.

(** A line that is neither a boundary, nor a [path] line, nor a [mod] line
    leaves the state of the loop as it is. *)
Lemma scanLine_ignored (text : string) (st : scanState) :
  HasPrefix text dir = false ->
  (forall rest, Fields text <> "path" :: rest) ->
  (forall rest, Fields text <> "mod" :: rest) ->
  scanLine dir st text = Ok st.
Proof.
  intros Hp Hpath Hmod. destruct st as [out current].
  unfold scanLine. rewrite Hp.
  destruct (Fields text) as [|f0 fs]; [reflexivity|].
  assert (E1 : (f0 =? "path") = false)
    by (apply String.eqb_neq; intros ->; now apply (Hpath fs)).
  assert (E2 : (f0 =? "mod") = false)
    by (apply String.eqb_neq; intros ->; now apply (Hmod fs)).
  cbn [nth]. now rewrite E1, E2, !andb_false_r.
Qed.

End ParserRecords.

(** X1: every record [inspectGobin] returns has its three fields: a
    non-empty path, module version and Go version. *)
Theorem inspectGobin_records_valid (env : Env) (dir : string)
    (out : list program) :
  inspectGobin env dir = Ok out ->
  Forall (fun p => path p <> EmptyString /\ modVersion p <> EmptyString /\
                   goVersion p <> EmptyString) out.
Proof.
  unfold inspectGobin. destruct (env_goVersionM env dir) as [buf| |];
    [|discriminate..].
  intros H%parseInventory_Ok.
  pose proof (parseLines_candidates dir (fst (Bufio.scan buf))) as Hc.
  rewrite H in Hc. subst out. apply Forall_forall.
  intros p [_ Hv]%filter_In. now apply valid_fields.
Qed.

Lemma inspectGobin_records_valid_witness :
  inspectGobin envOk "/go/bin" = Ok [alpha; beta] /\
  Forall (fun p => path p <> EmptyString /\ modVersion p <> EmptyString /\
                   goVersion p <> EmptyString) [alpha; beta].
Proof.
  split; [reflexivity|].
  exact (inspectGobin_records_valid envOk "/go/bin" [alpha; beta] eq_refl).
Defined.

(** X2: [inspectGobin] returns at most one record for each line that
    begins with the directory; an output without such a line gives no
    record, whatever [path] and [mod] lines it has. *)
Theorem records_bounded_by_boundaries (dir buf : string) (out : list program) :
  parseInventory dir buf = Ok out ->
  length out <= boundaryCount dir (fst (Bufio.scan buf)) /\
  (boundaryCount dir (fst (Bufio.scan buf)) = 0 -> out = []).
Proof.
  intros H%parseInventory_Ok.
  pose proof (parseLines_candidates dir (fst (Bufio.scan buf))) as Hc.
  rewrite H in Hc. subst out.
  pose proof (candidates_count dir (fst (Bufio.scan buf)) zeroProgram) as Hn.
  cbn [goVersion zeroProgram String.eqb] in Hn.
  split; [exact Hn|]. intros H0. rewrite H0 in Hn.
  apply length_zero_iff_nil. lia.
Qed.

Lemma records_bounded_by_boundaries_witness :
  parseInventory "/go/bin" (tab ++ "path" ++ tab ++ "example.com/alpha" ++ lf ++
                            tab ++ "mod" ++ tab ++ "example.com/alpha" ++ tab
                            ++ "v1.2.0" ++ lf) = Ok [] /\
  boundaryCount "/go/bin" (fst (Bufio.scan sampleInventory)) = 2 /\
  length [alpha; beta] <= 2.
Proof.
  split; [reflexivity|]. split; [reflexivity|].
  exact (proj1 (records_bounded_by_boundaries "/go/bin" sampleInventory
                  [alpha; beta] eq_refl)).
Defined.

(** X3: nothing in a record is made up: its Go version is what a line that
    begins with the directory has after the first [": "], its path is the
    second token of a two-token [path] line, and its module version is the
    third token of a [mod] line of the output. *)
Theorem records_come_from_lines (dir buf : string) (out : list program)
    (p : program) :
  parseInventory dir buf = Ok out ->
  In p out ->
  goVersionFrom dir (fst (Bufio.scan buf)) (goVersion p) /\
  pathFrom dir (fst (Bufio.scan buf)) (path p) /\
  modVersionFrom dir (fst (Bufio.scan buf)) (modVersion p).
Proof.
  intros H%parseInventory_Ok Hin.
  pose proof (parseLines_candidates dir (fst (Bufio.scan buf))) as Hc.
  rewrite H in Hc. subst out. apply filter_In in Hin as [Hin Hv].
  apply valid_fields in Hv as (Hp & Hm & Hg).
  assert (Hzero : fieldsFrom dir (fst (Bufio.scan buf)) zeroProgram)
    by (repeat split; now left).
  pose proof (candidates_from dir (fst (Bufio.scan buf)) (fst (Bufio.scan buf))
                zeroProgram (fun _ H => H) Hzero) as Hall.
  rewrite Forall_forall in Hall.
  destruct (Hall p Hin) as ([?|Fg] & [?|Fp] & [?|Fm]); try contradiction.
  now repeat split.
Qed.

Lemma records_come_from_lines_witness :
  parseInventory "/go/bin" sampleInventory = Ok [alpha; beta] /\
  In alpha [alpha; beta] /\
  goVersionFrom "/go/bin" (fst (Bufio.scan sampleInventory)) "go1.20".
Proof.
  split; [reflexivity|]. split; [now left|].
  exact (proj1 (records_come_from_lines "/go/bin" sampleInventory
                  [alpha; beta] alpha eq_refl (or_introl eq_refl))).
Defined.

(** X4: a line that does not begin with the directory and whose first
    token is neither [path] nor [mod] (a [dep] or [build] line, a blank
    line) has no influence: the parser returns the same with and without
    it. *)
Theorem ignored_lines_do_not_matter (dir text : string)
    (before after : list string) :
  HasPrefix text dir = false ->
  (forall rest, Fields text <> "path" :: rest) ->
  (forall rest, Fields text <> "mod" :: rest) ->
  parseLines dir (before ++ text :: after) = parseLines dir (before ++ after).
Proof.
  intros Hp Hpath Hmod. unfold parseLines. rewrite !scanLoop_app.
  destruct (scanLoop dir before _) as [st| |]; try reflexivity.
  cbn [scanLoop]. now rewrite (scanLine_ignored dir text st Hp Hpath Hmod).
Qed.

Lemma ignored_lines_do_not_matter_witness :
  HasPrefix (tab ++ "dep" ++ tab ++ "example.com/dep" ++ tab ++ "v0.1.0")
    "/go/bin" = false /\
  parseLines "/go/bin"
    (["/go/bin/alpha: go1.20"; "path example.com/alpha"] ++
     (tab ++ "dep" ++ tab ++ "example.com/dep" ++ tab ++ "v0.1.0")%string
     :: ["mod example.com/alpha v1.2.0"])
  = Ok [alpha].
Proof.
  split; [reflexivity|].
  rewrite (ignored_lines_do_not_matter "/go/bin"
             (tab ++ "dep" ++ tab ++ "example.com/dep" ++ tab ++ "v0.1.0")
             ["/go/bin/alpha: go1.20"; "path example.com/alpha"]
             ["mod example.com/alpha v1.2.0"] eq_refl).
  - reflexivity.
  - intros rest H. discriminate H.
  - intros rest H. discriminate H.
Defined.

Lemma parseLines_cut (dir boundary : string) (l1 l2 : list string)
    (o1 o2 : list program) :
  HasPrefix boundary dir = true ->
  parseLines dir l1 = Ok o1 ->
  parseLines dir (boundary :: l2) = Ok o2 ->
  parseLines dir (l1 ++ boundary :: l2) = Ok (o1 ++ o2).
Proof.
  intros Hb H1 H2. rewrite parseLines_emitted in H1, H2 |- *.
  rewrite scanLoop_app.
  destruct (scanLoop dir l1 ([], zeroProgram)) as [[out1 c1]| |];
    [|discriminate H1..].
  injection H1 as <-. cbn [scanLoop] in H2 |- *.
  rewrite (scanLine_boundary dir boundary [] zeroProgram Hb) in H2.
  rewrite (scanLine_boundary dir boundary _ c1 Hb).
  destruct (sliceFrom boundary (Index boundary ": " + 2)) as [v| |];
    [|discriminate H2..].
  change (emitted [] zeroProgram) with (@nil program) in H2.
  rewrite scanLoop_from_nil.
  destruct (scanLoop dir l2 ([], newProgram v)) as [[out2 c2]| |];
    [|discriminate H2..].
  injection H2 as <-. f_equal. unfold emitted.
  destruct (valid c2); [now rewrite app_assoc | reflexivity].
Qed.

(** X5: the records of different binaries do not mix: cutting the lines
    just before a line that begins with the directory, the records of the
    whole are the records of the first part followed by those of the
    second. *)
Theorem records_of_parts (dir boundary : string) (l1 l2 : list string)
    (o1 o2 : list program) :
  HasPrefix boundary dir = true ->
  parseLines dir l1 = Ok o1 ->
  parseLines dir (boundary :: l2) = Ok o2 ->
  parseLines dir (l1 ++ boundary :: l2) = Ok (o1 ++ o2).
Proof. apply parseLines_cut. Qed.

Lemma records_of_parts_witness :
  HasPrefix "/go/bin/beta: go1.19" "/go/bin" = true /\
  parseLines "/go/bin"
    (["/go/bin/alpha: go1.20"; "path example.com/alpha";
      "mod example.com/alpha v1.2.0"] ++
     "/go/bin/beta: go1.19" ::
     ["path example.com/beta"; "mod example.com/beta (devel)"])
  = Ok ([alpha] ++ [beta]).
Proof.
  split; [reflexivity|].
  exact (records_of_parts "/go/bin" "/go/bin/beta: go1.19"
           ["/go/bin/alpha: go1.20"; "path example.com/alpha";
            "mod example.com/alpha v1.2.0"]
           ["path example.com/beta"; "mod example.com/beta (devel)"]
           [alpha] [beta] eq_refl eq_refl eq_refl).
Defined.

(* ================================================================== *)
(** * Reading back what [go version -m] prints *)

Section Scanning.

Import Bufio.

Lemma pieces_nonempty (buf : string) : pieces buf <> [].
Proof.
  destruct buf as [|c s]; cbn [pieces]; [discriminate|].
  destruct (Ascii.eqb c newline); [discriminate|].
  destruct (pieces s); discriminate.
Qed.

Lemma pieces_line (l rest : string) :
  countByte newline l = 0 ->
  pieces (l ++ lf ++ rest) = l :: pieces rest.
Proof.
  induction l as [|c l IH]; intros H; [reflexivity|].
  cbn [countByte] in H. cbn [append pieces].
  destruct (Ascii.eqb c newline); [discriminate H|].
  now rewrite (IH H).
Qed.

Lemma tokens_cons (l : string) (ps : list string) :
  ps <> [] ->
  tokens (l :: ps) =
  if (len l <? MaxScanTokenSize)%Z
  then let '(ts, e) := tokens ps in (dropCR l :: ts, e)
  else ([], Some ErrTooLong).
Proof. destruct ps; [congruence | reflexivity]. Qed.

Lemma dropCR_id (l : string) :
  lastByte l <> Some carriageReturn -> dropCR l = l.
Proof.
  induction l as [|c l IH]; [reflexivity|].
  destruct l as [|d l]; cbn [lastByte dropCR] in *.
  - intros H. destruct (Ascii.eqb c carriageReturn) eqn:E; [|reflexivity].
    apply Ascii.eqb_eq in E. congruence.
  - intros H. now rewrite (IH H).
Qed.

(** The scanner gives back the lines that were written one after the
    other, each with its newline. *)
Lemma scan_unlines (lines : list string) :
  Forall (fun l => countByte newline l = 0 /\
                   lastByte l <> Some carriageReturn /\
                   (len l < MaxScanTokenSize)%Z) lines ->
  scan (unlines lines) = (lines, None).
Proof.
  unfold scan. induction 1 as [|l rest (Hn & Hcr & Hlen) _ IH]; [reflexivity|].
  cbn [unlines]. rewrite (pieces_line _ _ Hn).
  rewrite (tokens_cons _ _ (pieces_nonempty _)), IH.
  apply Z.ltb_lt in Hlen. rewrite Hlen. now rewrite (dropCR_id _ Hcr).
Qed.

End Scanning.

Section Words.

Lemma noSpace_no_newline (w : string) :
  noSpace w = true -> countByte Bufio.newline w = 0.
Proof.
  induction w as [|c w IH]; [reflexivity|]. cbn [noSpace countByte].
  intros [Hc Hw]%andb_true_iff. rewrite (IH Hw).
  destruct (Ascii.eqb c Bufio.newline) eqn:E; [|reflexivity].
  apply Ascii.eqb_eq in E. subst c. discriminate Hc.
Qed.

Lemma lastByte_word (c : ascii) (w : string) :
  noSpace w = true -> c <> Bufio.carriageReturn ->
  lastByte (String c w) <> Some Bufio.carriageReturn.
Proof.
  revert c. induction w as [|d w IH]; intros c Hw Hc.
  - cbn. congruence.
  - cbn [noSpace] in Hw. apply andb_true_iff in Hw as [Hd Hw].
    change (lastByte (String c (String d w))) with (lastByte (String d w)).
    apply IH; [exact Hw|]. intros ->. discriminate Hd.
Qed.

Lemma lastByte_append (a b : string) :
  b <> EmptyString -> lastByte (a ++ b) = lastByte b.
Proof.
  intros Hb. induction a as [|c a IH]; [reflexivity|].
  cbn [append]. destruct (a ++ b)%string eqn:E.
  - destruct a; [cbn in E; congruence | discriminate E].
  - exact IH.
Qed.

Lemma allASCII_append (a b : string) :
  allASCII (a ++ b) = allASCII a && allASCII b.
Proof.
  induction a as [|c a IH]; [reflexivity|]. cbn [append allASCII].
  now rewrite IH, andb_assoc.
Qed.

Lemma append_empty_r (s : string) : (s ++ EmptyString)%string = s.
Proof. induction s; [reflexivity | cbn; congruence]. Qed.

(** The fast path runs over a word without closing a field. *)
Lemma fieldsASCII_word (w : string) :
  forall s cur,
    noSpace w = true -> fieldsASCII (w ++ s) cur = fieldsASCII s (cur ++ w).
Proof.
  induction w as [|c w IH]; intros s cur Hw.
  - cbn [append]. now rewrite append_empty_r.
  - cbn [noSpace] in Hw. apply andb_true_iff in Hw as [Hc Hw].
    apply negb_true_iff in Hc. cbn [append fieldsASCII]. rewrite Hc.
    rewrite (IH _ _ Hw). f_equal. now rewrite append_assoc.
Qed.

Lemma fieldsASCII_last_word (w cur : string) :
  noSpace w = true -> fieldsASCII w cur = closeField (cur ++ w).
Proof.
  intros Hw. rewrite <- (append_empty_r w) at 1.
  now rewrite (fieldsASCII_word w EmptyString cur Hw).
Qed.

Lemma Fields_path_line (p : string) :
  isWord p = true -> p <> EmptyString ->
  Fields (tab ++ "path" ++ tab ++ p) = ["path"; p].
Proof.
  intros [Ha Hs]%andb_true_iff Hne.
  rewrite Fields_ascii by (cbn; exact Ha).
  cbn. rewrite (fieldsASCII_last_word p EmptyString Hs).
  destruct p; [congruence | reflexivity].
Qed.

Lemma Fields_mod_line (p v sum : string) :
  isWord p = true -> p <> EmptyString ->
  isWord v = true -> v <> EmptyString ->
  isWord sum = true ->
  Fields (tab ++ "mod" ++ tab ++ p ++ tab ++ v ++ tab ++ sum)
  = "mod" :: p :: v :: closeField sum.
Proof.
  intros [Hpa Hps]%andb_true_iff Hp [Hva Hvs]%andb_true_iff Hv
    [Hsa Hss]%andb_true_iff.
  rewrite Fields_ascii
    by (cbn; rewrite allASCII_append, Hpa; cbn; rewrite allASCII_append, Hva;
        cbn; exact Hsa).
  cbn. rewrite (fieldsASCII_word p _ _ Hps). cbn.
  rewrite (fieldsASCII_word v _ _ Hvs). cbn.
  rewrite (fieldsASCII_last_word sum EmptyString Hss).
  destruct p; [congruence|]. destruct v; [congruence|]. reflexivity.
Qed.

(** A file name without [": "] puts the first [": "] of its line right
    after itself. *)
Lemma Index_after_file (file post : string) :
  Index file ": " = (-1)%Z ->
  Index (file ++ ": " ++ post) ": " = Z.of_nat (String.length file).
Proof.
  change (file ++ ": " ++ post)%string
    with (file ++ String ":" (String " " post))%string.
  induction file as [|c file IH]; intros H.
  { cbn [append Index].
    replace (String.prefix ": " (String ":" (String " " post))) with true
      by (symmetry; apply prefix_iff; now exists post).
    reflexivity. }
  cbn [Index] in H.
  destruct (String.prefix ": " (String c file)) eqn:Hp; [discriminate H|].
  assert (Hf : Index file ": " = (-1)%Z).
  { destruct (Index file ": " <? 0)%Z eqn:E; [|apply Z.ltb_ge in E; lia].
    destruct (Index_spec ": " file) as [[Hi _] | (n & Hi & _)]; [exact Hi|].
    apply Z.ltb_lt in E. lia. }
  cbn [append Index String.length].
  replace (String.prefix ": " (String c (file ++ String ":" (String " " post))))
    with false.
  - rewrite (IH Hf).
    replace (Z.of_nat (String.length file) <? 0)%Z with false
      by (symmetry; apply Z.ltb_ge; lia).
    lia.
  - symmetry. apply not_true_iff_false. intros [p Hpre]%prefix_iff.
    injection Hpre as -> Hrest.
    destruct file as [|d file]; [discriminate Hrest|].
    injection Hrest as -> _.
    apply not_true_iff_false in Hp. apply Hp, prefix_iff. now exists file.
Qed.

End Words.

Section RoundTrip.

Variable dir : string.
Hypothesis dir_nonempty : dir <> EmptyString.
Hypothesis dir_no_tab : HasPrefix dir tab = false.

Lemma tab_line_not_boundary (s : string) : HasPrefix (tab ++ s) dir = false.
Proof.
  apply not_true_iff_false. unfold HasPrefix. intros [post H]%prefix_iff.
  destruct dir as [|c d] eqn:E; [congruence|].
  injection H as <- _.
  apply not_true_iff_false in dir_no_tab. apply dir_no_tab.
  unfold HasPrefix. apply prefix_iff. now exists d.
Qed.

Lemma scanLine_path (text v : string) (out : list program)
    (current : program) :
  HasPrefix text dir = false -> Fields text = ["path"; v] ->
  scanLine dir (out, current) text = Ok (out, setPath v current).
Proof. intros Hp Hf. unfold scanLine. now rewrite Hp, Hf. Qed.

Lemma scanLine_mod (text m v : string) (rest : list string)
    (out : list program) (current : program) :
  HasPrefix text dir = false -> Fields text = "mod" :: m :: v :: rest ->
  scanLine dir (out, current) text = Ok (out, setModVersion v current).
Proof. intros Hp Hf. unfold scanLine. now rewrite Hp, Hf. Qed.

Lemma readable_valid (b : binaryInfo) :
  readable dir b -> valid (binProgram b) = true.
Proof.
  intros (_ & _ & _ & Hg & _ & _ & Hp & _ & Hm & _). apply valid_fields.
  now repeat split.
Qed.

(** The three lines of a binary end the candidate before them and leave
    the record of the binary as the candidate. *)
Lemma scanLoop_binary (b : binaryInfo) (out : list program)
    (current : program) :
  readable dir b ->
  scanLoop dir (renderBinary b) (out, current)
  = Ok (emitted out current, binProgram b).
Proof.
  intros (Hfile & Hsep & _ & _ & _ & _ & Hp & Hpw & Hv & Hvw & Hsw).
  destruct b as [file [p v g] sum]. cbn [binFile binProgram binSum path
    modVersion goVersion renderBinary] in *.
  unfold renderBinary. cbn [binFile binProgram binSum path modVersion
    goVersion scanLoop].
  assert (Hb : HasPrefix (file ++ ": " ++ g) dir = true).
  { unfold HasPrefix in *. apply prefix_iff in Hfile as [x ->].
    apply prefix_iff. exists (x ++ ": " ++ g)%string. now rewrite append_assoc. }
  rewrite (scanLine_boundary _ _ _ _ Hb), (Index_after_file _ _ Hsep).
  change 2%Z with (len ": ").
  rewrite (sliceFrom_after ": " _ file g eq_refl).
  rewrite (scanLine_path _ p _ _ (tab_line_not_boundary _)
             (Fields_path_line p Hpw Hp)).
  rewrite (scanLine_mod _ p v _ _ _ (tab_line_not_boundary _)
             (Fields_mod_line p v sum Hpw Hp Hvw Hv Hsw)).
  reflexivity.
Qed.

Lemma scanLoop_render (bs : list binaryInfo) :
  forall out current,
    valid current = true ->
    Forall (readable dir) bs ->
    exists out' current',
      scanLoop dir (renderLines bs) (out, current) = Ok (out', current') /\
      emitted out' current' = out ++ current :: map binProgram bs.
Proof.
  induction bs as [|b bs IH]; intros out current Hv Hbs.
  - exists out, current. split; [reflexivity|]. unfold emitted. now rewrite Hv.
  - inversion Hbs as [|? ? Hb Hrest]; subst.
    change (renderLines (b :: bs)) with (renderBinary b ++ renderLines bs).
  rewrite scanLoop_app, (scanLoop_binary _ _ _ Hb).
    destruct (IH (emitted out current) (binProgram b) (readable_valid _ Hb) Hrest)
      as (out' & current' & Hloop & Hem).
    exists out', current'. split; [exact Hloop|]. rewrite Hem.
    unfold emitted. rewrite Hv. cbn [map]. now rewrite <- app_assoc.
Qed.

Lemma parseLines_render (bs : list binaryInfo) :
  Forall (readable dir) bs ->
  parseLines dir (renderLines bs) = Ok (map binProgram bs).
Proof.
  intros Hbs. rewrite parseLines_emitted. destruct bs as [|b bs]; [reflexivity|].
  inversion Hbs as [|? ? Hb Hrest]; subst.
  change (renderLines (b :: bs)) with (renderBinary b ++ renderLines bs).
  rewrite scanLoop_app, (scanLoop_binary _ _ _ Hb).
  cbv beta iota.
  destruct (scanLoop_render bs (emitted [] zeroProgram) (binProgram b)
              (readable_valid _ Hb) Hrest) as (out' & current' & -> & ->).
  reflexivity.
Qed.

(** The lines of a readable binary have no newline inside and no carriage
    return at the end. *)
Lemma renderBinary_clean (b : binaryInfo) :
  readable dir b ->
  Forall (fun l => countByte Bufio.newline l = 0 /\
                   lastByte l <> Some Bufio.carriageReturn) (renderBinary b).
Proof.
  intros (_ & _ & Hfn & Hg & Hgn & Hgcr & _ & [_ Hps]%andb_true_iff & _
          & [_ Hvs]%andb_true_iff & [_ Hss]%andb_true_iff).
  destruct b as [file [p v g] sum]. cbn [binFile binProgram binSum path
    modVersion goVersion renderBinary] in *.
  assert (Htab : "009"%char <> Bufio.carriageReturn) by discriminate.
  unfold renderBinary. cbn [binFile binProgram binSum path modVersion goVersion].
  repeat constructor.
  - rewrite !countByte_append, Hfn, Hgn. reflexivity.
  - rewrite <- append_assoc, lastByte_append by exact Hg. exact Hgcr.
  - change (tab ++ "path" ++ tab ++ p)%string
      with ((tab ++ "path" ++ tab) ++ p)%string.
    rewrite countByte_append, (noSpace_no_newline _ Hps). reflexivity.
  - change (tab ++ "path" ++ tab ++ p)%string
      with ((tab ++ "path") ++ String "009" p)%string.
    rewrite lastByte_append by discriminate. now apply lastByte_word.
  - change (tab ++ "mod" ++ tab ++ p ++ tab ++ v ++ tab ++ sum)%string
      with ((tab ++ "mod" ++ tab) ++ p ++ tab ++ v ++ tab ++ sum)%string.
    rewrite !countByte_append, (noSpace_no_newline _ Hps),
      (noSpace_no_newline _ Hvs), (noSpace_no_newline _ Hss). reflexivity.
  - change (tab ++ "mod" ++ tab ++ p ++ tab ++ v ++ tab ++ sum)%string
      with ((tab ++ "mod" ++ tab) ++ p ++ tab ++ v ++ String "009" sum)%string.
    rewrite !lastByte_append by (try discriminate; now destruct v; destruct p).
    now apply lastByte_word.
Qed.

Lemma renderLines_clean (bs : list binaryInfo) :
  Forall (readable dir) bs ->
  Forall (fun l => countByte Bufio.newline l = 0 /\
                   lastByte l <> Some Bufio.carriageReturn) (renderLines bs).
Proof.
  induction 1 as [|b bs Hb _ IH]; cbn [renderLines flat_map]; [constructor|].
  apply Forall_app. split; [now apply renderBinary_clean | exact IH].
Qed.

End RoundTrip.

Lemma parseInventory_render (dir : string) (bs : list binaryInfo) :
  dir <> EmptyString ->
  HasPrefix dir tab = false ->
  Forall (readable dir) bs ->
  Forall (fun l => (len l < Bufio.MaxScanTokenSize)%Z) (renderLines bs) ->
  parseInventory dir (unlines (renderLines bs)) = Ok (map binProgram bs).
Proof.
  intros Hdir Htab Hbs Hlen.
  assert (Hscan : Bufio.scan (unlines (renderLines bs)) = (renderLines bs, None)).
  { apply scan_unlines.
    pose proof (renderLines_clean dir bs Hbs) as Hclean.
    rewrite Forall_forall in *. intros l Hl.
    destruct (Hclean l Hl) as [H1 H2]. repeat split; auto. }
  rewrite parseInventory_parseLines by now rewrite Hscan.
  rewrite Hscan. cbn [fst]. now apply parseLines_render.
Qed.

(** X6: the parser reads back the report of [go version -m]: for a
    directory that is not empty and does not begin with a tab, the text
    made of the three lines of each binary (file and Go version; tab,
    [path], tab, path; tab, [mod], tab, path, tab, version, tab, checksum)
    is parsed into exactly the records of the binaries, in order, provided
    each binary is readable and no line reaches the scanner's 64 KiB. *)
Theorem parse_reads_back_report (dir : string) (bs : list binaryInfo) :
  dir <> EmptyString ->
  HasPrefix dir tab = false ->
  Forall (readable dir) bs ->
  Forall (fun l => (len l < Bufio.MaxScanTokenSize)%Z) (renderLines bs) ->
  parseInventory dir (unlines (renderLines bs)) = Ok (map binProgram bs).
Proof. apply parseInventory_render. Qed.

Lemma parse_reads_back_report_witness :
  parseInventory "/go/bin"
    (unlines (renderLines
       [mkBinary "/go/bin/alpha" alpha "h1:abc=";
        mkBinary "/go/bin/beta"
          (mkProgram "example.com/beta" "(devel)"
             "devel +4de4480dc3 Fri Dec 4 22:08:54 2020 +0000")
          EmptyString]))
  = Ok [alpha;
        mkProgram "example.com/beta" "(devel)"
          "devel +4de4480dc3 Fri Dec 4 22:08:54 2020 +0000"].
Proof.
  apply (parse_reads_back_report "/go/bin"
           [mkBinary "/go/bin/alpha" alpha "h1:abc=";
            mkBinary "/go/bin/beta"
              (mkProgram "example.com/beta" "(devel)"
                 "devel +4de4480dc3 Fri Dec 4 22:08:54 2020 +0000")
              EmptyString]).
  - discriminate.
  - reflexivity.
  - repeat constructor; discriminate.
  - repeat constructor.
Defined.

(* ================================================================== *)
(** * The loop of [run], exactly *)

Section LoopExact.

Variable env : Env.
Variable upgrade : bool.
Variable gover : string.

Lemma runsOf_app (a b : list Event) : runsOf (a ++ b) = runsOf a ++ runsOf b.
Proof.
  induction a as [|ev a IH]; [reflexivity|].
  destruct ev; cbn; now rewrite IH.
Qed.

Lemma removalsOf_app (a b : list Event) :
  removalsOf (a ++ b) = removalsOf a ++ removalsOf b.
Proof.
  induction a as [|ev a IH]; [reflexivity|].
  destruct ev; cbn; now rewrite IH.
Qed.

Lemma createdOf_app (a b : list Event) :
  createdOf (a ++ b) = createdOf a ++ createdOf b.
Proof.
  induction a as [|ev a IH]; [reflexivity|].
  destruct ev as [[d|e]| | |]; cbn; now rewrite IH.
Qed.

Lemma logs_hold_nothing (lines : list string) :
  runsOf (map EvLog lines) = [] /\ removalsOf (map EvLog lines) = [] /\
  createdOf (map EvLog lines) = [].
Proof. induction lines; [now repeat split | exact IHlines]. Qed.

Lemma removals_hold_nothing (dirs : list string) :
  runsOf (map EvRemoveAll dirs) = [] /\
  removalsOf (map EvRemoveAll dirs) = dirs /\
  createdOf (map EvRemoveAll dirs) = [].
Proof.
  induction dirs as [|d dirs (H1 & H2 & H3)]; [now repeat split|].
  cbn. now rewrite H2.
Qed.

(** A turn of the loop once the scratch directory exists. *)
Lemma loopBody_ready_exact (p : program) (st : state) :
  tempDir st <> EmptyString ->
  ((needsRebuild upgrade gover) p = true /\ exists err,
     loopBody env upgrade gover p st
     = (Ok tt, grown st [] (failedBy err p)
                 (rebuildEvents env (tempDir st) (specOf upgrade p) err))) \/
  ((needsRebuild upgrade gover) p = false /\ (unrebuildable upgrade gover) p = true /\
   loopBody env upgrade gover p st = (Ok tt, grown st [path p] [] [])) \/
  ((needsRebuild upgrade gover) p = false /\ (unrebuildable upgrade gover) p = false /\
   loopBody env upgrade gover p st = (Ok tt, grown st [] [] [])).
Proof.
  intros Hne.
  destruct (loopBody_cases env upgrade gover p st)
    as [(N & U & ->) | [(U & ->) | [(N & He & _) | (N & name & defs & made & err
                                                    & _ & Hready & _ & ->)]]].
  - right; right. now rewrite grown_nil.
  - right; left. split.
    + destruct ((needsRebuild upgrade gover) p) eqn:N; [|reflexivity].
      apply needsRebuild_not_unrebuildable in N. congruence.
    + split; [exact U|]. unfold grown, addSkipped. now rewrite !app_nil_r.
  - contradiction.
  - left. split; [exact N|]. destruct (Hready Hne) as (-> & -> & ->).
    exists err. unfold grown. now rewrite app_nil_r.
Qed.

(** The turn for the first record that (needsRebuild upgrade gover) a rebuild: the oracle of
    [os.MkdirTemp] decides. *)
Lemma loopBody_first_exact (p : program) (st : state) :
  tempDir st = EmptyString -> (needsRebuild upgrade gover) p = true ->
  match env_mkdirTemp env (trace st) with
  | inr e =>
      loopBody env upgrade gover p st = (Err e, emit (EvMkdirTemp (inr e)) st)
  | inl (tmp, rnd) =>
      exists name err,
        name = (joinPath tmp "rebuild-gobin-" ++ rnd)%string /\
        name <> EmptyString /\
        loopBody env upgrade gover p st
        = (Ok tt,
           mkState (skipped st) (failed st ++ failedBy err p) name
             (name :: deferred st)
             (trace st ++ EvMkdirTemp (inl name)
                :: rebuildEvents env name (specOf upgrade p) err))
  end.
Proof.
  intros He N. rewrite (loopBody_rebuild env upgrade gover p st N).
  unfold rebuildItem, bind, ensureTempDir, MkdirTemp. rewrite He. cbn [String.eqb].
  destruct (env_mkdirTemp env (trace st)) as [[tmp rnd]|e]; [|reflexivity].
  cbv zeta. fold (specOf upgrade p).
  exists (joinPath tmp "rebuild-gobin-" ++ rnd)%string.
  match goal with
  | |- context [env_install ?a ?b ?c ?d] => exists (env_install a b c d)
  end.
  split; [reflexivity|]. split; [apply tempName_nonempty|].
  destruct (env_install env _ _ _);
    unfold addFailed, emit, pushDeferred, setTempDir, rebuildEvents, failedBy;
    cbn [skipped failed tempDir deferred trace];
    rewrite <- ?app_assoc, ?app_nil_r; reflexivity.
Qed.

Lemma forPrograms_ready_exact (programs : list program) :
  forall st,
    tempDir st <> EmptyString ->
    exists errs evs,
      length errs = length (filter (needsRebuild upgrade gover) programs) /\
      forPrograms env upgrade gover programs st
      = (Ok tt, grown st (map path (filter (unrebuildable upgrade gover) programs))
                  (failedOf (combine (filter (needsRebuild upgrade gover) programs) errs)) evs) /\
      runsOf evs
      = runsFor (tempDir st) upgrade (combine (filter (needsRebuild upgrade gover) programs) errs) /\
      mkdirCalls evs = 0 /\ removalsOf evs = [] /\ createdOf evs = [].
Proof.
  induction programs as [|p rest IH]; intros st Hne; cbn [forPrograms].
  - exists [], []. unfold ret. rewrite grown_nil. now repeat split.
  - unfold bind.
    destruct (loopBody_ready_exact p st Hne)
      as [(N & err & ->) | [(N & U & ->) | (N & U & ->)]];
      match goal with |- context [forPrograms _ _ _ rest ?s] =>
        destruct (IH s Hne) as (errs & evs & Hlen & -> & Hruns & Hm & Hr & Hc)
      end; cbn [filter]; rewrite ?N, ?U.
    + exists (err :: errs),
        (rebuildEvents env (tempDir st) (specOf upgrade p) err ++ evs).
      assert (U : (unrebuildable upgrade gover) p = false) by now apply needsRebuild_not_unrebuildable.
      rewrite U, grown_grown. cbn [combine failedOf flat_map fst snd app length].
      split; [now rewrite Hlen|]. split; [reflexivity|].
      rewrite runsOf_app, Hruns, mkdirCalls_app, Hm, removalsOf_app, Hr,
        createdOf_app, Hc. now repeat split.
    + exists errs, evs. rewrite grown_grown. cbn [map app].
      now repeat split.
    + exists errs, evs. rewrite grown_grown. cbn [app].
      now repeat split.
Qed.

Lemma forPrograms_idle_exact (programs : list program) :
  forall st,
    existsb (needsRebuild upgrade gover) programs = false ->
    forPrograms env upgrade gover programs st
    = (Ok tt, grown st (map path (filter (unrebuildable upgrade gover) programs)) [] []) /\
    filter (needsRebuild upgrade gover) programs = [].
Proof.
  induction programs as [|p rest IH]; intros st Hno; cbn [forPrograms].
  - unfold ret. now rewrite grown_nil.
  - cbn [existsb] in Hno. apply orb_false_iff in Hno as [Hp Hrest].
    cbn [filter]. rewrite Hp. unfold bind.
    destruct (loopBody_cases env upgrade gover p st)
      as [(_ & U & ->) | [(U & ->) | [(N & _) | (N & _)]]]; try congruence;
      rewrite U.
    + exact (IH st Hrest).
    + destruct (IH (addSkipped (path p) st) Hrest) as [-> Hf].
      split; [|exact Hf]. unfold grown, addSkipped. cbn.
      now rewrite <- app_assoc.
Qed.

Lemma split_first (programs : list program) :
  existsb (needsRebuild upgrade gover) programs = false \/
  exists pre p rest,
    programs = pre ++ p :: rest /\ existsb (needsRebuild upgrade gover) pre = false /\ (needsRebuild upgrade gover) p = true.
Proof.
  induction programs as [|q programs IH]; [now left|].
  destruct ((needsRebuild upgrade gover) q) eqn:N.
  - right. now exists [], q, programs.
  - destruct IH as [IH | (pre & p & rest & -> & Hpre & Hp)].
    + left. cbn. now rewrite N.
    + right. exists (q :: pre), p, rest. repeat split; [|exact Hp].
      cbn. now rewrite N.
Qed.

Lemma filter_first (pre : list program) (p : program) (rest : list program) :
  existsb (needsRebuild upgrade gover) pre = false -> (needsRebuild upgrade gover) p = true ->
  filter (needsRebuild upgrade gover) (pre ++ p :: rest) = p :: filter (needsRebuild upgrade gover) rest /\
  filter (unrebuildable upgrade gover) (pre ++ p :: rest) = filter (unrebuildable upgrade gover) pre ++ filter (unrebuildable upgrade gover) rest.
Proof.
  intros Hpre Hp. rewrite !filter_app. cbn [filter]. rewrite Hp.
  rewrite (needsRebuild_not_unrebuildable upgrade gover p Hp). split; [|reflexivity].
  replace (filter (needsRebuild upgrade gover) pre) with (@nil program); [reflexivity|].
  symmetry. induction pre as [|q pre IH]; [reflexivity|].
  cbn in Hpre |- *. apply orb_false_iff in Hpre as [-> Hpre]. now apply IH.
Qed.

(** The loop from a state without scratch directory: nothing to rebuild;
    or the directory cannot be made; or it is made once and all rebuilds
    run in it. *)
Lemma forPrograms_shapes (programs : list program) (st : state) :
  tempDir st = EmptyString ->
  (existsb (needsRebuild upgrade gover) programs = false /\
   forPrograms env upgrade gover programs st
   = (Ok tt, grown st (map path (filter (unrebuildable upgrade gover) programs)) [] [])) \/
  (existsb (needsRebuild upgrade gover) programs = true /\
   exists e sk,
     env_mkdirTemp env (trace st) = inr e /\
     forPrograms env upgrade gover programs st
     = (Err e, emit (EvMkdirTemp (inr e)) (grown st sk [] []))) \/
  (existsb (needsRebuild upgrade gover) programs = true /\
   exists name errs evs,
     (exists tmp rnd,
        env_mkdirTemp env (trace st) = inl (tmp, rnd) /\
        name = (joinPath tmp "rebuild-gobin-" ++ rnd)%string) /\
     name <> EmptyString /\
     length errs = length (filter (needsRebuild upgrade gover) programs) /\
     forPrograms env upgrade gover programs st
     = (Ok tt,
        mkState (skipped st ++ map path (filter (unrebuildable upgrade gover) programs))
          (failed st ++ failedOf (combine (filter (needsRebuild upgrade gover) programs) errs))
          name (name :: deferred st)
          (trace st ++ EvMkdirTemp (inl name) :: evs)) /\
     runsOf evs = runsFor name upgrade (combine (filter (needsRebuild upgrade gover) programs) errs) /\
     mkdirCalls evs = 0 /\ removalsOf evs = [] /\ createdOf evs = []).
Proof.
  intros He.
  destruct (split_first programs) as [Hno | (pre & p & rest & -> & Hpre & Hp)].
  { left. split; [exact Hno|]. now apply forPrograms_idle_exact. }
  right.
  assert (Hsome : existsb (needsRebuild upgrade gover) (pre ++ p :: rest) = true).
  { rewrite existsb_app. cbn. rewrite Hp. now rewrite orb_true_r. }
  destruct (filter_first pre p rest Hpre Hp) as [Hfn Hfu].
  remember (grown st (map path (filter (unrebuildable upgrade gover) pre)) [] []) as st1 eqn:Est1.
  assert (He1 : tempDir st1 = EmptyString) by (subst st1; exact He).
  assert (Ht1 : trace st1 = trace st) by (subst st1; cbn; now rewrite app_nil_r).
  assert (Hrun : forPrograms env upgrade gover (pre ++ p :: rest) st
                 = match loopBody env upgrade gover p st1 with
                   | (Ok _, s) => forPrograms env upgrade gover rest s
                   | (Err e, s) => (Err e, s)
                   | (Panic m, s) => (Panic m, s)
                   end).
  { rewrite forPrograms_app. unfold bind at 1.
    destruct (forPrograms_idle_exact pre st Hpre) as [-> _]. now subst st1. }
  rewrite Hrun. clear Hrun.
  pose proof (loopBody_first_exact p st1 He1 Hp) as Hfirst. rewrite Ht1 in Hfirst.
  destruct (env_mkdirTemp env (trace st)) as [[tmp rnd]|e] eqn:Emk.
  - right. split; [exact Hsome|].
    destruct Hfirst as (name & err & Hnm & Hname & ->).
    match goal with
    | |- context [forPrograms _ _ _ rest ?s] => remember s as st2 eqn:Est2
    end.
    assert (Hne : tempDir st2 <> EmptyString) by (subst st2; exact Hname).
    destruct (forPrograms_ready_exact rest st2 Hne)
      as (errs & evs & Hlen & -> & Hruns & Hm & Hr & Hc).
    exists name, (err :: errs),
      (rebuildEvents env name (specOf upgrade p) err ++ evs).
    rewrite Hfn, Hfu. cbn [length combine failedOf flat_map fst snd].
    split; [now exists tmp, rnd|].
    split; [exact Hname|]. split; [now rewrite Hlen|]. split.
    + subst st2. unfold grown. cbn [skipped failed tempDir deferred trace].
      subst st1. cbn [skipped failed tempDir deferred trace grown].
      rewrite !map_app, !app_nil_r, <- !app_assoc.
      reflexivity.
    + rewrite runsOf_app, Hruns, mkdirCalls_app, Hm, removalsOf_app, Hr,
        createdOf_app, Hc.
      replace (tempDir st2) with name by now subst st2.
      now repeat split.
  - left. split; [exact Hsome|]. exists e, (map path (filter (unrebuildable upgrade gover) pre)).
    split; [reflexivity|]. rewrite Hfirst. now subst st1.
Qed.

End LoopExact.

(* ================================================================== *)
(** * Whole runs *)

Section WholeRun.

Variable env : Env.
Variable upgrade : bool.

(** [run] once the three discovery steps have succeeded. *)
Lemma run_discovered (dir : string) (programs : list program) (gover : string) :
  env_getGobin env = Ok dir ->
  inspectGobin env dir = Ok programs ->
  env_goVersion env = Ok gover ->
  run env upgrade =
  match forPrograms env upgrade gover programs initState with
  | (Ok _, st) =>
      (Ok tt,
       runDeferred
         (emitAll (map EvLog (reportSection skippedHeader (skipped st) ++
                              reportSection failedHeader (failed st))) st))
  | (Err e, st) => (Err e, runDeferred st)
  | (Panic m, st) => (Panic m, runDeferred st)
  end.
Proof.
  intros Hd Hp Hv. unfold run. rewrite Hd, Hp, Hv. unfold bind.
  destruct (forPrograms env upgrade gover programs initState) as [[[]| |] st];
    [|reflexivity..].
  now rewrite report_lines.
Qed.

(** The three shapes of a run after discovery. *)
Lemma run_shapes (dir : string) (programs : list program) (gover : string) :
  env_getGobin env = Ok dir ->
  inspectGobin env dir = Ok programs ->
  env_goVersion env = Ok gover ->
  (existsb (needsRebuild upgrade gover) programs = false /\
   run env upgrade
   = (Ok tt,
      mkState (map path (filter (unrebuildable upgrade gover) programs)) []
        EmptyString []
        (map EvLog
           (reportSection skippedHeader
              (map path (filter (unrebuildable upgrade gover) programs)))))) \/
  (existsb (needsRebuild upgrade gover) programs = true /\
   exists e sk,
     env_mkdirTemp env [] = inr e /\
     run env upgrade
     = (Err e, mkState sk [] EmptyString [] [EvMkdirTemp (inr e)])) \/
  (existsb (needsRebuild upgrade gover) programs = true /\
   exists name errs evs lines,
     (exists tmp rnd,
        env_mkdirTemp env [] = inl (tmp, rnd) /\
        name = (joinPath tmp "rebuild-gobin-" ++ rnd)%string) /\
     name <> EmptyString /\
     length errs = length (filter (needsRebuild upgrade gover) programs) /\
     run env upgrade
     = (Ok tt,
        mkState (map path (filter (unrebuildable upgrade gover) programs))
          (failedOf (combine (filter (needsRebuild upgrade gover) programs) errs))
          name []
          (EvMkdirTemp (inl name) :: evs ++ map EvLog lines
             ++ [EvRemoveAll name])) /\
     runsOf evs
     = runsFor name upgrade
         (combine (filter (needsRebuild upgrade gover) programs) errs) /\
     mkdirCalls evs = 0 /\ removalsOf evs = [] /\ createdOf evs = []).
Proof.
  intros Hd Hp Hv. rewrite (run_discovered dir programs gover Hd Hp Hv).
  destruct (forPrograms_shapes env upgrade gover programs initState eq_refl)
    as [(Hno & ->) | [(Hsome & e & sk & He & ->) |
         (Hsome & name & errs & evs & Hmk & Hname & Hlen & -> & Hruns & Hrest)]].
  - left. split; [exact Hno|]. unfold runDeferred, emitAll, grown.
    cbn [skipped failed tempDir deferred trace initState app map reportSection].
    now rewrite !app_nil_r.
  - right; left. split; [exact Hsome|]. exists e, sk. split; [exact He|].
    unfold runDeferred, emit, grown.
    cbn [skipped failed tempDir deferred trace initState app map].
    reflexivity.
  - right; right. split; [exact Hsome|].
    exists name, errs, evs.
    eexists. split; [exact Hmk|].
    split; [exact Hname|]. split; [exact Hlen|]. split; [|now split].
    unfold runDeferred, emitAll.
    cbn [skipped failed tempDir deferred trace initState app map].
    rewrite <- !app_assoc. reflexivity.
Qed.

End WholeRun.

(** X7: [run] returns an error in exactly four cases: [getGobin] fails;
    [inspectGobin] fails; [goVersion] fails; or some record needs a rebuild
    and the scratch directory cannot be made.  In each case the error is
    the one of the failing step.  A failing [go install] never makes [run]
    return an error. *)
Theorem run_error_cases (env : Env) (upgrade : bool) (e : error) :
  fst (run env upgrade) = Err e <->
  env_getGobin env = Err e \/
  (exists dir, env_getGobin env = Ok dir /\ inspectGobin env dir = Err e) \/
  (exists dir programs,
     env_getGobin env = Ok dir /\ inspectGobin env dir = Ok programs /\
     env_goVersion env = Err e) \/
  (exists dir programs gover,
     env_getGobin env = Ok dir /\ inspectGobin env dir = Ok programs /\
     env_goVersion env = Ok gover /\
     existsb (needsRebuild upgrade gover) programs = true /\
     env_mkdirTemp env [] = inr e).
Proof.
  destruct (env_getGobin env) as [dir| |] eqn:Hd.
  2:{ unfold run. rewrite Hd. cbn. split.
      - intros [= ->]. now left.
      - intros [[= ->] | [(d & H & _) | [(d & ps & H & _) |
                (d & ps & g & H & _)]]]; [reflexivity | discriminate H..]. }
  2:{ unfold run. rewrite Hd. cbn. split; [discriminate|].
      intros [H | [(d & H & _) | [(d & ps & H & _) | (d & ps & g & H & _)]]];
        discriminate H. }
  destruct (inspectGobin env dir) as [programs| |] eqn:Hp.
  2:{ unfold run. rewrite Hd, Hp. cbn. split.
      - intros [= ->]. right; left. now exists dir.
      - intros [H | [(d & [= <-] & H) | [(d & ps & [= <-] & H & _) |
                (d & ps & g & [= <-] & H & _)]]];
          [discriminate H | | rewrite Hp in H; discriminate H..].
        rewrite Hp in H. now injection H as ->. }
  2:{ unfold run. rewrite Hd, Hp. cbn. split; [discriminate|].
      intros [H | [(d & [= <-] & H) | [(d & ps & [= <-] & H & _) |
                (d & ps & g & [= <-] & H & _)]]];
        [discriminate H | rewrite Hp in H; discriminate H..]. }
  destruct (env_goVersion env) as [gover| |] eqn:Hv.
  2:{ unfold run. rewrite Hd, Hp, Hv. cbn. split.
      - intros [= ->]. right; right; left. now exists dir, programs.
      - intros [H | [(d & [= <-] & H) | [(d & ps & [= <-] & H & Hv') |
                (d & ps & g & [= <-] & H & Hv' & _)]]];
          [discriminate H | rewrite Hp in H; discriminate H | |
           discriminate Hv'].
        now injection Hv' as ->. }
  2:{ unfold run. rewrite Hd, Hp, Hv. cbn. split; [discriminate|].
      intros [H | [(d & [= <-] & H) | [(d & ps & [= <-] & H & Hv') |
                (d & ps & g & [= <-] & H & Hv' & _)]]];
        [discriminate H | rewrite Hp in H; discriminate H | discriminate Hv'..]. }
  assert (Hrhs : (Ok dir = Err e \/
                  (exists d, Ok dir = Ok d /\ inspectGobin env d = Err e) \/
                  (exists d ps, Ok dir = Ok d /\ inspectGobin env d = Ok ps /\
                                Ok gover = Err e) \/
                  (exists d ps g,
                     Ok dir = Ok d /\ inspectGobin env d = Ok ps /\
                     Ok gover = Ok g /\
                     existsb (needsRebuild upgrade g) ps = true /\
                     env_mkdirTemp env [] = inr e)) <->
                 (existsb (needsRebuild upgrade gover) programs = true /\
                  env_mkdirTemp env [] = inr e)).
  { split.
    - intros [H | [(d & [= <-] & H) | [(d & ps & [= <-] & H & Hv') |
                (d & ps & g & [= <-] & H & [= <-] & Hsome & He')]]];
        [discriminate H | rewrite Hp in H; discriminate H | discriminate Hv' |].
      rewrite Hp in H. injection H as <-. now split.
    - intros [Hsome He']. right; right; right. now exists dir, programs, gover. }
  rewrite Hrhs. clear Hrhs.
  destruct (run_shapes env upgrade dir programs gover Hd Hp Hv)
    as [(Hno & ->) | [(Hsome & e0 & sk & He & ->) |
         (Hsome & name & errs & evs & lines & (tmp & rnd & Hmk & _) & _ & _
          & -> & _)]]; cbn [fst].
  - split; [discriminate | intros [H _]; congruence].
  - split.
    + intros [= ->]. now split.
    + intros [_ H]. congruence.
  - split; [discriminate | intros [_ H]; congruence].
Qed.

(** X8: when some record needs a rebuild and [os.MkdirTemp] fails, the
    failed call is all that happens: no install is run, nothing is removed,
    and the report is not logged, also not for the [(devel)] records met
    before. *)
Theorem run_without_scratch_dir (env : Env) (upgrade : bool) (dir : string)
    (programs : list program) (gover : string) (e : error) :
  env_getGobin env = Ok dir ->
  inspectGobin env dir = Ok programs ->
  env_goVersion env = Ok gover ->
  existsb (needsRebuild upgrade gover) programs = true ->
  env_mkdirTemp env [] = inr e ->
  fst (run env upgrade) = Err e /\
  trace (snd (run env upgrade)) = [EvMkdirTemp (inr e)].
Proof.
  intros Hd Hp Hv Hsome He.
  destruct (run_shapes env upgrade dir programs gover Hd Hp Hv)
    as [(Hno & _) | [(_ & e0 & sk & He0 & ->) |
         (_ & name & errs & evs & lines & (tmp & rnd & Hmk & _) & _)]];
    [congruence | | congruence].
  rewrite He in He0. injection He0 as <-. now split.
Qed.

Lemma run_without_scratch_dir_witness :
  fst (run (mkEnv (Ok "/go/bin") (fun _ => Ok sampleInventory) (Ok "go1.21")
              "/usr/bin/go" (fun _ => inr (ErrExternal "no space left"))
              (fun _ _ _ => None)) false)
  = Err (ErrExternal "no space left") /\
  trace (snd (run (mkEnv (Ok "/go/bin") (fun _ => Ok sampleInventory)
                     (Ok "go1.21") "/usr/bin/go"
                     (fun _ => inr (ErrExternal "no space left"))
                     (fun _ _ _ => None)) false))
  = [EvMkdirTemp (inr (ErrExternal "no space left"))].
Proof.
  exact (run_without_scratch_dir
           (mkEnv (Ok "/go/bin") (fun _ => Ok sampleInventory) (Ok "go1.21")
              "/usr/bin/go" (fun _ => inr (ErrExternal "no space left"))
              (fun _ _ _ => None))
           false "/go/bin" [alpha; beta] "go1.21" (ErrExternal "no space left")
           eq_refl eq_refl eq_refl eq_refl eq_refl).
Defined.

(** X9: a run that returns without error has treated the inventory in
    order: [skipped] holds the paths of the [(devel)] records that were not
    up to date, in inventory order; [go install path@target] was run once
    for each record that needed a rebuild, in inventory order and all in the
    one scratch directory; and [failed] holds the paths of those whose run
    failed, in that order. *)
Theorem run_rebuilds_in_order (env : Env) (upgrade : bool) (dir : string)
    (programs : list program) (gover : string) :
  env_getGobin env = Ok dir ->
  inspectGobin env dir = Ok programs ->
  env_goVersion env = Ok gover ->
  fst (run env upgrade) = Ok tt ->
  skipped (snd (run env upgrade))
  = map path (filter (unrebuildable upgrade gover) programs) /\
  exists errs,
    length errs = length (filter (needsRebuild upgrade gover) programs) /\
    runsOf (trace (snd (run env upgrade)))
    = runsFor (tempDir (snd (run env upgrade))) upgrade
        (combine (filter (needsRebuild upgrade gover) programs) errs) /\
    failed (snd (run env upgrade))
    = failedOf (combine (filter (needsRebuild upgrade gover) programs) errs).
Proof.
  intros Hd Hp Hv Hok.
  destruct (run_shapes env upgrade dir programs gover Hd Hp Hv)
    as [(Hno & Hr) | [(_ & e0 & sk & _ & Hr) |
         (_ & name & errs & evs & lines & _ & _ & Hlen & Hr & Hruns & _)]];
    rewrite Hr in Hok |- *; cbn [fst snd skipped failed tempDir trace] in *.
  - split; [reflexivity|]. exists [].
    destruct (forPrograms_idle_exact env upgrade gover programs initState Hno)
      as [_ ->].
    destruct (logs_hold_nothing
                (reportSection skippedHeader
                   (map path (filter (unrebuildable upgrade gover) programs))))
      as (-> & _).
    now repeat split.
  - discriminate Hok.
  - split; [reflexivity|]. exists errs. split; [exact Hlen|]. split; [|reflexivity].
    cbn [runsOf]. rewrite !runsOf_app, Hruns.
    destruct (logs_hold_nothing lines) as (-> & _). cbn. now rewrite !app_nil_r.
Qed.

Lemma run_rebuilds_in_order_witness :
  fst (run envFail false) = Ok tt /\
  skipped (snd (run envFail false)) = ["example.com/beta"] /\
  exists errs,
    length errs = 1 /\
    runsOf (trace (snd (run envFail false)))
    = runsFor "/tmp/rebuild-gobin-123" false (combine [alpha] errs) /\
    failed (snd (run envFail false)) = failedOf (combine [alpha] errs).
Proof.
  split; [reflexivity|].
  exact (run_rebuilds_in_order envFail false "/go/bin" [alpha; beta] "go1.21"
           eq_refl eq_refl eq_refl eq_refl).
Defined.

(** X10: the scratch directory is cleaned up: in every run, a directory
    that [os.MkdirTemp] made is removed by the last action of the run and
    only there; every [go install] ran in it; and a run that made no
    directory removes nothing and runs nothing. *)
Theorem run_cleans_up (env : Env) (upgrade : bool) :
  (createdOf (trace (snd (run env upgrade))) = [] /\
   removalsOf (trace (snd (run env upgrade))) = [] /\
   runsOf (trace (snd (run env upgrade))) = []) \/
  (exists d evs,
     trace (snd (run env upgrade))
     = EvMkdirTemp (inl d) :: evs ++ [EvRemoveAll d] /\
     createdOf evs = [] /\ removalsOf evs = [] /\
     Forall (fun r => fst (fst r) = d) (runsOf evs)).
Proof.
  destruct (env_getGobin env) as [dir| |] eqn:Hd;
    [|left; unfold run; rewrite Hd; now repeat split..].
  destruct (inspectGobin env dir) as [programs| |] eqn:Hp;
    [|left; unfold run; rewrite Hd, Hp; now repeat split..].
  destruct (env_goVersion env) as [gover| |] eqn:Hv;
    [|left; unfold run; rewrite Hd, Hp, Hv; now repeat split..].
  destruct (run_shapes env upgrade dir programs gover Hd Hp Hv)
    as [(_ & ->) | [(_ & e0 & sk & _ & ->) |
         (_ & name & errs & evs & lines & _ & _ & _ & -> & Hruns & _ & Hr & Hc)]];
    cbn [snd trace].
  - left. now destruct (logs_hold_nothing
                          (reportSection skippedHeader
                             (map path (filter (unrebuildable upgrade gover)
                                          programs)))) as (-> & -> & ->).
  - left. now repeat split.
  - right. exists name, (evs ++ map EvLog lines).
    destruct (logs_hold_nothing lines) as (Hl1 & Hl2 & Hl3).
    rewrite <- app_assoc, createdOf_app, removalsOf_app, runsOf_app,
      Hc, Hr, Hl1, Hl2, Hl3, Hruns, !app_nil_r.
    repeat split. unfold runsFor. apply Forall_forall.
    intros r (pe & <- & _)%in_map_iff. reflexivity.
Qed.

(** X11: with [-u] no binary is left alone: in a run that returns
    without error, each record of the inventory was either handed to
    [go install] or recorded as skipped. *)
Theorem upgrade_treats_every_record (env : Env) (dir : string)
    (programs : list program) (gover : string) :
  env_getGobin env = Ok dir ->
  inspectGobin env dir = Ok programs ->
  env_goVersion env = Ok gover ->
  fst (run env true) = Ok tt ->
  length (runsOf (trace (snd (run env true))))
  + length (skipped (snd (run env true)))
  = length programs.
Proof.
  intros Hd Hp Hv Hok.
  assert (Hpart : forall ps : list program,
             length (filter (needsRebuild true gover) ps)
             + length (filter (unrebuildable true gover) ps) = length ps).
  { induction ps as [|p ps IH]; [reflexivity|]. cbn [filter].
    unfold needsRebuild, unrebuildable in *. cbn [negb andb] in *.
    destruct (modVersion p =? "(devel)"); cbn [negb length]; lia. }
  destruct (run_shapes env true dir programs gover Hd Hp Hv)
    as [(Hno & Hr) | [(_ & e0 & sk & _ & Hr) |
         (_ & name & errs & evs & lines & _ & _ & Hlen & Hr & Hruns & _)]];
    rewrite Hr in Hok |- *; cbn [fst snd skipped trace] in *.
  - destruct (logs_hold_nothing
                (reportSection skippedHeader
                   (map path (filter (unrebuildable true gover) programs))))
      as (-> & _).
    destruct (forPrograms_idle_exact env true gover programs initState Hno)
      as [_ Hf].
    specialize (Hpart programs). rewrite Hf in Hpart.
    rewrite length_map. exact Hpart.
  - discriminate Hok.
  - cbn [runsOf]. rewrite !runsOf_app, Hruns.
    destruct (logs_hold_nothing lines) as (-> & _). cbn [runsOf app].
    rewrite app_nil_r. unfold runsFor.
    rewrite !length_map, length_combine, Hlen, Nat.min_id. apply Hpart.
Qed.

Lemma upgrade_treats_every_record_witness :
  fst (run envOk true) = Ok tt /\
  length (runsOf (trace (snd (run envOk true))))
  + length (skipped (snd (run envOk true))) = 2.
Proof.
  split; [reflexivity|].
  exact (upgrade_treats_every_record envOk "/go/bin" [alpha; beta] "go1.21"
           eq_refl eq_refl eq_refl eq_refl).
Defined.

(* ================================================================== *)
(** * The install directory *)

Section InstallDirectory.

Import Filepath.

(** The table of [TestClean] of package [path/filepath], Unix part. *)
Example Clean_table :
  map Clean
    ["abc"; "abc/def"; "a/b/c"; "."; ".."; "../.."; "../../abc"; "/abc"; "/";
     EmptyString; "abc/"; "abc/def/"; "a/b/c/"; "./"; "../"; "../../"; "/abc/";
     "abc//def//ghi"; "//abc"; "///abc"; "//abc//"; "abc//";
     "abc/./def"; "/./abc/def"; "abc/.";
     "abc/def/ghi/../jkl"; "abc/def/../ghi/../jkl"; "abc/def/.."; "abc/def/../..";
     "/abc/def/../.."; "abc/def/../../.."; "/abc/def/../../..";
     "abc/def/../../../ghi/jkl/../../../mno"; "/../abc";
     "abc/./../def"; "abc//./../def"; "abc/../../././../def"]
  = ["abc"; "abc/def"; "a/b/c"; "."; ".."; "../.."; "../../abc"; "/abc"; "/";
     "."; "abc"; "abc/def"; "a/b/c"; "."; ".."; "../.."; "/abc";
     "abc/def/ghi"; "/abc"; "/abc"; "/abc"; "abc";
     "abc/def"; "/abc/def"; "abc";
     "abc/def/jkl"; "abc/jkl"; "abc"; ".";
     "/"; ".."; "/";
     "../../mno"; "/abc";
     "def"; "def"; "../../def"].
Proof. reflexivity. Qed.

(** The usual install directories. *)
Example Join_examples :
  Join "/home/user/go" "bin" = "/home/user/go/bin" /\
  Join "/home/user/go/" "bin" = "/home/user/go/bin" /\
  Join EmptyString "bin" = "bin".
Proof. repeat split; reflexivity. Qed.

Lemma Clean_nonempty (p : string) : Clean p <> EmptyString.
Proof.
  unfold Clean.
  destruct (fold_left _ _ _) as [dots written].
  destruct (_ =? EmptyString) eqn:E; [discriminate|].
  now apply String.eqb_neq in E.
Qed.

Lemma Join_bin_nonempty (gopath : string) : Join gopath "bin" <> EmptyString.
Proof.
  unfold Join. destruct (negb (gopath =? EmptyString)); apply Clean_nonempty.
Qed.

End InstallDirectory.

Section Discovery.

Import Discover.

Variable sys : Sys.

Lemma getGobin_nonempty (dir : string) :
  getGobin sys = Ok dir -> dir <> EmptyString.
Proof.
  unfold getGobin.
  destruct (sys_output sys _) as [buf|e]; [|discriminate].
  destruct (sys_unmarshal sys _ _ buf) as [[gobin gopath]|msg]; [|discriminate].
  destruct (gobin =? EmptyString) eqn:E; cbn [negb]; intros [= <-].
  - apply Join_bin_nonempty.
  - now apply String.eqb_neq in E.
Qed.

Lemma getGobin_no_panic (m : string) : getGobin sys <> Panic m.
Proof.
  unfold getGobin.
  destruct (sys_output sys _) as [buf|e]; [|discriminate].
  destruct (sys_unmarshal sys _ _ buf) as [[gobin gopath]|msg]; [|discriminate].
  destruct (negb _); discriminate.
Qed.

Lemma goVersion_no_panic (m : string) : Discover.goVersion sys <> Panic m.
Proof.
  unfold Discover.goVersion.
  destruct (sys_output sys _) as [buf|e]; [|discriminate].
  destruct (sys_unmarshal sys _ _ buf) as [[os arch]|msg]; [|discriminate].
  destruct (sys_output sys _); discriminate.
Qed.

(** With a directory that is not empty the parser does not panic. *)
Lemma inspectGobin_no_panic (dir m : string) :
  dir <> EmptyString -> inspectGobin (envOf sys) dir <> Panic m.
Proof.
  intros Hdir. unfold inspectGobin, envOf. cbn [env_goVersionM].
  destruct (sys_output sys _) as [buf|e]; [|discriminate].
  unfold parseInventory. destruct (Bufio.scan buf) as [lines scanErr].
  pose proof (scanLoop_emits dir lines [] zeroProgram) as H.
  destruct (scanLoop dir lines _) as [[out current]| |].
  - destruct scanErr; discriminate.
  - discriminate.
  - now destruct H.
Qed.

End Discovery.

(** X12: [getGobin] never returns an empty directory: it returns [GOBIN]
    when that is set, and otherwise the cleaned join of [GOPATH] and [bin],
    which is [bin] for an empty [GOPATH]; a failure to run [go env] is
    returned as it is and a failure to decode its output is wrapped. *)
Theorem getGobin_result (sys : Discover.Sys) :
  match Discover.getGobin sys with
  | Ok dir =>
      dir <> EmptyString /\
      exists buf gobin gopath,
        Discover.sys_output sys ["env"; "-json"; "GOBIN"; "GOPATH"] = inl buf /\
        Discover.sys_unmarshal sys "GOBIN" "GOPATH" buf = inl (gobin, gopath) /\
        (gobin <> EmptyString -> dir = gobin) /\
        (gobin = EmptyString -> gopath <> EmptyString ->
         dir = Filepath.Clean (gopath ++ "/bin")) /\
        (gobin = EmptyString -> gopath = EmptyString -> dir = "bin")
  | Err e =>
      Discover.sys_output sys ["env"; "-json"; "GOBIN"; "GOPATH"] = inr e \/
      exists buf msg,
        Discover.sys_output sys ["env"; "-json"; "GOBIN"; "GOPATH"] = inl buf /\
        Discover.sys_unmarshal sys "GOBIN" "GOPATH" buf = inr msg /\
        e = ErrExternal ("cannot parse go env output: " ++ msg)
  | Panic _ => False
  end.
Proof.
  pose proof (getGobin_nonempty sys) as Hne.
  unfold Discover.getGobin in *.
  destruct (Discover.sys_output sys _) as [buf|e]; [|now left].
  destruct (Discover.sys_unmarshal sys _ _ buf) as [[gobin gopath]|msg] eqn:Hu.
  - destruct (gobin =? EmptyString) eqn:E; cbn [negb] in *.
    + apply String.eqb_eq in E. subst gobin.
      split; [now apply Hne|]. exists buf, EmptyString, gopath.
      split; [reflexivity|]. split; [exact Hu|].
      split; [congruence|]. split.
      * intros _ Hg. unfold Filepath.Join.
        apply String.eqb_neq in Hg. now rewrite Hg.
      * intros _ ->. reflexivity.
    + apply String.eqb_neq in E.
      split; [exact E|]. exists buf, gobin, gopath.
      split; [reflexivity|]. split; [exact Hu|]. split; [reflexivity|].
      split; intros H; contradiction.
  - right. now exists buf, msg.
Qed.

(** X13: [run] never panics: the one panic of the program, the slice of an
    empty line in [inspectGobin], needs an empty directory, and [getGobin]
    returns none. *)
Theorem run_never_panics (sys : Discover.Sys) (upgrade : bool) (m : string) :
  fst (run (Discover.envOf sys) upgrade) <> Panic m.
Proof.
  destruct (env_getGobin (Discover.envOf sys)) as [dir| |] eqn:Hd.
  - assert (Hdir : dir <> EmptyString) by (now apply (getGobin_nonempty sys)).
    destruct (inspectGobin (Discover.envOf sys) dir) as [programs| |] eqn:Hp.
    + destruct (env_goVersion (Discover.envOf sys)) as [gover| |] eqn:Hv.
      * destruct (run_shapes (Discover.envOf sys) upgrade dir programs gover
                    Hd Hp Hv)
          as [(_ & ->) | [(_ & e0 & sk & _ & ->) |
               (_ & name & errs & evs & lines & _ & _ & _ & -> & _)]];
          discriminate.
      * unfold run. rewrite Hd, Hp, Hv. discriminate.
      * now apply goVersion_no_panic in Hv.
    + unfold run. rewrite Hd, Hp. discriminate.
    + now apply inspectGobin_no_panic in Hp.
  - unfold run. rewrite Hd. discriminate.
  - now apply getGobin_no_panic in Hd.
Qed.

(* ================================================================== *)
(** * The active toolchain version *)

Section Trimming.

Import Bytes.

Example TrimSpace_examples :
  TrimSpace (" go1.21.0 " ++ lf) = "go1.21.0" /\
  TrimSpace (tab ++ " " ++ lf) = EmptyString /\
  TrimSpace (String "194" (String "160" "a b") ++ String "226"
               (String "128" (String "168" EmptyString))) = "a b" /\
  TrimSpace ("a" ++ String "194" (String "160" (String "160" EmptyString)))
  = ("a" ++ String "194" (String "160" (String "160" EmptyString)))%string.
Proof. repeat split; reflexivity. Qed.

Lemma asciiSpace_ascii (c : ascii) :
  asciiSpace c = true -> (128 <=? byteval c)%N = false.
Proof.
  unfold asciiSpace, inRange. intros H. apply N.leb_gt.
  apply orb_true_iff in H as [H|H].
  - apply andb_true_iff in H as [_ H]. apply N.leb_le in H. lia.
  - apply N.eqb_eq in H. lia.
Qed.

Lemma plainByte_facts (c : ascii) :
  plainByte c = true ->
  (128 <=? byteval c)%N = false /\ asciiSpace c = false.
Proof.
  unfold plainByte. intros [H1 H2]%andb_true_iff.
  apply N.ltb_lt in H1. apply negb_true_iff in H2.
  split; [apply N.leb_gt; lia | exact H2].
Qed.

Lemma trimRightASCII_spaces (t : string) :
  allSpaces t = true -> trimRightASCII t = (EmptyString, false).
Proof.
  induction t as [|c t IH]; [reflexivity|]. cbn [allSpaces trimRightASCII].
  intros [Hc Ht]%andb_true_iff. rewrite (IH Ht), (asciiSpace_ascii c Hc), Hc.
  reflexivity.
Qed.

Lemma trimRightASCII_plain (core trail : string) (c : ascii) :
  lastByte core = Some c -> plainByte c = true -> allSpaces trail = true ->
  trimRightASCII (core ++ trail) = (core, false).
Proof.
  intros Hlast Hc Ht. induction core as [|d core IH]; [discriminate Hlast|].
  cbn [append trimRightASCII]. destruct core as [|d' core'].
  - cbn [append]. rewrite (trimRightASCII_spaces _ Ht).
    cbn in Hlast. injection Hlast as ->.
    destruct (plainByte_facts c Hc) as [-> ->]. reflexivity.
  - rewrite (IH Hlast). reflexivity.
Qed.

(** [TrimSpace] on text that has ASCII spaces around a core with plain
    ends: the core is what remains. *)
Lemma TrimSpace_plain (lead core trail : string) :
  allSpaces lead = true -> plainEnds core = true -> allSpaces trail = true ->
  TrimSpace (lead ++ core ++ trail) = core.
Proof.
  intros Hl Hcore Ht. induction lead as [|s lead IH].
  - cbn [append]. unfold plainEnds in Hcore.
    destruct core as [|c core']; [discriminate Hcore|].
    apply andb_true_iff in Hcore as [Hc Hlast].
    destruct (lastByte (String c core')) as [z|] eqn:Hz; [|discriminate Hlast].
    change (String c core' ++ trail)%string
      with (String c (core' ++ trail)).
    cbn [TrimSpace]. destruct (plainByte_facts c Hc) as [-> ->].
    change (String c (core' ++ trail)) with (String c core' ++ trail)%string.
    now rewrite (trimRightASCII_plain _ _ z Hz Hlast Ht).
  - cbn [allSpaces] in Hl. apply andb_true_iff in Hl as [Hs Hl].
    cbn [append TrimSpace]. rewrite (asciiSpace_ascii s Hs), Hs.
    exact (IH Hl).
Qed.

Lemma TrimPrefix_append (pre s : string) : TrimPrefix (pre ++ s) pre = s.
Proof.
  unfold TrimPrefix, HasPrefix.
  replace (String.prefix pre (pre ++ s)) with true
    by (symmetry; apply prefix_iff; now exists s).
  apply drop_append.
Qed.

Lemma take_append (a b : string) : take (String.length a) (a ++ b) = a.
Proof. induction a as [|c a IH]; [now destruct b | cbn; now rewrite IH]. Qed.

Lemma TrimSuffix_append (s suffix : string) :
  TrimSuffix (s ++ suffix) suffix = s.
Proof.
  unfold TrimSuffix, HasSuffix. rewrite length_append.
  replace (String.length s + String.length suffix - String.length suffix)
    with (String.length s) by lia.
  rewrite drop_append, String.eqb_refl.
  replace (String.length suffix <=? String.length s + String.length suffix)%nat
    with true by (symmetry; apply Nat.leb_le; lia).
  apply take_append.
Qed.

Lemma lastByte_plain_word (c : ascii) (w : string) :
  plainByte c = true -> isWord w = true ->
  exists z, lastByte (String c w) = Some z /\ plainByte z = true.
Proof.
  revert c. induction w as [|d w IH]; intros c Hc Hw.
  - now exists c.
  - unfold isWord in Hw. cbn [allASCII noSpace] in Hw.
    apply andb_true_iff in Hw as [[Hd Ha]%andb_true_iff [Hn Hs]%andb_true_iff].
    change (lastByte (String c (String d w))) with (lastByte (String d w)).
    apply IH.
    + unfold plainByte. now rewrite Hd, Hn.
    + unfold isWord. now rewrite Ha, Hs.
Qed.

End Trimming.

(** Equations between sums of strings that differ in grouping only. *)
Ltac regroup :=
  repeat first [rewrite append_assoc | progress cbn [append]]; reflexivity.

(** X14: [goVersion] reads the version off the usual line of
    [go version]: when the line is [go version], a space, the version, a
    space, [GOOS/GOARCH] and a newline, with [GOOS] and [GOARCH] as
    [go env] reports them, the result is the version, whatever spaces it has
    inside. *)
Theorem goVersion_reads_version (sys : Discover.Sys)
    (envText v os arch : string) :
  Discover.sys_output sys ["env"; "-json"; "GOOS"; "GOARCH"] = inl envText ->
  Discover.sys_unmarshal sys "GOOS" "GOARCH" envText = inl (os, arch) ->
  Discover.sys_output sys ["version"]
  = inl ("go version " ++ v ++ " " ++ os ++ "/" ++ arch ++ lf)%string ->
  plainEnds v = true ->
  isWord arch = true ->
  Discover.goVersion sys = Ok v.
Proof.
  intros Henv Hjson Hver Hv Harch. unfold Discover.goVersion.
  rewrite Henv, Hjson, Hver. cbv zeta. f_equal.
  assert (Hcore : plainEnds ("go version " ++ v ++ " " ++ os ++ "/" ++ arch)
                  = true).
  { unfold plainEnds. apply andb_true_iff. split; [reflexivity|].
    destruct (lastByte_plain_word "/" arch eq_refl Harch) as (z & Hz & Hp).
    replace ("go version " ++ v ++ " " ++ os ++ "/" ++ arch)%string
      with (("go version " ++ v ++ " " ++ os) ++ String "/" arch)%string
      by regroup.
    rewrite lastByte_append by discriminate. now rewrite Hz. }
  replace ("go version " ++ v ++ " " ++ os ++ "/" ++ arch ++ lf)%string
    with (EmptyString ++ ("go version " ++ v ++ " " ++ os ++ "/" ++ arch) ++ lf)%string
    by regroup.
  rewrite (TrimSpace_plain EmptyString _ lf eq_refl Hcore eq_refl).
  replace ("go version " ++ v ++ " " ++ os ++ "/" ++ arch)%string
    with ("go version" ++ ((" " ++ v ++ " ") ++ (os ++ "/" ++ arch)))%string
    by regroup.
  rewrite TrimPrefix_append, TrimSuffix_append.
  exact (TrimSpace_plain " " v " " eq_refl Hv eq_refl).
Qed.

Lemma goVersion_reads_version_witness :
  plainEnds "devel +4de4480dc3 Fri Dec 4 22:08:54 2020 +0000" = true /\
  isWord "amd64" = true /\
  Discover.goVersion
    (sampleSys "devel +4de4480dc3 Fri Dec 4 22:08:54 2020 +0000")
  = Ok "devel +4de4480dc3 Fri Dec 4 22:08:54 2020 +0000".
Proof.
  split; [reflexivity|]. split; [reflexivity|].
  exact (goVersion_reads_version
           (sampleSys "devel +4de4480dc3 Fri Dec 4 22:08:54 2020 +0000")
           "{}" "devel +4de4480dc3 Fri Dec 4 22:08:54 2020 +0000"
           "linux" "amd64" eq_refl eq_refl eq_refl eq_refl eq_refl).
Defined.

(* ================================================================== *)
(** * From the outside to the rebuilds *)

(** Records that rule 1 skips need no rebuild and are not recorded. *)
Lemma all_skipped (upgrade : bool) (gover : string) (programs : list program) :
  (forall p, In p programs ->
             negb upgrade && (goVersion p =? gover) = true) ->
  existsb (needsRebuild upgrade gover) programs = false /\
  filter (unrebuildable upgrade gover) programs = [].
Proof.
  induction programs as [|p ps IH]; intros Hskip; [now split|].
  destruct IH as [IH1 IH2]; [intros q Hq; apply Hskip; now right|].
  cbn [existsb filter]. unfold needsRebuild at 1, unrebuildable at 1.
  rewrite (Hskip p (or_introl eq_refl)). cbn [negb andb orb]. now split.
Qed.

(** X15: binaries built with the active toolchain are left alone: when
    [go version -m] reports binaries that all have the Go version that
    [goVersion] returns, [run] without [-u] returns without error and does
    nothing at all: no directory is made, nothing is installed, nothing is
    logged. *)
Theorem up_to_date_binaries_left_alone (sys : Discover.Sys) (dir V : string)
    (bs : list binaryInfo) :
  Discover.getGobin sys = Ok dir ->
  HasPrefix dir tab = false ->
  Discover.sys_output sys ["version"; "-m"; dir]
  = inl (unlines (renderLines bs)) ->
  Forall (readable dir) bs ->
  Forall (fun l => (len l < Bufio.MaxScanTokenSize)%Z) (renderLines bs) ->
  Discover.goVersion sys = Ok V ->
  Forall (fun b => goVersion (binProgram b) = V) bs ->
  run (Discover.envOf sys) false = (Ok tt, initState).
Proof.
  intros Hd Htab Hout Hread Hlen Hv Hsame.
  assert (Hdir : dir <> EmptyString) by (now apply (getGobin_nonempty sys)).
  assert (Hp : inspectGobin (Discover.envOf sys) dir = Ok (map binProgram bs)).
  { unfold inspectGobin, Discover.envOf. cbn [env_goVersionM]. rewrite Hout.
    now apply parseInventory_render. }
  assert (Hskip : forall p, In p (map binProgram bs) ->
                            negb false && (goVersion p =? V) = true).
  { intros p (b & <- & Hb)%in_map_iff. rewrite Forall_forall in Hsame.
    rewrite (Hsame b Hb). cbn. apply String.eqb_refl. }
  destruct (all_skipped false V (map binProgram bs) Hskip) as [Hno Hun].
  destruct (run_shapes (Discover.envOf sys) false dir (map binProgram bs) V
              Hd Hp Hv)
    as [(_ & ->) | [(Hsome & _) | (Hsome & _)]]; [|congruence..].
  now rewrite Hun.
Qed.

Lemma up_to_date_binaries_left_alone_witness :
  Discover.getGobin (sampleSys "go1.21.0") = Ok "/go/bin" /\
  Discover.goVersion (sampleSys "go1.21.0") = Ok "go1.21.0" /\
  run (Discover.envOf (sampleSys "go1.21.0")) false = (Ok tt, initState).
Proof.
  split; [reflexivity|]. split; [reflexivity|].
  apply (up_to_date_binaries_left_alone (sampleSys "go1.21.0") "/go/bin"
           "go1.21.0" sampleBinaries); try reflexivity.
  - repeat constructor; discriminate.
  - repeat constructor.
  - repeat constructor.
Defined.

(** The same binaries under a newer toolchain: [alpha] is installed again
    at its version and [beta] is reported. *)
Example outdated_binaries_rebuilt :
  run (Discover.envOf (sampleSys "go1.22.0")) false
  = (Ok tt,
     mkState ["example.com/beta"] [] "/tmp/rebuild-gobin-123" []
       [EvMkdirTemp (inl "/tmp/rebuild-gobin-123");
        EvLog "running: /usr/bin/go install example.com/alpha@v1.2.0";
        EvRun "/tmp/rebuild-gobin-123" ["install"; "example.com/alpha@v1.2.0"]
          None;
        EvLog skippedHeader; EvLog "  example.com/beta";
        EvRemoveAll "/tmp/rebuild-gobin-123"]).
Proof. reflexivity. Qed.

(* ================================================================== *)
(** * The methods of [program] *)

(** X16: [empty] holds of the zero value [program{}] and of nothing else,
    and no valid record is empty. *)
Theorem empty_is_zero (p : program) :
  (empty p = true <-> p = zeroProgram) /\
  (valid p = true -> empty p = false).
Proof.
  destruct p as [a b c]. unfold empty, valid, zeroProgram.
  cbn [path modVersion goVersion]. split; [split|].
  - intros [[Ha Hb]%andb_true_iff Hc]%andb_true_iff.
    apply String.eqb_eq in Ha, Hb, Hc. now subst.
  - intros [= -> -> ->]. reflexivity.
  - intros [[Ha _]%andb_true_iff _]%andb_true_iff.
    apply negb_true_iff in Ha. now rewrite Ha.
Qed.

Lemma empty_is_zero_witness :
  valid alpha = true /\ empty alpha = false /\ empty zeroProgram = true.
Proof.
  split; [reflexivity|]. split.
  - exact (proj2 (empty_is_zero alpha) eq_refl).
  - reflexivity.
Defined.

(* ================================================================== *)
(** * The error of the parser *)

Section ScannerError.

Import Bufio.

(** The scanner reports an error exactly when a line does not fit its
    buffer, and the error is [ErrTooLong]. *)
Lemma tokens_error (ps : list string) (e : error) :
  snd (tokens ps) = Some e <->
  e = ErrTooLong /\
  Exists (fun l => (MaxScanTokenSize <= len l)%Z) ps.
Proof.
  induction ps as [|l rest IH].
  - cbn. split; [discriminate | intros [_ H]; inversion H].
  - destruct rest as [|r rs].
    + assert (Hone : forall P : Prop, (Exists (fun l => (MaxScanTokenSize <= len l)%Z) [l]) <->
                                      (MaxScanTokenSize <= len l)%Z).
      { intros _. split; [intros H; inversion H; subst; [assumption|] |
                          intros H; now constructor].
        match goal with H : Exists _ [] |- _ => inversion H end. }
      rewrite (Hone True). cbn [tokens].
      destruct l as [|c l].
      * cbn [snd]. split; [discriminate|]. intros [_ H].
        unfold MaxScanTokenSize, len in H. cbn in H. lia.
      * destruct (len (String c l) <? MaxScanTokenSize)%Z eqn:E; cbn [snd].
        -- apply Z.ltb_lt in E. split; [discriminate | intros [_ H]; lia].
        -- apply Z.ltb_ge in E. split; [intros [= <-]; now split | now intros [-> _]].
    + rewrite (tokens_cons l (r :: rs)) by discriminate.
      destruct (len l <? MaxScanTokenSize)%Z eqn:E.
      * apply Z.ltb_lt in E. destruct (tokens (r :: rs)) as [ts e'] eqn:Et.
        cbn [snd] in *. rewrite IH. split; intros [He Hex]; (split; [exact He|]).
        -- now apply Exists_cons_tl.
        -- inversion Hex; subst; [lia | assumption].
      * apply Z.ltb_ge in E. cbn [snd]. split.
        -- intros [= <-]. split; [reflexivity | now apply Exists_cons_hd].
        -- now intros [-> _].
Qed.

End ScannerError.

(** X17: the one error of the parser: for a directory that is not empty,
    [inspectGobin] fails on the text of [go version -m] exactly when one
    of its lines is 64 KiB long or longer; the error is then
    [bufio.ErrTooLong], and no record is returned, also not those of the
    lines before. *)
Theorem parser_fails_on_long_line (dir buf : string) (e : error) :
  dir <> EmptyString ->
  (parseInventory dir buf = Err e <->
   e = ErrTooLong /\
   Exists (fun l => (Bufio.MaxScanTokenSize <= len l)%Z) (Bufio.pieces buf)).
Proof.
  intros Hdir. rewrite <- tokens_error. unfold parseInventory, Bufio.scan.
  destruct (Bufio.tokens (Bufio.pieces buf)) as [lines scanErr]. cbn [snd].
  pose proof (scanLoop_emits dir lines [] zeroProgram) as H.
  destruct (scanLoop dir lines _) as [[out current]| |].
  - destruct scanErr as [e'|]; split; congruence.
  - contradiction.
  - now destruct H.
Qed.

Lemma parser_fails_on_long_line_witness :
  "/go/bin" <> EmptyString /\
  Exists (fun l => (Bufio.MaxScanTokenSize <= len l)%Z)
    (Bufio.pieces
       ("/go/bin/alpha: go1.20" ++ lf ++ "path example.com/alpha" ++ lf
        ++ "mod example.com/alpha v1.2.0" ++ lf
        ++ Pos.iter (String "a") EmptyString 65536)).
Proof.
  assert (Hd : "/go/bin" <> EmptyString) by discriminate.
  split; [exact Hd|].
  exact (proj2 (proj1 (parser_fails_on_long_line "/go/bin" _ ErrTooLong Hd)
                  parseInventory_line_too_long)).
Defined.
